(** * Homa outgoing path: a shallow embedding of [homa_outgoing.c]

    The development follows the source file function by function:
    [set_priority], [homa_message_out_init], [homa_message_out_reset],
    [homa_message_out_destroy], [homa_xmit_data], [__homa_xmit_data],
    [homa_resend_data], [homa_update_idle_time] and
    [homa_add_to_throttled].  Kernel objects are records, pointers into
    the packet list of a message are indices, the process-wide state is
    threaded explicitly, and the kernel services the file calls
    ([get_cycles], [alloc_skb], [skb_add_data_nocache], [ip_queue_xmit],
    [homa_unsched_priority]) are oracles collected in one record. *)

From Stdlib Require Import ZArith Lia List Bool Sorted.
From stdpp Require Import base list sorting.

Open Scope Z_scope.

(** ** Machine integers

    C's [int] is 32 bits and signed, [__u32] is 32 bits, [__u64],
    [size_t], [cycles_t] and the bit pattern of an [atomic_long_t] are
    64 bits.  The kernel is built with wrapping signed arithmetic, so
    every operation is followed by the reduction into its type. *)

Definition s32 (z : Z) : Z := (z + 2 ^ 31) mod 2 ^ 32 - 2 ^ 31.
Definition u32 (z : Z) : Z := z mod 2 ^ 32.
Definition u64 (z : Z) : Z := z mod 2 ^ 64.
Definition u16 (z : Z) : Z := z mod 2 ^ 16.

(** Byte [k] of a value, least significant first. *)
Definition byte_of (k : Z) (z : Z) : Z := (z / 256 ^ k) mod 256.

(** Byte order conversions of a little-endian host. *)
Definition htonl (z : Z) : Z :=
  let x := u32 z in
  byte_of 0 x * 2 ^ 24 + byte_of 1 x * 2 ^ 16 + byte_of 2 x * 2 ^ 8 + byte_of 3 x.
Definition ntohl (z : Z) : Z := htonl z.
Definition htons (z : Z) : Z :=
  let x := u16 z in byte_of 0 x * 2 ^ 8 + byte_of 1 x.

(** ** Constants *)

(** Modelled from the spec: [HOMA_MAX_DATA_PER_PACKET], the payload bytes
    of a full data packet, is defined in [homa_impl.h], which is not
    among the sources.  The specification fixes it at 1400 for its
    scenarios, and the unit tests show the same value (offsets
    0/1400/2800). *)
Definition HOMA_MAX_DATA_PER_PACKET : Z := 1400.

(** Linux errno values. *)
Definition EINVAL : Z := 22.
Definition ENOMEM : Z := 12.
Definition EFAULT : Z := 14.

(** Linux VLAN tag layout ([if_vlan.h]). *)
Definition VLAN_PRIO_SHIFT : Z := 13.
Definition VLAN_PRIO_MASK : Z := 57344.
Definition VLAN_TAG_PRESENT : Z := 4096.

(** The remaining constants come from [homa_impl.h], which is not among
    the sources; they enter as parameters. *)
Record homa_impl_h := mk_homa_impl_h {
  HOMA_MAX_MESSAGE_LENGTH : Z;
  HOMA_MAX_IPV4_HEADER : Z;
  HOMA_VLAN_HEADER : Z;
  HOMA_ETH_OVERHEAD : Z;
  HOMA_FLAG_DONT_THROTTLE : Z;
  sizeof_data_header : Z
}.

(** ** Data model *)

Inductive homa_packet_type := DATA | GRANT | RESEND.

(** [struct data_header], fields in network byte order as on the wire. *)
Record data_header := mk_data_header {
  h_sport : Z;
  h_dport : Z;
  h_id : Z;
  h_type : homa_packet_type;
  h_message_length : Z;
  h_offset : Z;
  h_unscheduled : Z;
  h_cutoff_version : Z;
  h_retransmit : Z
}.

(** The part of [struct sk_buff] the file reads or writes: the data
    header at the transport header, the number of payload bytes after it,
    the reference count, the VLAN fields, whether a route is attached and
    the number of bytes in front of the transport header. *)
Record sk_buff := mk_sk_buff {
  hdr : data_header;
  payload : Z;
  users : Z;
  vlan_proto : Z;
  vlan_tci : Z;
  skb_dst : bool;
  skb_transport_offset : Z
}.

Record homa_peer := mk_homa_peer {
  cutoff_version : Z
}.

(** [struct homa_message_out].  [packets] is the linked list of buffers;
    a pointer into it ([next_packet]) is the index of the buffer, [None]
    for [NULL].  The C field [length] is [msg_length] here. *)
Record homa_message_out := mk_homa_message_out {
  msg_length : Z;
  packets : list sk_buff;
  next_packet : option nat;
  next_offset : Z;
  unscheduled : Z;
  granted : Z;
  sched_priority : Z
}.

Record homa_rpc := mk_homa_rpc {
  rpc_id : Z;
  msgout : homa_message_out;
  peer : homa_peer
}.

(** [struct homa].  [throttled_rpcs] holds the RPCs by address;
    [link_idle_time] is the 64-bit pattern of the atomic. *)
Record homa := mk_homa {
  rtt_bytes : Z;
  link_idle_time : Z;
  cycles_per_kbyte : Z;
  max_nic_queue_cycles : Z;
  throttle_min_bytes : Z;
  max_prio : Z;
  flags : Z;
  throttled_rpcs : list nat
}.

Record homa_metrics := mk_homa_metrics {
  packets_sent_data : Z;
  data_xmit_errors : Z;
  resent_packets : Z
}.

(** What one call of [ip_queue_xmit] does, as far as this file can see:
    its return value, whether the reference handed over has already been
    dropped when it returns, whether it released the route, and how many
    header bytes it left in front of the transport header. *)
Record ip_outcome := mk_ip_outcome {
  ip_err : Z;
  ip_consumed : bool;
  ip_dst_released : bool;
  ip_pushed : Z
}.

(** The collaborators.  Each oracle is indexed by the number of earlier
    calls, so any behaviour over time can be described. *)
Record externals := mk_externals {
  get_cycles_at : nat -> Z;
  alloc_skb_ok : nat -> bool;
  skb_add_data_nocache : nat -> Z;
  ip_queue_xmit : nat -> ip_outcome;
  homa_unsched_priority : homa_peer -> Z -> Z
}.

(** The state the functions of the file act on: the transport, the RPCs
    by address, the number of clock readings so far, the packets handed
    to IP (oldest first), the metrics, and the wake-ups of the pacer. *)
Record world := mk_world {
  w_homa : homa;
  w_rpcs : nat -> homa_rpc;
  w_clock : nat;
  w_wire : list sk_buff;
  w_metrics : homa_metrics;
  w_wakeups : nat
}.

(** *** Field updates *)

Definition set_cutoff_version (v : Z) (h : data_header) : data_header :=
  mk_data_header (h_sport h) (h_dport h) (h_id h) (h_type h)
    (h_message_length h) (h_offset h) (h_unscheduled h) v (h_retransmit h).

Definition set_retransmit (v : Z) (h : data_header) : data_header :=
  mk_data_header (h_sport h) (h_dport h) (h_id h) (h_type h)
    (h_message_length h) (h_offset h) (h_unscheduled h) (h_cutoff_version h) v.

Definition skb_set_hdr (h : data_header) (skb : sk_buff) : sk_buff :=
  mk_sk_buff h (payload skb) (users skb) (vlan_proto skb) (vlan_tci skb)
    (skb_dst skb) (skb_transport_offset skb).

Definition skb_set_payload (n : Z) (skb : sk_buff) : sk_buff :=
  mk_sk_buff (hdr skb) n (users skb) (vlan_proto skb) (vlan_tci skb)
    (skb_dst skb) (skb_transport_offset skb).

Definition skb_set_users (n : Z) (skb : sk_buff) : sk_buff :=
  mk_sk_buff (hdr skb) (payload skb) n (vlan_proto skb) (vlan_tci skb)
    (skb_dst skb) (skb_transport_offset skb).

Definition skb_set_vlan (proto tci : Z) (skb : sk_buff) : sk_buff :=
  mk_sk_buff (hdr skb) (payload skb) (users skb) proto tci
    (skb_dst skb) (skb_transport_offset skb).

Definition skb_set_route (d : bool) (skb : sk_buff) : sk_buff :=
  mk_sk_buff (hdr skb) (payload skb) (users skb) (vlan_proto skb) (vlan_tci skb)
    d (skb_transport_offset skb).

Definition skb_set_transport_offset (n : Z) (skb : sk_buff) : sk_buff :=
  mk_sk_buff (hdr skb) (payload skb) (users skb) (vlan_proto skb) (vlan_tci skb)
    (skb_dst skb) n.

Definition set_packets (l : list sk_buff) (m : homa_message_out) : homa_message_out :=
  mk_homa_message_out (msg_length m) l (next_packet m) (next_offset m)
    (unscheduled m) (granted m) (sched_priority m).

Definition set_next (p : option nat) (off : Z) (m : homa_message_out) : homa_message_out :=
  mk_homa_message_out (msg_length m) (packets m) p off
    (unscheduled m) (granted m) (sched_priority m).

Definition set_granted (g : Z) (m : homa_message_out) : homa_message_out :=
  mk_homa_message_out (msg_length m) (packets m) (next_packet m) (next_offset m)
    (unscheduled m) g (sched_priority m).

Definition set_msgout (m : homa_message_out) (r : homa_rpc) : homa_rpc :=
  mk_homa_rpc (rpc_id r) m (peer r).

Definition set_link_idle_time (t : Z) (h : homa) : homa :=
  mk_homa (rtt_bytes h) t (cycles_per_kbyte h) (max_nic_queue_cycles h)
    (throttle_min_bytes h) (max_prio h) (flags h) (throttled_rpcs h).

Definition set_throttled_rpcs (l : list nat) (h : homa) : homa :=
  mk_homa (rtt_bytes h) (link_idle_time h) (cycles_per_kbyte h)
    (max_nic_queue_cycles h) (throttle_min_bytes h) (max_prio h) (flags h) l.

Definition w_set_homa (h : homa) (w : world) : world :=
  mk_world h (w_rpcs w) (w_clock w) (w_wire w) (w_metrics w) (w_wakeups w).

(** Store to the RPC at address [rpc]. *)
Definition w_set_rpc (rpc : nat) (r : homa_rpc) (w : world) : world :=
  mk_world (w_homa w) (fun a => if Nat.eqb a rpc then r else w_rpcs w a)
    (w_clock w) (w_wire w) (w_metrics w) (w_wakeups w).

Definition w_set_metrics (m : homa_metrics) (w : world) : world :=
  mk_world (w_homa w) (w_rpcs w) (w_clock w) (w_wire w) m (w_wakeups w).

(** Store to the message of the RPC at address [rpc]. *)
Definition w_set_msgout (rpc : nat) (m : homa_message_out) (w : world) : world :=
  w_set_rpc rpc (set_msgout m (w_rpcs w rpc)) w.

(** Store to the buffer [i] of the message of the RPC at [rpc]. *)
Definition w_set_packet (rpc : nat) (i : nat) (skb : sk_buff) (w : world) : world :=
  let m := msgout (w_rpcs w rpc) in
  w_set_msgout rpc (set_packets (<[i := skb]> (packets m)) m) w.

(** ** The functions of [homa_outgoing.c] *)

(** The table of [set_priority]: priorities 0 and 1 trade places. *)
Definition tci : list Z :=
  [ Z.lor (Z.shiftl 1 VLAN_PRIO_SHIFT) VLAN_TAG_PRESENT;
    Z.lor (Z.shiftl 0 VLAN_PRIO_SHIFT) VLAN_TAG_PRESENT;
    Z.lor (Z.shiftl 2 VLAN_PRIO_SHIFT) VLAN_TAG_PRESENT;
    Z.lor (Z.shiftl 3 VLAN_PRIO_SHIFT) VLAN_TAG_PRESENT;
    Z.lor (Z.shiftl 4 VLAN_PRIO_SHIFT) VLAN_TAG_PRESENT;
    Z.lor (Z.shiftl 5 VLAN_PRIO_SHIFT) VLAN_TAG_PRESENT;
    Z.lor (Z.shiftl 6 VLAN_PRIO_SHIFT) VLAN_TAG_PRESENT;
    Z.lor (Z.shiftl 7 VLAN_PRIO_SHIFT) VLAN_TAG_PRESENT ].

(** [tci[priority]]; outside 0..7 the C code reads past the table and
    the model yields 0. *)
Definition tci_at (priority : Z) : Z :=
  if (0 <=? priority) && (priority <? 8)
  then nth (Z.to_nat priority) tci 0 else 0.

Definition set_priority (skb : sk_buff) (priority : Z) : sk_buff :=
  skb_set_vlan (htons 33024) (tci_at priority) skb.

(** [refcount_read(&skb->users) != 1]. *)
Definition skb_shared (skb : sk_buff) : bool := negb (users skb =? 1).

(** [*homa_next_skb(skb)] for the buffer at index [i]. *)
Definition homa_next_skb (pkts : list sk_buff) (i : nat) : option nat :=
  if (S i <? length pkts)%nat then Some (S i) else None.

(** The value of the list head [msgout->packets] as a pointer. *)
Definition packets_head (pkts : list sk_buff) : option nat :=
  match pkts with [] => None | _ :: _ => Some 0%nat end.

Definition homa_message_out_destroy (m : homa_message_out) : homa_message_out :=
  if msg_length m <? 0 then m else set_packets [] m.

Definition homa_message_out_reset (m : homa_message_out) : homa_message_out :=
  let m1 := set_next (packets_head (packets m)) 0 m in
  let m2 := set_granted (unscheduled m1) m1 in
  if granted m2 >? msg_length m2 then set_granted (msg_length m2) m2 else m2.

Section Outgoing.

Variable K : homa_impl_h.
Variable E : externals.

(** The buffer [homa_message_out_init] builds for the bytes starting at
    [length - bytes_left], before the user data is copied in. *)
Definition init_skb (m : homa_message_out) (dest : homa_peer)
    (dport sport id : Z) (bytes_left : Z) : sk_buff :=
  mk_sk_buff
    (mk_data_header (htons sport) (htons dport) id DATA
       (htonl (msg_length m)) (htonl (s32 (msg_length m - bytes_left)))
       (htonl (unscheduled m)) (cutoff_version dest) 0)
    0 1 0 0 false 0.

(** The [for] loop of [homa_message_out_init]; [k] counts the buffers
    allocated so far.  The result is the return value and the message. *)
Fixpoint message_out_init_loop (fuel : nat) (dest : homa_peer)
    (dport sport id : Z) (k : nat) (bytes_left : Z) (m : homa_message_out)
    : option (Z * homa_message_out) :=
  if bytes_left >? 0 then
    match fuel with
    | O => None
    | S fuel' =>
      let cur_size :=
        if u32 HOMA_MAX_DATA_PER_PACKET >? u32 bytes_left
        then u32 bytes_left else u32 HOMA_MAX_DATA_PER_PACKET in
      if negb (alloc_skb_ok E k) then
        Some (- ENOMEM, homa_message_out_destroy m)
      else
        let skb := init_skb m dest dport sport id bytes_left in
        let err := skb_add_data_nocache E k in
        if negb (err =? 0) then
          Some (err, homa_message_out_destroy m)
        else
          message_out_init_loop fuel' dest dport sport id (S k)
            (s32 (bytes_left - HOMA_MAX_DATA_PER_PACKET))
            (set_packets (packets m ++ [skb_set_payload cur_size skb]) m)
    end
  else
    Some (0, set_next (packets_head (packets m)) (next_offset m) m).

Definition homa_message_out_init (h : homa) (len : Z) (dest : homa_peer)
    (dport sport id : Z) : option (Z * homa_message_out) :=
  let m0 := mk_homa_message_out (s32 len) [] None 0 (rtt_bytes h)
              (rtt_bytes h) 0 in
  let m1 := if granted m0 >? msg_length m0
            then set_granted (msg_length m0) m0 else m0 in
  if u64 len >? u64 (HOMA_MAX_MESSAGE_LENGTH K) then
    Some (- EINVAL, homa_message_out_destroy m1)
  else
    message_out_init_loop (Z.to_nat (s32 len)) dest dport sport id 0
      (s32 len) m1.

(** [get_cycles()]: the next reading of the tick counter. *)
Definition get_cycles (w : world) : Z * world :=
  (u64 (get_cycles_at E (w_clock w)),
   mk_world (w_homa w) (w_rpcs w) (S (w_clock w)) (w_wire w) (w_metrics w)
     (w_wakeups w)).

(** [cycles_for_packet] of [homa_update_idle_time]. *)
Definition cycles_for_packet (h : homa) (bytes : Z) : Z :=
  let bytes1 := s32 (bytes + (HOMA_MAX_IPV4_HEADER K + HOMA_VLAN_HEADER K
                               + HOMA_ETH_OVERHEAD K)) in
  s32 (Z.quot (s32 (bytes1 * cycles_per_kbyte h)) 1000).

(** [homa_update_idle_time].  No other thread runs between the read of
    [link_idle_time] and the compare-and-swap, so the swap succeeds and
    the body of the retry loop runs once. *)
Definition homa_update_idle_time (bytes : Z) (w : world) : world :=
  let cycles := cycles_for_packet (w_homa w) bytes in
  let '(clock, w1) := get_cycles w in
  let old_idle := u64 (link_idle_time (w_homa w1)) in
  let new_idle :=
    if old_idle <? clock then u64 (clock + cycles)
    else u64 (old_idle + cycles) in
  w_set_homa (set_link_idle_time new_idle (w_homa w1)) w1.

(** The buffer as [__homa_xmit_data] hands it to [ip_queue_xmit]. *)
Definition xmit_prepare (skb : sk_buff) (r : homa_rpc) : sk_buff :=
  let skb1 := skb_set_hdr
                (set_cutoff_version (cutoff_version (peer r)) (hdr skb)) skb in
  let skb2 := skb_set_users (users skb1 + 1) skb1 in
  let skb3 := if skb_dst skb2 then skb2 else skb_set_route true skb2 in
  if skb_transport_offset skb3 >? 0
  then skb_set_transport_offset 0 skb3 else skb3.

(** The buffer as [ip_queue_xmit] leaves it. *)
Definition ip_leaves (o : ip_outcome) (skb : sk_buff) : sk_buff :=
  let skb1 := if ip_consumed o then skb_set_users (users skb - 1) skb else skb in
  let skb2 := if ip_dst_released o then skb_set_route false skb1 else skb1 in
  skb_set_transport_offset (ip_pushed o) skb2.

(** [__homa_xmit_data]: returns the buffer as it is afterwards. *)
Definition __homa_xmit_data (skb : sk_buff) (r : homa_rpc) (w : world)
    : sk_buff * world :=
  let skb1 := xmit_prepare skb r in
  let o := ip_queue_xmit E (length (w_wire w)) in
  let w1 := mk_world (w_homa w) (w_rpcs w) (w_clock w) (w_wire w ++ [skb1])
              (w_metrics w) (w_wakeups w) in
  let skb2 := ip_leaves o skb1 in
  let '(skb3, w2) :=
    if negb (ip_err o =? 0) then
      let mt := w_metrics w1 in
      let w' := w_set_metrics
                  (mk_homa_metrics (packets_sent_data mt)
                     (data_xmit_errors mt + 1) (resent_packets mt)) w1 in
      if users skb2 >? 1
      then (skb_set_users (users skb2 - 1) skb2, w')
      else (skb2, w')
    else (skb2, w1) in
  let w3 := homa_update_idle_time (sizeof_data_header K + payload skb3) w2 in
  let mt := w_metrics w3 in
  (skb3,
   w_set_metrics (mk_homa_metrics (packets_sent_data mt + 1)
                    (data_xmit_errors mt) (resent_packets mt)) w3).

(** [length - next_offset] as the code computes it. *)
Definition remaining_bytes (r : homa_rpc) : Z :=
  s32 (msg_length (msgout r) - next_offset (msgout r)).

(** The scan of [homa_add_to_throttled]: [rpc] goes in front of the first
    candidate with more bytes left, or at the tail. *)
Fixpoint throttled_insert (rpcs : nat -> homa_rpc) (rpc : nat)
    (l : list nat) : list nat :=
  match l with
  | [] => [rpc]
  | candidate :: rest =>
    if remaining_bytes (rpcs candidate) >? remaining_bytes (rpcs rpc)
    then rpc :: candidate :: rest
    else candidate :: throttled_insert rpcs rpc rest
  end.

(** [homa_add_to_throttled].  [throttled_links] of an RPC is non-empty
    exactly when the RPC is on [throttled_rpcs], the only list it is ever
    linked into. *)
Definition homa_add_to_throttled (rpc : nat) (w : world) : world :=
  if bool_decide (rpc ∈ throttled_rpcs (w_homa w)) then w
  else
    mk_world
      (set_throttled_rpcs
         (throttled_insert (w_rpcs w) rpc (throttled_rpcs (w_homa w)))
         (w_homa w))
      (w_rpcs w) (w_clock w) (w_wire w) (w_metrics w) (S (w_wakeups w)).

(** The condition of the [while] loop of [homa_xmit_data]. *)
Definition xmit_data_cond (rpc : nat) (w : world) : bool :=
  let m := msgout (w_rpcs w rpc) in
  (next_offset m <? granted m) && bool_decide (next_packet m ≠ None).

(** The throttle test, with the short-circuit evaluation of C: the clock
    is read only when the first conjunct holds. *)
Definition xmit_data_throttle (rpc : nat) (w : world) : bool * world :=
  let m := msgout (w_rpcs w rpc) in
  let h := w_homa w in
  if s32 (msg_length m - next_offset m) >? throttle_min_bytes h then
    let '(now, w1) := get_cycles w in
    if u64 (now + max_nic_queue_cycles h) <? u64 (link_idle_time h) then
      (Z.land (flags h) (HOMA_FLAG_DONT_THROTTLE K) =? 0, w1)
    else (false, w1)
  else (false, w).

(** One pass through the body of the loop, entered with the condition
    true.  The boolean tells whether the body ended in [return].  [None]
    stands for a [next_packet] that points outside the list. *)
Definition xmit_data_body (rpc : nat) (w : world) : option (bool * world) :=
  match next_packet (msgout (w_rpcs w rpc)) with
  | None => None
  | Some i =>
    match packets (msgout (w_rpcs w rpc)) !! i with
    | None => None
    | Some skb =>
      let '(throttle, w1) := xmit_data_throttle rpc w in
      if throttle then Some (true, homa_add_to_throttled rpc w1)
      else
        let r := w_rpcs w1 rpc in
        let m := msgout r in
        let priority :=
          if next_offset m <? unscheduled m
          then homa_unsched_priority E (peer r) (msg_length m)
          else sched_priority m in
        let m1 := set_next (homa_next_skb (packets m) i)
                    (s32 (next_offset m + HOMA_MAX_DATA_PER_PACKET)) m in
        let w2 := w_set_msgout rpc m1 w1 in
        if skb_shared skb then Some (false, w2)
        else
          let skb1 := set_priority skb priority in
          let skb2 := skb_set_hdr (set_retransmit 0 (hdr skb1)) skb1 in
          let '(skb3, w3) := __homa_xmit_data skb2 (w_rpcs w2 rpc) w2 in
          Some (false, w_set_packet rpc i skb3 w3)
    end
  end.

(** How the loop of [homa_xmit_data] was left. *)
Inductive xmit_exit := exit_condition | exit_throttled.

Fixpoint xmit_data_loop (fuel : nat) (rpc : nat) (w : world)
    : option (xmit_exit * world) :=
  if xmit_data_cond rpc w then
    match fuel with
    | O => None
    | S fuel' =>
      match xmit_data_body rpc w with
      | None => None
      | Some (true, w') => Some (exit_throttled, w')
      | Some (false, w') => xmit_data_loop fuel' rpc w'
      end
    end
  else Some (exit_condition, w).

(** [homa_xmit_data]: every pass moves [next_packet] one buffer down the
    list, so as many passes as there are buffers are enough. *)
Definition homa_xmit_data_exit (rpc : nat) (w : world)
    : option (xmit_exit * world) :=
  xmit_data_loop (length (packets (msgout (w_rpcs w rpc)))) rpc w.

Definition homa_xmit_data (rpc : nat) (w : world) : option world :=
  snd <$> homa_xmit_data_exit rpc w.

(** The [for] loop of [homa_resend_data], standing at [cur]. *)
Fixpoint resend_data_loop (fuel : nat) (rpc : nat) (start end_ priority : Z)
    (cur : option nat) (w : world) : option world :=
  match cur with
  | None => Some w
  | Some i =>
    match fuel, packets (msgout (w_rpcs w rpc)) !! i with
    | S fuel', Some skb =>
      let next := homa_next_skb (packets (msgout (w_rpcs w rpc))) i in
      let offset := s32 (ntohl (h_offset (hdr skb))) in
      if s32 (offset + HOMA_MAX_DATA_PER_PACKET) <=? start then
        resend_data_loop fuel' rpc start end_ priority next w
      else if offset >=? end_ then Some w
      else if skb_shared skb then
        resend_data_loop fuel' rpc start end_ priority next w
      else
        let skb1 := skb_set_hdr (set_retransmit 1 (hdr skb)) skb in
        let skb2 := set_priority skb1 priority in
        let '(skb3, w1) := __homa_xmit_data skb2 (w_rpcs w rpc) w in
        let w2 := w_set_packet rpc i skb3 w1 in
        let mt := w_metrics w2 in
        let w3 := w_set_metrics
                    (mk_homa_metrics (packets_sent_data mt)
                       (data_xmit_errors mt) (resent_packets mt + 1)) w2 in
        resend_data_loop fuel' rpc start end_ priority next w3
    | _, _ => None
    end
  end.

Definition homa_resend_data (rpc : nat) (start end_ priority : Z) (w : world)
    : option world :=
  let pkts := packets (msgout (w_rpcs w rpc)) in
  resend_data_loop (length pkts) rpc start end_ priority (packets_head pkts) w.

End Outgoing.

(** ** Closed forms and invariants used by the statements *)

(** Number of passes of the loop entered with [bytes_left = bl]. *)
Definition init_passes (bl : Z) : nat :=
  Z.to_nat ((bl + (HOMA_MAX_DATA_PER_PACKET - 1)) / HOMA_MAX_DATA_PER_PACKET).

(** The buffer appended by the pass of [homa_message_out_init] that is
    entered with [bytes_left = bl]. *)
Definition init_built (m : homa_message_out) (dest : homa_peer)
    (dport sport id : Z) (bl : Z) : sk_buff :=
  skb_set_payload (Z.min HOMA_MAX_DATA_PER_PACKET bl)
    (init_skb m dest dport sport id bl).

(** The buffers appended by [n] passes, the first entered with [bl]. *)
Fixpoint init_built_from (m : homa_message_out) (dest : homa_peer)
    (dport sport id : Z) (n : nat) (bl : Z) : list sk_buff :=
  match n with
  | O => []
  | S n' =>
    init_built m dest dport sport id bl
    :: init_built_from m dest dport sport id n' (bl - HOMA_MAX_DATA_PER_PACKET)
  end.

(** *** The fixture of the unit tests

    [unit_homa_outgoing.c] runs every test with the clock stopped at
    10000 ticks, [link_idle_time = 10000], [cycles_per_kbyte = 1000] and
    throttling switched off; its log shows [unscheduled 10000] for fresh
    messages, 28 bytes of data header, 104 bytes of link overhead and
    unscheduled priority 6.  The mock of [ip_queue_xmit] drops its
    reference before it returns.  [throttle_min_bytes] is set by
    [homa_init], which is not among the sources; the tests only fix it
    between 200 and 2199, and 1000 is used here. *)

Definition unit_impl : homa_impl_h := mk_homa_impl_h 1000000 60 20 24 2 28.

Definition unit_externals (mock_cycles : Z) : externals :=
  mk_externals (fun _ => mock_cycles) (fun _ => true) (fun _ => 0)
    (fun _ => mk_ip_outcome 0 true false 0) (fun _ _ => 6).

Definition unit_homa : homa := mk_homa 10000 10000 1000 0 1000 7 2 [].

Definition unit_peer : homa_peer := mk_homa_peer 0.

Definition empty_message : homa_message_out :=
  mk_homa_message_out 0 [] None 0 0 0 0.

(** [homa_rpc_new_client] as far as the outgoing message is concerned. *)
Definition unit_rpc (id : Z) (len : Z) : homa_rpc :=
  match homa_message_out_init unit_impl (unit_externals 10000) unit_homa len
          unit_peer 99 40000 id with
  | Some (_, m) => mk_homa_rpc id m unit_peer
  | None => mk_homa_rpc id empty_message unit_peer
  end.

(** A world with transport [h] and the given RPCs at addresses 0, 1, ... *)
Definition unit_world (h : homa) (rs : list homa_rpc) : world :=
  mk_world h (fun a => nth a rs (mk_homa_rpc 0 empty_message unit_peer))
    0 [] (mk_homa_metrics 0 0 0) 0.

(** What the test log prints for a transmitted packet: offset, priority
    tag and retransmit flag. *)
Definition wire_summary (w : world) : list (Z * Z * Z) :=
  map (fun s => (ntohl (h_offset (hdr s)), vlan_tci s, h_retransmit (hdr s)))
    (w_wire w).

(** *** The throttled list *)

(** The order of the throttled list: by bytes left, as the scan of
    [homa_add_to_throttled] computes them. *)
Definition fewer_remaining (rpcs : nat -> homa_rpc) (a b : nat) : Prop :=
  remaining_bytes (rpcs a) <= remaining_bytes (rpcs b).

Definition throttled_sorted (w : world) : Prop :=
  StronglySorted (fewer_remaining (w_rpcs w)) (throttled_rpcs (w_homa w)).

(** A sequence of calls of [homa_add_to_throttled]. *)
Definition add_all_to_throttled (rpcs : list nat) (w : world) : world :=
  fold_left (fun w rpc => homa_add_to_throttled rpc w) rpcs w.

(** The RPCs of the SRPT scenario: addresses 1 to 5 with 10000, 5000,
    15000, 12000 and 10000 bytes to send. *)
Definition srpt_world : world :=
  unit_world unit_homa
    [unit_rpc 0 0; unit_rpc 1 10000; unit_rpc 2 5000; unit_rpc 3 15000;
     unit_rpc 4 12000; unit_rpc 5 10000].

(** *** The link-idle clock *)

(** The ranges within which the arithmetic of [homa_update_idle_time]
    does not wrap: the byte count and the product fit an [int], and the
    clock, the old and the new idle time fit 64 bits. *)
Definition idle_update_in_range (K : homa_impl_h) (E : externals)
    (bytes : Z) (w : world) : Prop :=
  let h := w_homa w in
  let now := get_cycles_at E (w_clock w) in
  let total := bytes + (HOMA_MAX_IPV4_HEADER K + HOMA_VLAN_HEADER K
                        + HOMA_ETH_OVERHEAD K) in
  0 <= total < 2 ^ 31 /\
  0 <= cycles_per_kbyte h /\
  total * cycles_per_kbyte h < 2 ^ 31 /\
  0 <= now < 2 ^ 64 /\
  0 <= link_idle_time h < 2 ^ 64 /\
  Z.max (link_idle_time h) now + total * cycles_per_kbyte h / 1000 < 2 ^ 64.

(** A sequence of calls of [homa_update_idle_time], one per packet. *)
Definition idle_updates (K : homa_impl_h) (E : externals) (sizes : list Z)
    (w : world) : world :=
  fold_left (fun w bytes => homa_update_idle_time K E bytes w) sizes w.

Fixpoint idle_updates_in_range (K : homa_impl_h) (E : externals)
    (sizes : list Z) (w : world) : Prop :=
  match sizes with
  | [] => True
  | bytes :: rest =>
    idle_update_in_range K E bytes w /\
    idle_updates_in_range K E rest (homa_update_idle_time K E bytes w)
  end.

(** *** The data sender *)

(** The priority [homa_xmit_data] picks for a buffer sent while
    [next_offset] is [offset]. *)
Definition xmit_priority (E : externals) (r : homa_rpc) (offset : Z) : Z :=
  if offset <? unscheduled (msgout r)
  then homa_unsched_priority E (peer r) (msg_length (msgout r))
  else sched_priority (msgout r).

(** The buffer as [homa_xmit_data] hands it to [__homa_xmit_data]:
    tagged with [priority], [retransmit] cleared. *)
Definition xmit_tagged (skb : sk_buff) (priority : Z) : sk_buff :=
  let skb1 := set_priority skb priority in
  skb_set_hdr (set_retransmit 0 (hdr skb1)) skb1.

(** What goes on the wire when [homa_xmit_data] sends buffer [i]. *)
Definition xmit_wire_form (E : externals) (r : homa_rpc) (i : nat)
    (skb : sk_buff) : sk_buff :=
  xmit_prepare
    (xmit_tagged skb
       (xmit_priority E r (HOMA_MAX_DATA_PER_PACKET * Z.of_nat i))) r.

Definition xmit_wire_entry (E : externals) (r : homa_rpc)
    (pkts : list sk_buff) (i : nat) : option sk_buff :=
  match pkts !! i with
  | Some skb => if skb_shared skb then None
                else Some (xmit_wire_form E r i skb)
  | None => None
  end.

(** What goes on the wire when [homa_xmit_data] works through the
    buffers [k], ..., [j - 1] without being throttled: those that are not
    shared, in order. *)
Definition xmit_wire (E : externals) (r : homa_rpc) (pkts : list sk_buff)
    (k j : nat) : list sk_buff :=
  omap (xmit_wire_entry E r pkts) (seq k (j - k)).

(** [next_packet], when not [NULL], points into the packet list. *)
Definition message_linked (m : homa_message_out) : Prop :=
  forall i, next_packet m = Some i -> (i < length (packets m))%nat.

(** [next_packet] and [next_offset] stand at buffer [k]. *)
Definition message_at (m : homa_message_out) (k : nat) : Prop :=
  (k <= length (packets m))%nat /\
  next_offset m = HOMA_MAX_DATA_PER_PACKET * Z.of_nat k /\
  next_packet m = if (k <? length (packets m))%nat then Some k else None.

(** The buffers carry the offsets 0, 1400, 2800, ..., all within [int]. *)
Definition packets_in_order (pkts : list sk_buff) : Prop :=
  HOMA_MAX_DATA_PER_PACKET * Z.of_nat (length pkts) < 2 ^ 31 /\
  forall (i : nat) skb,
    pkts !! i = Some skb ->
    ntohl (h_offset (hdr skb)) = HOMA_MAX_DATA_PER_PACKET * Z.of_nat i.

(** The message is drained up to its grant: the test that ends the loop
    of [homa_xmit_data] and that [homa_pacer_xmit] repeats. *)
Definition message_drained (m : homa_message_out) : Prop :=
  granted m <= next_offset m \/ next_packet m = None.

(** The three conjuncts of the throttle test, over the integers. *)
Definition throttle_test (K : homa_impl_h) (E : externals) (rpc : nat)
    (w : world) : Prop :=
  let m := msgout (w_rpcs w rpc) in
  let h := w_homa w in
  msg_length m - next_offset m > throttle_min_bytes h /\
  get_cycles_at E (w_clock w) + max_nic_queue_cycles h < link_idle_time h /\
  Z.land (flags h) (HOMA_FLAG_DONT_THROTTLE K) = 0.

(** The ranges within which the throttle test does not wrap. *)
Definition throttle_in_range (E : externals) (rpc : nat) (w : world) : Prop :=
  let m := msgout (w_rpcs w rpc) in
  let h := w_homa w in
  - 2 ^ 31 <= msg_length m - next_offset m < 2 ^ 31 /\
  0 <= get_cycles_at E (w_clock w) < 2 ^ 64 /\
  0 <= get_cycles_at E (w_clock w) + max_nic_queue_cycles h < 2 ^ 64 /\
  0 <= link_idle_time h < 2 ^ 64.

(** Passes the loop of [homa_xmit_data] can still make. *)
Definition passes_left (m : homa_message_out) : nat :=
  match next_packet m with
  | Some i => length (packets m) - i
  | None => 0
  end.

(** The relation between the world [w0] in which [homa_xmit_data] is
    called for [rpc], standing at buffer [k0], and the world [w] after it
    has worked through the buffers [k0], ..., [j - 1]: the message stands
    at buffer [j], the buffers from [j] on are untouched, the buffers in
    between that were not shared are on the wire, every one of them was
    below the grant, and only [link_idle_time], the clock and the metrics
    have changed besides. *)
Definition xmit_progress (E : externals) (rpc : nat) (w0 : world) (k0 : nat)
    (w : world) (j : nat) : Prop :=
  let r0 := w_rpcs w0 rpc in
  let m0 := msgout r0 in
  let r := w_rpcs w rpc in
  let m := msgout r in
  (k0 <= j)%nat /\
  message_at m j /\
  (forall a, a <> rpc -> w_rpcs w a = w_rpcs w0 a) /\
  (rpc_id r = rpc_id r0 /\ peer r = peer r0 /\
   msg_length m = msg_length m0 /\ unscheduled m = unscheduled m0 /\
   granted m = granted m0 /\ sched_priority m = sched_priority m0) /\
  length (packets m) = length (packets m0) /\
  (forall i, (j <= i)%nat -> packets m !! i = packets m0 !! i) /\
  w_homa w = set_link_idle_time (link_idle_time (w_homa w)) (w_homa w0) /\
  w_wakeups w = w_wakeups w0 /\
  w_wire w = w_wire w0 ++ xmit_wire E r0 (packets m0) k0 j /\
  (forall i, (k0 <= i < j)%nat ->
             HOMA_MAX_DATA_PER_PACKET * Z.of_nat i < granted m0).

(** *** Scenarios of the unit tests *)

(** The transport of the test [homa_xmit_data__throttle_limit]:
    [link_idle_time = 11000], [max_nic_queue_cycles = 3000], throttling
    switched on. *)
Definition throttle_homa : homa := mk_homa 10000 11000 1000 3000 1000 7 0 [].

(** The transport of the test [homa_xmit_data__below_throttle_min]:
    [max_nic_queue_cycles = 500], so that the queue counts as full at
    tick 10000. *)
Definition backlog_homa : homa := mk_homa 10000 11000 1000 500 1000 7 0 [].

(** The message of the test [homa_xmit_data__basics]: 6000 bytes,
    [unscheduled = 2000], [granted = 5000], [sched_priority = 2]. *)
Definition basics_rpc : homa_rpc :=
  let r := unit_rpc 1 6000 in
  set_msgout
    (mk_homa_message_out 6000 (packets (msgout r)) (Some 0%nat) 0 2000 5000 2)
    r.

(** [skb_get]: one more holder of the buffer. *)
Definition skb_get (skb : sk_buff) : sk_buff :=
  skb_set_users (users skb + 1) skb.

(** The RPC with the buffers at the given indices held by someone else. *)
Definition hold_packets (held : list nat) (r : homa_rpc) : homa_rpc :=
  let m := msgout r in
  set_msgout
    (set_packets
       (imap (fun i skb => if bool_decide (i ∈ held) then skb_get skb else skb)
          (packets m)) m) r.

(** What the tests observe after a call for [rpc]: the packets sent, the
    throttled list, and where the message stands. *)
Definition xmit_report (rpc : nat) (w : world)
    : list (Z * Z * Z) * list nat * Z * option nat :=
  (wire_summary w, throttled_rpcs (w_homa w),
   next_offset (msgout (w_rpcs w rpc)), next_packet (msgout (w_rpcs w rpc))).

(** *** The retransmitter *)

(** The buffer as [homa_resend_data] hands it to [__homa_xmit_data]. *)
Definition resend_tagged (skb : sk_buff) (priority : Z) : sk_buff :=
  set_priority (skb_set_hdr (set_retransmit 1 (hdr skb)) skb) priority.

(** What goes on the wire when [homa_resend_data] sends a buffer. *)
Definition resend_wire_form (r : homa_rpc) (priority : Z) (skb : sk_buff)
    : sk_buff :=
  xmit_prepare (resend_tagged skb priority) r.

(** The packet's bytes [offset, offset + HOMA_MAX_DATA_PER_PACKET) and
    the range [start, end) overlap. *)
Definition resend_overlaps (start end_ : Z) (skb : sk_buff) : bool :=
  (start <? ntohl (h_offset (hdr skb)) + HOMA_MAX_DATA_PER_PACKET)
  && (ntohl (h_offset (hdr skb)) <? end_).

(** The buffers [homa_resend_data] sends: those that overlap the range
    and are not shared. *)
Definition resend_selects (start end_ : Z) (skb : sk_buff) : bool :=
  resend_overlaps start end_ skb && negb (skb_shared skb).

(** What [homa_resend_data] leaves alone: the other RPCs, the throttled
    list and the parameters of the transport, and every field of the
    message but the buffers themselves. *)
Definition resend_frame (rpc : nat) (w w' : world) : Prop :=
  let r := w_rpcs w rpc in
  let r' := w_rpcs w' rpc in
  (forall a, a <> rpc -> w_rpcs w' a = w_rpcs w a) /\
  rpc_id r' = rpc_id r /\ peer r' = peer r /\
  msgout r' = set_packets (packets (msgout r')) (msgout r) /\
  length (packets (msgout r')) = length (packets (msgout r)) /\
  w_homa w' = set_link_idle_time (link_idle_time (w_homa w')) (w_homa w) /\
  w_wakeups w' = w_wakeups w.

(** The world of the test [homa_resend_data__basics]: one message of
    10000 bytes at address 1. *)
Definition resend_world : world :=
  unit_world unit_homa [unit_rpc 0 0; unit_rpc 1 10000].

(** ** Further parts of [homa_outgoing.c] *)

(** Reading a 16-bit field back from network byte order. *)
Definition ntohs (z : Z) : Z := htons z.

(** Linux errno value of "no buffer space". *)
Definition ENOBUFS : Z := 105.

(** One pass of [homa_message_out_init] goes through: the buffer is
    allocated and the user data are copied. *)
Definition init_pass_ok (E : externals) (k : nat) : bool :=
  alloc_skb_ok E k && (skb_add_data_nocache E k =? 0).

(** Total payload of a list of buffers. *)
Definition payload_total (pkts : list sk_buff) : Z :=
  fold_right (fun skb acc => payload skb + acc) 0 pkts.

(** The mocks of the unit tests with failures injected: the allocations
    and the copies for which the predicates hold fail, the copies with
    [-EFAULT]. *)
Definition failing_externals (alloc_fails copy_fails : nat -> bool)
    : externals :=
  mk_externals (fun _ => 10000) (fun k => negb (alloc_fails k))
    (fun k => if copy_fails k then - EFAULT else 0)
    (fun _ => mk_ip_outcome 0 true false 0) (fun _ _ => 6).

(** What the sender never changes in a buffer: the payload and every
    header field but [cutoff_version] and [retransmit]. *)
Definition same_data (skb skb' : sk_buff) : Prop :=
  payload skb' = payload skb /\
  h_sport (hdr skb') = h_sport (hdr skb) /\
  h_dport (hdr skb') = h_dport (hdr skb) /\
  h_id (hdr skb') = h_id (hdr skb) /\
  h_type (hdr skb') = h_type (hdr skb) /\
  h_message_length (hdr skb') = h_message_length (hdr skb) /\
  h_offset (hdr skb') = h_offset (hdr skb) /\
  h_unscheduled (hdr skb') = h_unscheduled (hdr skb).

(** The offset a packet carries. *)
Definition wire_offset (skb : sk_buff) : Z := ntohl (h_offset (hdr skb)).

(** What a sender leaves of the state in which it is called for [rpc]:
    the data of the buffers, the parameters of the message, and the
    other RPCs. *)
Definition sender_keeps (rpc : nat) (w0 w : world) : Prop :=
  let m0 := msgout (w_rpcs w0 rpc) in
  let m := msgout (w_rpcs w rpc) in
  Forall2 same_data (packets m0) (packets m) /\
  msg_length m = msg_length m0 /\ unscheduled m = unscheduled m0 /\
  granted m = granted m0 /\ sched_priority m = sched_priority m0 /\
  rpc_id (w_rpcs w rpc) = rpc_id (w_rpcs w0 rpc) /\
  peer (w_rpcs w rpc) = peer (w_rpcs w0 rpc) /\
  (forall a, a <> rpc -> w_rpcs w a = w_rpcs w0 a).

(** Number of the calls [from], ..., [from + count - 1] of
    [ip_queue_xmit] that return an error. *)
Fixpoint ip_failures (E : externals) (from count : nat) : Z :=
  match count with
  | O => 0
  | S n =>
    ip_failures E from n
    + (if ip_err (ip_queue_xmit E (from + n)) =? 0 then 0 else 1)
  end.

(** The counters of a sender against the packets it has handed to IP
    between the worlds [w0] and [w]: every packet is counted in
    [packets_sent], in [resent_packets] when the sender is the
    retransmitter, and in [data_xmit_errors] when IP refused it. *)
Definition metrics_count (E : externals) (resend : bool) (w0 w : world)
    : Prop :=
  exists n : nat,
    length (w_wire w) = (length (w_wire w0) + n)%nat /\
    packets_sent_data (w_metrics w)
    = packets_sent_data (w_metrics w0) + Z.of_nat n /\
    resent_packets (w_metrics w)
    = resent_packets (w_metrics w0) + (if resend then Z.of_nat n else 0) /\
    data_xmit_errors (w_metrics w)
    = data_xmit_errors (w_metrics w0)
      + ip_failures E (length (w_wire w0)) n.

(** ** Control packets *)

(** [struct common_header], fields in network byte order. *)
Record common_header := mk_common_header {
  c_sport : Z;
  c_dport : Z;
  c_id : Z;
  c_type : homa_packet_type
}.

(** The buffer a caller passes as [contents]: the common header and the
    bytes after it, which this file copies without looking at them. *)
Record control_contents := mk_control_contents {
  common : common_header;
  after_common : list Z
}.

(** A socket buffer that holds a control packet: the bytes copied from
    [contents], [skb->len], the reference count, the VLAN tag and
    whether a route is attached. *)
Record control_skb := mk_control_skb {
  cs_contents : control_contents;
  cs_len : Z;
  cs_users : Z;
  cs_vlan_proto : Z;
  cs_vlan_tci : Z;
  cs_dst : bool
}.

(** The fields of [struct homa_rpc] and of its socket that
    [homa_xmit_control] reads besides [id] and [peer]. *)
Record rpc_endpoint := mk_rpc_endpoint {
  is_client : bool;
  rpc_dport : Z;
  client_port : Z;
  server_port : Z
}.

(** The state of the control path on top of the state of the data path:
    the buffers allocated for control packets so far, the control packets
    handed to IP (oldest first, as they were handed over), the metrics
    [control_xmit_errors] and [packets_sent] for the types other than
    [DATA] (the entry of [DATA] is [packets_sent_data]), and the notices
    printed. *)
Record control_state := mk_control_state {
  cs_world : world;
  cs_allocs : nat;
  cs_wire : list control_skb;
  control_xmit_errors : Z;
  packets_sent_control : homa_packet_type -> Z;
  cs_notices : nat
}.

Definition homa_packet_type_eqb (a b : homa_packet_type) : bool :=
  match a, b with
  | DATA, DATA | GRANT, GRANT | RESEND, RESEND => true
  | _, _ => false
  end.

(** [packets_sent[type - DATA]]. *)
Definition packets_sent (st : control_state) (type : homa_packet_type) : Z :=
  match type with
  | DATA => packets_sent_data (w_metrics (cs_world st))
  | _ => packets_sent_control st type
  end.

(** [INC_METRIC(packets_sent[type - DATA], 1)]. *)
Definition inc_packets_sent (type : homa_packet_type) (st : control_state)
    : control_state :=
  match type with
  | DATA =>
    let mt := w_metrics (cs_world st) in
    mk_control_state
      (w_set_metrics
         (mk_homa_metrics (packets_sent_data mt + 1) (data_xmit_errors mt)
            (resent_packets mt)) (cs_world st))
      (cs_allocs st) (cs_wire st) (control_xmit_errors st)
      (packets_sent_control st) (cs_notices st)
  | _ =>
    mk_control_state (cs_world st) (cs_allocs st) (cs_wire st)
      (control_xmit_errors st)
      (fun t => if homa_packet_type_eqb t type
                then packets_sent_control st t + 1
                else packets_sent_control st t)
      (cs_notices st)
  end.

(** [set_priority] on a control buffer. *)
Definition set_priority_control (skb : control_skb) (priority : Z)
    : control_skb :=
  mk_control_skb (cs_contents skb) (cs_len skb) (cs_users skb)
    (htons 33024) (tci_at priority) (cs_dst skb).

Section Control.

(** [HOMA_MAX_HEADER], the size of the largest Homa header, comes from
    [homa_impl.h], which is not among the sources. *)
Variable HOMA_MAX_HEADER : Z.
Variable E : externals.

(** [__homa_xmit_control].  [length] is the size of [contents], as the
    callers pass it.  The calls of [ip_queue_xmit] are numbered through
    the data and the control packets together.  The buffer is local to
    the function: the log keeps it as IP received it, with the extra
    reference of [skb_get], and the closing [kfree_skb] drops that
    reference again whatever IP returned. *)
Definition __homa_xmit_control (contents : control_contents) (length : Z)
    (st : control_state) : Z * control_state :=
  let st1 := mk_control_state (cs_world st) (S (cs_allocs st)) (cs_wire st)
               (control_xmit_errors st) (packets_sent_control st)
               (cs_notices st) in
  if negb (alloc_skb_ok E (cs_allocs st)) then (- ENOBUFS, st1)
  else
    let skb := mk_control_skb contents (u32 length) 1 0 0 false in
    let extra_bytes := s32 (u64 (HOMA_MAX_HEADER - length)) in
    let skb1 :=
      if extra_bytes >? 0
      then mk_control_skb (cs_contents skb) (u32 (cs_len skb + extra_bytes))
             (cs_users skb) (cs_vlan_proto skb) (cs_vlan_tci skb) (cs_dst skb)
      else skb in
    let skb2 := set_priority_control skb1 (max_prio (w_homa (cs_world st))) in
    let skb3 := mk_control_skb (cs_contents skb2) (cs_len skb2)
                  (cs_users skb2 + 1) (cs_vlan_proto skb2) (cs_vlan_tci skb2)
                  true in
    let o := ip_queue_xmit E
               (List.length (w_wire (cs_world st)) + List.length (cs_wire st)) in
    let users_after := if ip_consumed o then cs_users skb3 - 1
                       else cs_users skb3 in
    let result := ip_err o in
    let st2 :=
      if negb (result =? 0) then
        mk_control_state (cs_world st1) (cs_allocs st1)
          (cs_wire st1 ++ [skb3]) (control_xmit_errors st1 + 1)
          (packets_sent_control st1)
          (if users_after >? 1 then S (cs_notices st1) else cs_notices st1)
      else
        mk_control_state (cs_world st1) (cs_allocs st1)
          (cs_wire st1 ++ [skb3]) (control_xmit_errors st1)
          (packets_sent_control st1) (cs_notices st1) in
    (result, inc_packets_sent (c_type (common contents)) st2).

(** [homa_xmit_control]: fills in the common header from the RPC. *)
Definition homa_xmit_control (type : homa_packet_type)
    (contents : control_contents) (length : Z) (rpc : homa_rpc)
    (ep : rpc_endpoint) (st : control_state) : Z * control_state :=
  let sport := if is_client ep then htons (client_port ep)
               else htons (server_port ep) in
  let h := mk_common_header sport (htons (rpc_dport ep)) (rpc_id rpc) type in
  __homa_xmit_control (mk_control_contents h (after_common contents)) length
    st.

End Control.

(** ** Parameters that depend on sysctl values *)

(** The fields of [struct homa] that [homa_outgoing_sysctl_changed]
    reads. *)
Record homa_sysctl := mk_homa_sysctl {
  link_mbps : Z;
  max_nic_queue_ns : Z
}.

(** [homa_outgoing_sysctl_changed]; [cpu_khz] is the kernel's
    [unsigned int] of that name.  A [link_mbps] of 0 makes the division
    trap, which is [None]. *)
Definition homa_outgoing_sysctl_changed (cpu_khz : Z) (s : homa_sysctl)
    (h : homa) : option homa :=
  if u64 (link_mbps s) =? 0 then None
  else
    let cpk := s32 (u64 (8 * u64 (u32 cpu_khz)) / u64 (link_mbps s)) in
    let tmp := u64 (max_nic_queue_ns s) in
    let tmp1 := u64 (tmp * u64 (u32 cpu_khz)) / 1000000 in
    Some (mk_homa (rtt_bytes h) (link_idle_time h) cpk (s32 tmp1)
            (throttle_min_bytes h) (max_prio h) (flags h)
            (throttled_rpcs h)).

(** ** The pacer *)

(** [list_del_rcu] on the throttled list. *)
Fixpoint list_del (rpc : nat) (l : list nat) : list nat :=
  match l with
  | [] => []
  | a :: rest => if Nat.eqb a rpc then rest else a :: list_del rpc rest
  end.

Section Pacer.

Variable K : homa_impl_h.
Variable E : externals.

(** The condition of the busy-wait loop of [homa_pacer_xmit]. *)
Definition pacer_busy (w : world) : bool * world :=
  let '(now, w1) := get_cycles E w in
  (u64 (now + max_nic_queue_cycles (w_homa w))
   <? u64 (link_idle_time (w_homa w)), w1).

(** The busy-wait loop: [fuel] bounds the number of times its empty
    body runs, and [None] stands for a loop that is still spinning
    then. *)
Fixpoint pacer_wait (fuel : nat) (w : world) : option world :=
  let '(busy, w1) := pacer_busy w in
  if busy then
    match fuel with
    | O => None
    | S fuel' => pacer_wait fuel' w1
    end
  else Some w1.

(** [homa_pacer_xmit]; [sock_owned_by_user] tells for the socket of an
    RPC whether a user context holds its lock.  The call runs alone: the
    state the busy-wait leaves is the state in which [homa_xmit_data] is
    called, so no other sender moves [link_idle_time] in between. *)
Definition homa_pacer_xmit (sock_owned_by_user : nat -> bool) (fuel : nat)
    (w : world) : option world :=
  match pacer_wait fuel w with
  | None => None
  | Some w1 =>
    match head (throttled_rpcs (w_homa w1)) with
    | None => Some w1
    | Some rpc =>
      if sock_owned_by_user rpc then Some w1
      else
        match homa_xmit_data K E rpc w1 with
        | None => None
        | Some w2 =>
          let m := msgout (w_rpcs w2 rpc) in
          if (next_offset m >=? granted m)
             || bool_decide (next_packet m = None)
          then
            if bool_decide (rpc ∈ throttled_rpcs (w_homa w2))
            then Some (w_set_homa
                         (set_throttled_rpcs
                            (list_del rpc (throttled_rpcs (w_homa w2)))
                            (w_homa w2)) w2)
            else Some w2
          else Some w2
        end
    end
  end.

End Pacer.

(** What the pacer tests observe: the packets sent, and the throttled
    list with the [next_offset] of its RPCs. *)
Definition pacer_report (w : world) : list (Z * Z * Z) * list (nat * Z) :=
  (wire_summary w,
   map (fun rpc => (rpc, next_offset (msgout (w_rpcs w rpc))))
     (throttled_rpcs (w_homa w))).

(** The transport of the pacer tests: [max_nic_queue_cycles = 2000],
    throttling switched on. *)
Definition pacer_homa : homa := mk_homa 10000 10000 1000 2000 1000 7 0 [].

(** The busy-wait of the pacer ends at the clock reading number [n]:
    the NIC queue is short enough then. *)
Definition pacer_ready_at (E : externals) (h : homa) (n : nat) : bool :=
  negb (u64 (u64 (get_cycles_at E n) + max_nic_queue_cycles h)
        <? u64 (link_idle_time h)).

(** The test with which [homa_pacer_xmit] decides to take the RPC off
    the throttled list. *)
Definition pacer_done (m : homa_message_out) : bool :=
  (next_offset m >=? granted m) || bool_decide (next_packet m = None).


(** The world of the test [homa_pacer_xmit__basics]: messages of 5000,
    10000 and 15000 bytes at addresses 1 to 3, all on the throttled
    list. *)
Definition pacer_world : world :=
  add_all_to_throttled [1; 2; 3]%nat
    (unit_world pacer_homa
       [unit_rpc 0 0; unit_rpc 1 5000; unit_rpc 2 10000; unit_rpc 3 15000]).

(** The world of the test [homa_pacer_xmit__remove_from_queue]:
    messages of 1000 and 10000 bytes. *)
Definition pacer_short_world : world :=
  add_all_to_throttled [1; 2]%nat
    (unit_world pacer_homa [unit_rpc 0 0; unit_rpc 1 1000; unit_rpc 2 10000]).

(** [homa_set_priority]: the exported name of [set_priority]. *)
Definition homa_set_priority (skb : sk_buff) (priority : Z) : sk_buff :=
  set_priority skb priority.

(** * Proofs *)

(** Closed conjunctions of comparisons between numerals. *)
Ltac eval_ranges :=
  repeat split; vm_compute;
  solve [ reflexivity | discriminate | intro; discriminate ].

(** ** Facts about machine integers *)

Lemma s32_small z : - 2 ^ 31 <= z < 2 ^ 31 -> s32 z = z.
Proof. intros Hz. unfold s32. rewrite Z.mod_small; lia. Qed.

Lemma s32_range z : - 2 ^ 31 <= s32 z < 2 ^ 31.
Proof.
  unfold s32. pose proof (Z.mod_pos_bound (z + 2 ^ 31) (2 ^ 32)). lia.
Qed.

Lemma u32_small z : 0 <= z < 2 ^ 32 -> u32 z = z.
Proof. intros Hz. unfold u32. apply Z.mod_small; lia. Qed.

Lemma u64_small z : 0 <= z < 2 ^ 64 -> u64 z = z.
Proof. intros Hz. unfold u64. apply Z.mod_small; lia. Qed.

Lemma u64_range z : 0 <= u64 z < 2 ^ 64.
Proof. unfold u64. apply Z.mod_pos_bound. lia. Qed.

Lemma htonl_range z : 0 <= htonl z < 2 ^ 32.
Proof.
  unfold htonl, byte_of, u32.
  change (256 ^ 0) with 1; change (256 ^ 1) with 256;
    change (256 ^ 2) with 65536; change (256 ^ 3) with 16777216.
  change (2 ^ 24) with 16777216; change (2 ^ 16) with 65536;
    change (2 ^ 8) with 256; change (2 ^ 32) with 4294967296.
  Z.div_mod_to_equations. lia.
Qed.

Lemma ntohl_range z : 0 <= ntohl z < 2 ^ 32.
Proof. apply htonl_range. Qed.

(** A 32-bit value is the sum of its four bytes. *)
Lemma bytes_of_u32 x :
  0 <= x < 2 ^ 32 ->
  exists a b c d,
    0 <= a < 256 /\ 0 <= b < 256 /\ 0 <= c < 256 /\ 0 <= d < 256 /\
    x = a + 256 * b + 65536 * c + 16777216 * d /\
    byte_of 0 x = a /\ byte_of 1 x = b /\ byte_of 2 x = c /\ byte_of 3 x = d.
Proof.
  intros Hx. unfold byte_of.
  change (256 ^ 0) with 1; change (256 ^ 1) with 256;
    change (256 ^ 2) with 65536; change (256 ^ 3) with 16777216.
  exists (x / 1 mod 256), (x / 256 mod 256), (x / 65536 mod 256),
    (x / 16777216 mod 256).
  change (2 ^ 32) with 4294967296 in Hx.
  repeat split; try (Z.div_mod_to_equations; lia).
Qed.

(** Reading a 32-bit header field back gives the value stored. *)
Lemma ntohl_htonl z : 0 <= z < 2 ^ 32 -> ntohl (htonl z) = z.
Proof.
  intros Hz. unfold ntohl. unfold htonl at 2. rewrite (u32_small z) by exact Hz.
  destruct (bytes_of_u32 z Hz)
    as (a & b & c & d & Ha & Hb & Hc & Hd & Hx & -> & -> & -> & ->).
  change (2 ^ 24) with 16777216; change (2 ^ 16) with 65536;
    change (2 ^ 8) with 256.
  set (y := a * 16777216 + b * 65536 + c * 256 + d).
  assert (Hy : 0 <= y < 2 ^ 32) by (change (2 ^ 32) with 4294967296; lia).
  unfold htonl. rewrite (u32_small y) by exact Hy.
  destruct (bytes_of_u32 y Hy)
    as (a' & b' & c' & d' & Ha' & Hb' & Hc' & Hd' & Hy' & -> & -> & -> & ->).
  change (2 ^ 24) with 16777216; change (2 ^ 16) with 65536;
    change (2 ^ 8) with 256.
  lia.
Qed.

(** ** [homa_message_out_init] *)

Lemma init_passes_pos bl :
  0 < bl -> init_passes bl = S (init_passes (bl - HOMA_MAX_DATA_PER_PACKET)).
Proof.
  intros Hbl. unfold init_passes, HOMA_MAX_DATA_PER_PACKET.
  rewrite <- Z2Nat.inj_succ by (Z.div_mod_to_equations; lia).
  f_equal. Z.div_mod_to_equations. lia.
Qed.

Lemma init_passes_nonpos bl : bl <= 0 -> init_passes bl = 0%nat.
Proof.
  intros Hbl. unfold init_passes, HOMA_MAX_DATA_PER_PACKET.
  assert ((bl + (1400 - 1)) / 1400 <= 0) by (Z.div_mod_to_equations; lia).
  lia.
Qed.


Section InitFacts.

Variable K : homa_impl_h.
Variable E : externals.
Variables (dest : homa_peer) (dport sport id : Z).

Lemma init_built_from_length m n bl :
  length (init_built_from m dest dport sport id n bl) = n.
Proof. revert bl. induction n as [|n IH]; intros bl; simpl; [|rewrite IH]; reflexivity. Qed.

Lemma init_built_from_lookup m n bl (i : nat) :
  (i < n)%nat ->
  init_built_from m dest dport sport id n bl !! i
  = Some (init_built m dest dport sport id
            (bl - HOMA_MAX_DATA_PER_PACKET * Z.of_nat i)).
Proof.
  revert bl i. induction n as [|n IH]; intros bl i Hi; [lia|].
  destruct i as [|i]; simpl.
  - do 2 f_equal. lia.
  - rewrite IH by lia. do 2 f_equal. lia.
Qed.

Lemma init_built_from_set_packets l m n bl :
  init_built_from (set_packets l m) dest dport sport id n bl
  = init_built_from m dest dport sport id n bl.
Proof. revert bl. induction n as [|n IH]; intros bl; simpl; [|rewrite IH]; reflexivity. Qed.

(** The loop never runs out of passes. *)
Lemma message_out_init_loop_total fuel :
  forall k bl m,
    (Z.to_nat bl <= fuel)%nat ->
    exists r, message_out_init_loop E fuel dest dport sport id k bl m = Some r.
Proof.
  induction fuel as [|fuel IH]; intros k bl m Hf; simpl.
  - destruct (bl >? 0) eqn:Hbl; [lia | eauto].
  - destruct (bl >? 0) eqn:Hbl; [|eauto].
    destruct (alloc_skb_ok E k); simpl; [|eauto].
    destruct (skb_add_data_nocache E k =? 0); simpl; [|eauto].
    apply IH.
    pose proof (s32_range (bl - HOMA_MAX_DATA_PER_PACKET)) as Hr.
    destruct (Z_lt_le_dec bl (2 ^ 31)) as [Hlt | Hge].
    + rewrite s32_small by (unfold HOMA_MAX_DATA_PER_PACKET; lia).
      unfold HOMA_MAX_DATA_PER_PACKET. lia.
    + lia.
Qed.

(** A return value of 0 fixes the message completely. *)
Lemma message_out_init_loop_success fuel :
  forall k bl m m',
    bl < 2 ^ 31 ->
    message_out_init_loop E fuel dest dport sport id k bl m = Some (0, m') ->
    let pkts := packets m
                ++ init_built_from m dest dport sport id (init_passes bl) bl in
    m' = set_next (packets_head pkts) (next_offset m) (set_packets pkts m).
Proof.
  induction fuel as [|fuel IH]; intros k bl m m' Hbl Hrun; simpl in Hrun.
  - destruct (bl >? 0) eqn:Hpos; [discriminate|].
    injection Hrun as <-. rewrite init_passes_nonpos by lia. simpl.
    rewrite app_nil_r. destruct m; reflexivity.
  - destruct (bl >? 0) eqn:Hpos.
    + destruct (alloc_skb_ok E k); simpl in Hrun; [|discriminate].
      destruct (skb_add_data_nocache E k =? 0) eqn:Herr; simpl in Hrun.
      * rewrite s32_small in Hrun by (unfold HOMA_MAX_DATA_PER_PACKET; lia).
        apply IH in Hrun; [|unfold HOMA_MAX_DATA_PER_PACKET; lia].
        subst m'. simpl. rewrite (init_passes_pos bl) by lia. simpl.
        rewrite <- app_assoc. simpl. rewrite init_built_from_set_packets.
        replace (if u32 HOMA_MAX_DATA_PER_PACKET >? u32 bl
                 then u32 bl else u32 HOMA_MAX_DATA_PER_PACKET)
          with (Z.min HOMA_MAX_DATA_PER_PACKET bl).
        { reflexivity. }
        rewrite (u32_small bl) by lia.
        rewrite (u32_small HOMA_MAX_DATA_PER_PACKET)
          by (unfold HOMA_MAX_DATA_PER_PACKET; lia).
        destruct (HOMA_MAX_DATA_PER_PACKET >? bl) eqn:Hc; lia.
      * injection Hrun as Hz _. lia.
    + injection Hrun as <-. rewrite init_passes_nonpos by lia. simpl.
      rewrite app_nil_r. destruct m; reflexivity.
Qed.

End InitFacts.

Lemma homa_message_out_init_total K E h len dest dport sport id :
  exists r, homa_message_out_init K E h len dest dport sport id = Some r.
Proof.
  unfold homa_message_out_init.
  destruct (u64 len >? u64 (HOMA_MAX_MESSAGE_LENGTH K)); [eauto|].
  apply message_out_init_loop_total. lia.
Qed.

(** The message after a successful [homa_message_out_init]. *)
Lemma homa_message_out_init_success K E h len dest dport sport id m :
  0 <= len < 2 ^ 64 ->
  0 <= HOMA_MAX_MESSAGE_LENGTH K < 2 ^ 31 ->
  homa_message_out_init K E h len dest dport sport id = Some (0, m) ->
  len <= HOMA_MAX_MESSAGE_LENGTH K /\
  let m1 := mk_homa_message_out len [] None 0 (rtt_bytes h)
              (Z.min (rtt_bytes h) len) 0 in
  let pkts := init_built_from m1 dest dport sport id (init_passes len) len in
  m = set_next (packets_head pkts) 0 (set_packets pkts m1).
Proof.
  intros Hlen HK Hrun. unfold homa_message_out_init in Hrun.
  rewrite (u64_small len) in Hrun by lia.
  rewrite (u64_small (HOMA_MAX_MESSAGE_LENGTH K)) in Hrun by lia.
  destruct (len >? HOMA_MAX_MESSAGE_LENGTH K) eqn:Hbig.
  { injection Hrun as Hz _. unfold EINVAL in Hz. lia. }
  assert (Hle : len <= HOMA_MAX_MESSAGE_LENGTH K) by lia.
  split; [exact Hle|].
  rewrite (s32_small len) in Hrun by lia.
  apply message_out_init_loop_success in Hrun; [|lia].
  subst m. simpl.
  destruct (rtt_bytes h >? len) eqn:Hg; simpl.
  - rewrite Z.min_r by lia. reflexivity.
  - rewrite Z.min_l by lia. reflexivity.
Qed.

(** C1 (as amended).  After a successful [homa_message_out_init] of a
    message of [len] bytes the field [unscheduled] is [rtt_bytes], not
    capped by the length, and [granted] is the smaller of [len] and
    [rtt_bytes].  So [granted <= length] and [granted <= unscheduled]
    hold right after the call, and [unscheduled <= granted] holds exactly
    when [rtt_bytes <= len]. *)
Theorem init_unscheduled_is_rtt_bytes :
  forall K E h len dest dport sport id m,
    0 <= len < 2 ^ 64 ->
    0 <= HOMA_MAX_MESSAGE_LENGTH K < 2 ^ 31 ->
    homa_message_out_init K E h len dest dport sport id = Some (0, m) ->
    msg_length m = len /\
    unscheduled m = rtt_bytes h /\
    granted m = Z.min len (rtt_bytes h) /\
    granted m <= msg_length m /\
    granted m <= unscheduled m /\
    (unscheduled m <= granted m <-> rtt_bytes h <= len).
Proof.
  intros K E h len dest dport sport id m Hlen HK Hrun.
  destruct (homa_message_out_init_success _ _ _ _ _ _ _ _ _ Hlen HK Hrun)
    as [_ ->].
  simpl. repeat split; lia.
Qed.

Lemma init_unscheduled_is_rtt_bytes_witness :
  (0 <= 3000 < 2 ^ 64) /\
  (0 <= HOMA_MAX_MESSAGE_LENGTH unit_impl < 2 ^ 31) /\
  let m := msgout (unit_rpc 1 3000) in
  msg_length m = 3000 /\
  unscheduled m = rtt_bytes unit_homa /\
  granted m = Z.min 3000 (rtt_bytes unit_homa) /\
  granted m <= msg_length m /\
  granted m <= unscheduled m /\
  (unscheduled m <= granted m <-> rtt_bytes unit_homa <= 3000).
Proof.
  split; [lia|]. split; [simpl; lia|].
  apply (init_unscheduled_is_rtt_bytes unit_impl (unit_externals 10000)
           unit_homa 3000 unit_peer 99 40000 1).
  - lia.
  - simpl; lia.
  - vm_compute. reflexivity.
Defined.

(** C1 as stated fails: a 3000-byte message with [rtt_bytes = 10000] is
    initialised with [unscheduled = 10000], which is neither
    [min(3000, 10000)] nor below [granted = 3000]. *)
Lemma init_unscheduled_not_capped :
  exists m,
    homa_message_out_init unit_impl (unit_externals 10000) unit_homa 3000
      unit_peer 99 40000 1 = Some (0, m) /\
    unscheduled m = 10000 /\
    unscheduled m <> Z.min 3000 (rtt_bytes unit_homa) /\
    granted m = 3000 /\
    ~ (unscheduled m <= granted m <= msg_length m).
Proof.
  eexists. split; [vm_compute; reflexivity|].
  simpl. repeat split; lia.
Qed.

(** C2 (as amended).  For [0 <= len <= HOMA_MAX_MESSAGE_LENGTH] a
    successful [homa_message_out_init] builds exactly
    [ceil(len / HOMA_MAX_DATA_PER_PACKET)] buffers: none when [len = 0]
    (and then [next_packet] is [NULL]), at least one when [len > 0].  The
    header offset of buffer [i] is [i * HOMA_MAX_DATA_PER_PACKET], its
    payload is the smaller of [HOMA_MAX_DATA_PER_PACKET] and the bytes
    left, and the payload of the last buffer is
    [len mod HOMA_MAX_DATA_PER_PACKET], or [HOMA_MAX_DATA_PER_PACKET]
    when [len] is a positive multiple of it. *)
Theorem init_packet_layout :
  forall K E h len dest dport sport id m,
    0 <= len <= HOMA_MAX_MESSAGE_LENGTH K ->
    HOMA_MAX_MESSAGE_LENGTH K < 2 ^ 31 ->
    homa_message_out_init K E h len dest dport sport id = Some (0, m) ->
    let n := Z.of_nat (length (packets m)) in
    n = (len + (HOMA_MAX_DATA_PER_PACKET - 1)) / HOMA_MAX_DATA_PER_PACKET /\
    len <= HOMA_MAX_DATA_PER_PACKET * n < len + HOMA_MAX_DATA_PER_PACKET /\
    (len = 0 -> packets m = [] /\ next_packet m = None) /\
    (0 < len -> 1 <= n /\ next_packet m = Some 0%nat) /\
    (forall (i : nat) skb,
        packets m !! i = Some skb ->
        ntohl (h_offset (hdr skb)) = Z.of_nat i * HOMA_MAX_DATA_PER_PACKET /\
        payload skb = Z.min HOMA_MAX_DATA_PER_PACKET
                        (len - Z.of_nat i * HOMA_MAX_DATA_PER_PACKET)) /\
    (forall skb,
        packets m !! (length (packets m) - 1)%nat = Some skb ->
        payload skb = if len mod HOMA_MAX_DATA_PER_PACKET =? 0
                      then HOMA_MAX_DATA_PER_PACKET
                      else len mod HOMA_MAX_DATA_PER_PACKET).
Proof.
  intros K E h len dest dport sport id m Hlen HK Hrun.
  assert (Hlen64 : 0 <= len < 2 ^ 64) by lia.
  assert (HK' : 0 <= HOMA_MAX_MESSAGE_LENGTH K < 2 ^ 31) by lia.
  destruct (homa_message_out_init_success _ _ _ _ _ _ _ _ _ Hlen64 HK' Hrun)
    as [_ ->].
  cbv zeta. cbn [packets set_next set_packets next_packet].
  rewrite init_built_from_length.
  assert (Hn : Z.of_nat (init_passes len)
               = (len + (HOMA_MAX_DATA_PER_PACKET - 1))
                   / HOMA_MAX_DATA_PER_PACKET).
  { unfold init_passes. rewrite Z2Nat.id; [reflexivity|].
    unfold HOMA_MAX_DATA_PER_PACKET. Z.div_mod_to_equations. lia. }
  assert (Hlookup : forall (i : nat) skb,
             init_built_from
               (mk_homa_message_out len [] None 0 (rtt_bytes h)
                  (Z.min (rtt_bytes h) len) 0)
               dest dport sport id (init_passes len) len !! i = Some skb ->
             ntohl (h_offset (hdr skb))
               = Z.of_nat i * HOMA_MAX_DATA_PER_PACKET /\
             payload skb = Z.min HOMA_MAX_DATA_PER_PACKET
                             (len - Z.of_nat i * HOMA_MAX_DATA_PER_PACKET)).
  { intros i skb Hi.
    assert (Hlt : (i < init_passes len)%nat).
    { apply lookup_lt_Some in Hi. rewrite init_built_from_length in Hi.
      exact Hi. }
    rewrite init_built_from_lookup in Hi by exact Hlt.
    injection Hi as <-. cbn.
    assert (Hi' : Z.of_nat i < (len + (HOMA_MAX_DATA_PER_PACKET - 1))
                               / HOMA_MAX_DATA_PER_PACKET) by lia.
    unfold HOMA_MAX_DATA_PER_PACKET in *.
    assert (Hb : 0 <= 1400 * Z.of_nat i < len)
      by (Z.div_mod_to_equations; lia).
    replace (len - (len - 1400 * Z.of_nat i)) with (1400 * Z.of_nat i) by lia.
    rewrite s32_small by lia. rewrite ntohl_htonl by lia.
    split; [lia|]. f_equal. lia. }
  unfold HOMA_MAX_DATA_PER_PACKET in *.
  split; [exact Hn|].
  split.
  { rewrite Hn. Z.div_mod_to_equations. lia. }
  split.
  { intros ->. rewrite init_passes_nonpos by lia. split; reflexivity. }
  split.
  { intros Hpos. rewrite (init_passes_pos len) by lia. cbn [init_built_from packets_head].
    split; [lia | reflexivity]. }
  split; [exact Hlookup|].
  intros skb Hlast.
  pose proof (lookup_lt_Some _ _ _ Hlast) as Hlt.
  rewrite init_built_from_length in Hlt.
  apply Hlookup in Hlast as [_ ->].
  replace (Z.of_nat (init_passes len - 1))
    with (Z.of_nat (init_passes len) - 1) by lia.
  rewrite Hn.
  assert (0 < (len + (1400 - 1)) / 1400) by lia.
  destruct (len mod 1400 =? 0) eqn:Hm; Z.div_mod_to_equations; lia.
Qed.

Lemma init_packet_layout_witness :
  (0 <= 3000 <= HOMA_MAX_MESSAGE_LENGTH unit_impl) /\
  (HOMA_MAX_MESSAGE_LENGTH unit_impl < 2 ^ 31) /\
  let m := msgout (unit_rpc 1 3000) in
  Z.of_nat (length (packets m))
  = (3000 + (HOMA_MAX_DATA_PER_PACKET - 1)) / HOMA_MAX_DATA_PER_PACKET.
Proof.
  split; [simpl; lia|]. split; [simpl; lia|].
  apply (init_packet_layout unit_impl (unit_externals 10000)
           unit_homa 3000 unit_peer 99 40000 1).
  - simpl; lia.
  - simpl; lia.
  - vm_compute. reflexivity.
Defined.

(** C2 as stated fails at [len = 0]: the call succeeds and leaves the
    message without any buffer, where the claim wants one empty buffer. *)
Lemma init_empty_message_has_no_packet :
  exists m,
    homa_message_out_init unit_impl (unit_externals 10000) unit_homa 0
      unit_peer 99 40000 1 = Some (0, m) /\
    packets m = [] /\
    ~ (1 <= length (packets m))%nat.
Proof.
  eexists. split; [vm_compute; reflexivity|].
  simpl. split; [reflexivity | lia].
Qed.

(** [homa_message_out_init] leaves the message at its first buffer, with
    the buffers in order of their offsets. *)
Lemma homa_message_out_init_in_order K E h len dest dport sport id m :
  0 <= len <= HOMA_MAX_MESSAGE_LENGTH K ->
  HOMA_MAX_MESSAGE_LENGTH K + HOMA_MAX_DATA_PER_PACKET < 2 ^ 31 ->
  homa_message_out_init K E h len dest dport sport id = Some (0, m) ->
  packets_in_order (packets m) /\ message_at m 0 /\
  msg_length m = len /\
  Z.of_nat (length (packets m))
  = (len + (HOMA_MAX_DATA_PER_PACKET - 1)) / HOMA_MAX_DATA_PER_PACKET.
Proof.
  unfold HOMA_MAX_DATA_PER_PACKET. intros Hlen HK Hrun.
  assert (Hlen64 : 0 <= len < 2 ^ 64) by lia.
  assert (HK' : 0 <= HOMA_MAX_MESSAGE_LENGTH K < 2 ^ 31) by lia.
  destruct (homa_message_out_init_success _ _ _ _ _ _ _ _ _ Hlen64 HK' Hrun)
    as [_ ->].
  cbv zeta. unfold packets_in_order, message_at.
  cbn [packets set_next set_packets next_packet next_offset msg_length].
  rewrite init_built_from_length.
  assert (Hn : Z.of_nat (init_passes len) = (len + (1400 - 1)) / 1400).
  { unfold init_passes, HOMA_MAX_DATA_PER_PACKET. rewrite Z2Nat.id; [reflexivity|].
    Z.div_mod_to_equations. lia. }
  unfold HOMA_MAX_DATA_PER_PACKET.
  split; [split|].
  - rewrite Hn. Z.div_mod_to_equations. lia.
  - intros i skb Hi.
    assert (Hlt : (i < init_passes len)%nat).
    { apply lookup_lt_Some in Hi. rewrite init_built_from_length in Hi.
      exact Hi. }
    rewrite init_built_from_lookup in Hi by exact Hlt.
    injection Hi as <-. cbn. unfold HOMA_MAX_DATA_PER_PACKET.
    assert (Hb : 0 <= 1400 * Z.of_nat i < len)
      by (Z.div_mod_to_equations; lia).
    replace (len - (len - 1400 * Z.of_nat i)) with (1400 * Z.of_nat i) by lia.
    rewrite s32_small by lia. apply ntohl_htonl. lia.
  - split; [|split; [reflexivity | exact Hn]].
    split; [lia|]. split; [reflexivity|].
    destruct (init_passes len); reflexivity.
Qed.

(** When no allocation and no copy fails, the loop returns 0. *)
Lemma message_out_init_loop_ok E fuel dest dport sport id :
  (forall k, alloc_skb_ok E k = true) ->
  (forall k, skb_add_data_nocache E k = 0) ->
  forall k bl m r,
    message_out_init_loop E fuel dest dport sport id k bl m = Some r ->
    fst r = 0.
Proof.
  intros Ha Hc. induction fuel as [|fuel IH]; intros k bl m r Hrun;
    simpl in Hrun; destruct (bl >? 0).
  - discriminate.
  - injection Hrun as <-. reflexivity.
  - rewrite Ha, Hc in Hrun. simpl in Hrun. eapply IH. exact Hrun.
  - injection Hrun as <-. reflexivity.
Qed.

(** The messages of the unit tests are initialised successfully, so their
    buffers are in order and they stand at the first one. *)
Lemma unit_rpc_in_order id len :
  0 <= len <= 1000000 ->
  let m := msgout (unit_rpc id len) in
  packets_in_order (packets m) /\ message_at m 0 /\
  msg_length m = len /\
  Z.of_nat (length (packets m))
  = (len + (HOMA_MAX_DATA_PER_PACKET - 1)) / HOMA_MAX_DATA_PER_PACKET.
Proof.
  intros Hlen. cbv zeta. unfold unit_rpc.
  destruct (homa_message_out_init_total unit_impl (unit_externals 10000)
              unit_homa len unit_peer 99 40000 id) as [[e m] Hrun].
  rewrite Hrun. cbn [msgout].
  assert (He : e = 0).
  { unfold homa_message_out_init in Hrun.
    rewrite (u64_small len) in Hrun by lia.
    change (u64 (HOMA_MAX_MESSAGE_LENGTH unit_impl)) with 1000000 in Hrun.
    destruct (_ >? _) eqn:Hbig.
    - lia.
    - apply message_out_init_loop_ok in Hrun; [exact Hrun | reflexivity..]. }
  subst e.
  apply (homa_message_out_init_in_order unit_impl (unit_externals 10000)
           unit_homa len unit_peer 99 40000 id m); [cbn; lia | | exact Hrun].
  cbn. unfold HOMA_MAX_DATA_PER_PACKET. lia.
Qed.

(** [homa_message_out_reset] rewinds the message and keeps its buffers;
    a second call changes nothing. *)
Lemma homa_message_out_reset_rewinds m :
  let m' := homa_message_out_reset m in
  next_offset m' = 0 /\
  next_packet m' = packets_head (packets m) /\
  granted m' = Z.min (unscheduled m) (msg_length m) /\
  packets m' = packets m /\
  homa_message_out_reset m' = m'.
Proof.
  destruct m as [len pkts np no un gr sp].
  unfold homa_message_out_reset. cbn.
  destruct (un >? len) eqn:Hg; cbn.
  - repeat split; try lia. rewrite Hg. cbn. reflexivity.
  - repeat split; try lia. rewrite Hg. reflexivity.
Qed.

(** ** [homa_add_to_throttled] *)

Section Throttled.

Variable rpcs : nat -> homa_rpc.
Variable rpc : nat.

Lemma remaining_bytes_exact (r : homa_rpc) :
  - 2 ^ 31 <= msg_length (msgout r) - next_offset (msgout r) < 2 ^ 31 ->
  remaining_bytes r = msg_length (msgout r) - next_offset (msgout r).
Proof. intros Hr. unfold remaining_bytes. apply s32_small. exact Hr. Qed.

(** Where the scan puts the new entry: behind every entry with at most
    as many bytes left, in front of the first one with more. *)
Lemma throttled_insert_split (l : list nat) :
  exists l1 l2,
    l = l1 ++ l2 /\
    throttled_insert rpcs rpc l = l1 ++ rpc :: l2 /\
    Forall (fun c => remaining_bytes (rpcs c) <= remaining_bytes (rpcs rpc)) l1 /\
    (forall c, head l2 = Some c ->
               remaining_bytes (rpcs rpc) < remaining_bytes (rpcs c)).
Proof.
  induction l as [|c l IH]; simpl.
  - exists [], []. repeat split; [constructor | intros c Hc; discriminate].
  - destruct (remaining_bytes (rpcs c) >? remaining_bytes (rpcs rpc)) eqn:Hc.
    + exists [], (c :: l). repeat split; [constructor|].
      intros c' Hc'. injection Hc' as <-. lia.
    + destruct IH as (l1 & l2 & Hl & Hins & Hle & Hhd).
      exists (c :: l1), l2. rewrite Hins, Hl. repeat split; [|exact Hhd].
      constructor; [lia | exact Hle].
Qed.

Lemma throttled_insert_elem (l : list nat) (a : nat) :
  a ∈ throttled_insert rpcs rpc l <-> a = rpc \/ a ∈ l.
Proof.
  destruct (throttled_insert_split l) as (l1 & l2 & -> & -> & _).
  rewrite !elem_of_app, elem_of_cons. tauto.
Qed.

Lemma throttled_insert_sorted (l : list nat) :
  StronglySorted (fewer_remaining rpcs) l ->
  StronglySorted (fewer_remaining rpcs) (throttled_insert rpcs rpc l).
Proof.
  induction 1 as [|c l Hs IH Hall]; simpl.
  - repeat constructor.
  - destruct (remaining_bytes (rpcs c) >? remaining_bytes (rpcs rpc)) eqn:Hc.
    + constructor; [constructor; assumption|].
      constructor; [unfold fewer_remaining; lia|].
      eapply Forall_impl; [exact Hall|].
      unfold fewer_remaining. intros x Hx. lia.
    + constructor; [exact IH|].
      apply Forall_forall. intros x Hx.
      apply throttled_insert_elem in Hx as [-> | Hx].
      * unfold fewer_remaining. lia.
      * rewrite Forall_forall in Hall. apply Hall. exact Hx.
Qed.

Lemma throttled_insert_NoDup (l : list nat) :
  rpc ∉ l -> NoDup l -> NoDup (throttled_insert rpcs rpc l).
Proof.
  intros Hnot Hnd.
  destruct (throttled_insert_split l) as (l1 & l2 & -> & -> & _).
  apply NoDup_app in Hnd as (H1 & H12 & H2).
  apply NoDup_app. repeat split; [exact H1 | | ].
  - intros x Hx Hx'. apply elem_of_cons in Hx' as [-> | Hx'].
    + apply Hnot. apply elem_of_app. left. exact Hx.
    + exact (H12 x Hx Hx').
  - constructor; [|exact H2].
    intros Hin. apply Hnot. apply elem_of_app. right. exact Hin.
Qed.

End Throttled.

Lemma homa_add_to_throttled_rpcs rpc w :
  w_rpcs (homa_add_to_throttled rpc w) = w_rpcs w.
Proof.
  unfold homa_add_to_throttled. destruct (bool_decide _); reflexivity.
Qed.

Lemma homa_add_to_throttled_elem rpc w a :
  a ∈ throttled_rpcs (w_homa (homa_add_to_throttled rpc w))
  <-> a = rpc \/ a ∈ throttled_rpcs (w_homa w).
Proof.
  unfold homa_add_to_throttled.
  destruct (bool_decide (rpc ∈ throttled_rpcs (w_homa w))) eqn:Hin.
  - apply bool_decide_eq_true in Hin. split; [tauto|].
    intros [-> | H]; assumption.
  - destruct w as [h ? ? ? ? ?]; destruct h; simpl.
    apply throttled_insert_elem.
Qed.

Lemma homa_add_to_throttled_keeps rpc w :
  throttled_sorted w -> NoDup (throttled_rpcs (w_homa w)) ->
  throttled_sorted (homa_add_to_throttled rpc w) /\
  NoDup (throttled_rpcs (w_homa (homa_add_to_throttled rpc w))).
Proof.
  intros Hs Hnd. unfold throttled_sorted.
  rewrite homa_add_to_throttled_rpcs.
  unfold homa_add_to_throttled.
  destruct (bool_decide (rpc ∈ throttled_rpcs (w_homa w))) eqn:Hin.
  - split; assumption.
  - apply bool_decide_eq_false in Hin.
    destruct w as [h ? ? ? ? ?]; destruct h; simpl in *. split.
    + apply throttled_insert_sorted. exact Hs.
    + apply throttled_insert_NoDup; assumption.
Qed.

(** A second call for the same RPC changes nothing at all. *)
Lemma homa_add_to_throttled_twice rpc w :
  homa_add_to_throttled rpc (homa_add_to_throttled rpc w)
  = homa_add_to_throttled rpc w.
Proof.
  assert (Hin : rpc ∈ throttled_rpcs (w_homa (homa_add_to_throttled rpc w))).
  { apply homa_add_to_throttled_elem. left. reflexivity. }
  unfold homa_add_to_throttled at 1.
  rewrite bool_decide_eq_true_2 by exact Hin. reflexivity.
Qed.

Lemma add_all_to_throttled_keeps adds :
  forall w,
    throttled_sorted w -> NoDup (throttled_rpcs (w_homa w)) ->
    let w' := add_all_to_throttled adds w in
    throttled_sorted w' /\
    NoDup (throttled_rpcs (w_homa w')) /\
    w_rpcs w' = w_rpcs w /\
    (forall a, a ∈ throttled_rpcs (w_homa w')
               <-> a ∈ adds \/ a ∈ throttled_rpcs (w_homa w)).
Proof.
  induction adds as [|rpc adds IH]; intros w Hs Hnd; simpl.
  - repeat split; try assumption.
    + intros H; right; exact H.
    + intros [H | H]; [inversion H | exact H].
  - destruct (homa_add_to_throttled_keeps rpc w Hs Hnd) as [Hs' Hnd'].
    destruct (IH _ Hs' Hnd') as (H1 & H2 & H3 & H4).
    repeat split; try assumption.
    + rewrite <- (homa_add_to_throttled_rpcs rpc w). exact H3.
    + intros Ha. apply H4 in Ha as [Ha | Ha].
      * left. apply elem_of_cons. right. exact Ha.
      * apply homa_add_to_throttled_elem in Ha as [-> | Ha];
          [left; apply elem_of_cons; left; reflexivity | right; exact Ha].
    + intros [Ha | Ha]; apply H4.
      * apply elem_of_cons in Ha as [-> | Ha]; [|left; exact Ha].
        right. apply homa_add_to_throttled_elem. left. reflexivity.
      * right. apply homa_add_to_throttled_elem. right. exact Ha.
Qed.

Lemma homa_add_to_throttled_position rpc w :
  rpc ∉ throttled_rpcs (w_homa w) ->
  exists l1 l2,
    throttled_rpcs (w_homa w) = l1 ++ l2 /\
    throttled_rpcs (w_homa (homa_add_to_throttled rpc w)) = l1 ++ rpc :: l2 /\
    Forall (fun c => remaining_bytes (w_rpcs w c)
                     <= remaining_bytes (w_rpcs w rpc)) l1 /\
    (throttled_sorted w ->
     Forall (fun c => remaining_bytes (w_rpcs w rpc)
                      < remaining_bytes (w_rpcs w c)) l2).
Proof.
  intros Hnot. unfold homa_add_to_throttled.
  rewrite bool_decide_eq_false_2 by exact Hnot.
  destruct (throttled_insert_split (w_rpcs w) rpc (throttled_rpcs (w_homa w)))
    as (l1 & l2 & Hl & Hins & Hle & Hhd).
  exists l1, l2. destruct w as [h ? ? ? ? ?]; destruct h; simpl in *.
  repeat split; try assumption.
  intros Hs. unfold throttled_sorted in Hs. simpl in Hs. rewrite Hl in Hs.
  apply StronglySorted_app_1_r in Hs.
  destruct l2 as [|c l2]; [constructor|].
  specialize (Hhd c eq_refl).
  apply StronglySorted_inv in Hs as [_ Hall].
  constructor; [exact Hhd|].
  eapply Forall_impl; [exact Hall|].
  unfold fewer_remaining. simpl. intros x Hx. lia.
Qed.

(** C9.  The throttled list stays sorted by ascending bytes left
    ([length - next_offset]) and free of duplicates under any sequence of
    calls of [homa_add_to_throttled]; a call for an RPC that is already
    on the list changes nothing; a new RPC is placed behind every entry
    with at most as many bytes left as itself, so behind the entries that
    tie with it; and adding RPCs with 10000, 5000, 15000, 12000, 10000
    bytes left in that order gives 5000, 10000, 10000, 12000, 15000 with
    the later 10000 behind the earlier one. *)
Theorem throttled_list_srpt_order :
  (forall w adds,
      throttled_sorted w -> NoDup (throttled_rpcs (w_homa w)) ->
      let w' := add_all_to_throttled adds w in
      throttled_sorted w' /\ NoDup (throttled_rpcs (w_homa w')) /\
      w_rpcs w' = w_rpcs w /\
      (forall a, a ∈ throttled_rpcs (w_homa w')
                 <-> a ∈ adds \/ a ∈ throttled_rpcs (w_homa w))) /\
  (forall w adds,
      throttled_rpcs (w_homa w) = [] ->
      throttled_sorted (add_all_to_throttled adds w)) /\
  (forall r,
      - 2 ^ 31 <= msg_length (msgout r) - next_offset (msgout r) < 2 ^ 31 ->
      remaining_bytes r = msg_length (msgout r) - next_offset (msgout r)) /\
  (forall rpc w,
      rpc ∈ throttled_rpcs (w_homa w) -> homa_add_to_throttled rpc w = w) /\
  (forall rpc w,
      homa_add_to_throttled rpc (homa_add_to_throttled rpc w)
      = homa_add_to_throttled rpc w) /\
  (forall rpc w,
      rpc ∉ throttled_rpcs (w_homa w) ->
      exists l1 l2,
        throttled_rpcs (w_homa w) = l1 ++ l2 /\
        throttled_rpcs (w_homa (homa_add_to_throttled rpc w))
        = l1 ++ rpc :: l2 /\
        Forall (fun c => remaining_bytes (w_rpcs w c)
                         <= remaining_bytes (w_rpcs w rpc)) l1 /\
        (throttled_sorted w ->
         Forall (fun c => remaining_bytes (w_rpcs w rpc)
                          < remaining_bytes (w_rpcs w c)) l2)) /\
  (let w' := add_all_to_throttled [1; 2; 3; 4; 5]%nat srpt_world in
   map (fun a => remaining_bytes (w_rpcs srpt_world a)) [1; 2; 3; 4; 5]%nat
   = [10000; 5000; 15000; 12000; 10000] /\
   throttled_rpcs (w_homa w') = [2; 1; 5; 4; 3]%nat /\
   map (fun a => remaining_bytes (w_rpcs w' a)) (throttled_rpcs (w_homa w'))
   = [5000; 10000; 10000; 12000; 15000] /\
   throttled_rpcs (w_homa (homa_add_to_throttled 1 w')) = [2; 1; 5; 4; 3]%nat).
Proof.
  split; [intros w adds; apply add_all_to_throttled_keeps|].
  split.
  { intros w adds Hnil.
    apply add_all_to_throttled_keeps.
    - unfold throttled_sorted. rewrite Hnil. constructor.
    - rewrite Hnil. constructor. }
  split; [exact remaining_bytes_exact|].
  split.
  { intros rpc w Hin. unfold homa_add_to_throttled.
    rewrite bool_decide_eq_true_2 by exact Hin. reflexivity. }
  split; [exact homa_add_to_throttled_twice|].
  split; [exact homa_add_to_throttled_position|].
  vm_compute. repeat split; reflexivity.
Qed.

Lemma throttled_list_srpt_order_witness :
  (throttled_sorted srpt_world /\
   NoDup (throttled_rpcs (w_homa srpt_world)) /\
   throttled_sorted (add_all_to_throttled [1; 2; 3; 4; 5]%nat srpt_world)) /\
  (throttled_rpcs (w_homa srpt_world) = [] /\
   throttled_sorted (add_all_to_throttled [3; 1; 2]%nat srpt_world)) /\
  (- 2 ^ 31 <= msg_length (msgout (w_rpcs srpt_world 1%nat))
               - next_offset (msgout (w_rpcs srpt_world 1%nat)) < 2 ^ 31 /\
   remaining_bytes (w_rpcs srpt_world 1%nat)
   = msg_length (msgout (w_rpcs srpt_world 1%nat))
     - next_offset (msgout (w_rpcs srpt_world 1%nat))) /\
  (let w := homa_add_to_throttled 1 srpt_world in
   (1%nat ∈ throttled_rpcs (w_homa w)) /\ homa_add_to_throttled 1 w = w) /\
  ((1%nat ∉ throttled_rpcs (w_homa srpt_world)) /\
   exists l1 l2,
     throttled_rpcs (w_homa srpt_world) = l1 ++ l2 /\
     throttled_rpcs (w_homa (homa_add_to_throttled 1 srpt_world))
     = l1 ++ 1%nat :: l2).
Proof.
  assert (Hs : throttled_sorted srpt_world) by constructor.
  assert (Hn : NoDup (throttled_rpcs (w_homa srpt_world))) by constructor.
  assert (He : throttled_rpcs (w_homa srpt_world) = []) by reflexivity.
  split; [|split; [|split; [|split]]].
  - split; [exact Hs|]. split; [exact Hn|].
    exact (proj1 (proj1 throttled_list_srpt_order srpt_world
                    [1; 2; 3; 4; 5]%nat Hs Hn)).
  - split; [exact He|].
    exact (proj1 (proj2 throttled_list_srpt_order) srpt_world
             [3; 1; 2]%nat He).
  - assert (Hr : - 2 ^ 31
                 <= msg_length (msgout (w_rpcs srpt_world 1%nat))
                    - next_offset (msgout (w_rpcs srpt_world 1%nat))
                 < 2 ^ 31) by eval_ranges.
    split; [exact Hr|].
    exact (proj1 (proj2 (proj2 throttled_list_srpt_order))
             (w_rpcs srpt_world 1%nat) Hr).
  - cbv zeta.
    assert (Hin : 1%nat ∈ throttled_rpcs
                          (w_homa (homa_add_to_throttled 1 srpt_world))).
    { apply homa_add_to_throttled_elem. left. reflexivity. }
    split; [exact Hin|].
    exact (proj1 (proj2 (proj2 (proj2 throttled_list_srpt_order)))
             1%nat (homa_add_to_throttled 1 srpt_world) Hin).
  - assert (Hnot : 1%nat ∉ throttled_rpcs (w_homa srpt_world)).
    { rewrite He. apply not_elem_of_nil. }
    split; [exact Hnot|].
    destruct (proj1 (proj2 (proj2 (proj2 (proj2 (proj2
                throttled_list_srpt_order))))) 1%nat srpt_world Hnot)
      as (l1 & l2 & H1 & H2 & _).
    exists l1, l2. split; assumption.
Defined.

(** ** [homa_update_idle_time] *)

Lemma homa_update_idle_time_frame K E bytes w :
  let w' := homa_update_idle_time K E bytes w in
  w_homa w' = set_link_idle_time (link_idle_time (w_homa w')) (w_homa w) /\
  w_rpcs w' = w_rpcs w /\ w_wire w' = w_wire w /\
  w_metrics w' = w_metrics w /\ w_wakeups w' = w_wakeups w /\
  w_clock w' = S (w_clock w).
Proof. repeat split; reflexivity. Qed.

Lemma homa_update_idle_time_exact K E bytes w :
  idle_update_in_range K E bytes w ->
  let h := w_homa w in
  let cycles := (bytes + (HOMA_MAX_IPV4_HEADER K + HOMA_VLAN_HEADER K
                          + HOMA_ETH_OVERHEAD K))
                * cycles_per_kbyte h / 1000 in
  link_idle_time (w_homa (homa_update_idle_time K E bytes w))
  = Z.max (link_idle_time h) (get_cycles_at E (w_clock w)) + cycles /\
  0 <= cycles.
Proof.
  unfold idle_update_in_range. cbv zeta.
  set (total := bytes + (HOMA_MAX_IPV4_HEADER K + HOMA_VLAN_HEADER K
                         + HOMA_ETH_OVERHEAD K)).
  intros (Ht & Hc & Hp & Hn & Hi & Hs).
  assert (Hprod : 0 <= total * cycles_per_kbyte (w_homa w)) by nia.
  assert (Hq : 0 <= total * cycles_per_kbyte (w_homa w) / 1000
               <= total * cycles_per_kbyte (w_homa w))
    by (Z.div_mod_to_equations; lia).
  unfold homa_update_idle_time, cycles_for_packet, get_cycles. cbn.
  fold total.
  rewrite (s32_small total) by lia.
  rewrite (s32_small (total * _)) by lia.
  rewrite Z.quot_div_nonneg by lia.
  rewrite (s32_small (_ / 1000)) by lia.
  rewrite (u64_small (get_cycles_at E (w_clock w))) by lia.
  rewrite (u64_small (link_idle_time (w_homa w))) by lia.
  split; [|lia].
  destruct (link_idle_time (w_homa w) <? get_cycles_at E (w_clock w)) eqn:Hlt.
  - rewrite u64_small by lia. lia.
  - rewrite u64_small by lia. lia.
Qed.

Lemma idle_updates_monotone K E sizes :
  forall w,
    idle_updates_in_range K E sizes w ->
    link_idle_time (w_homa w)
    <= link_idle_time (w_homa (idle_updates K E sizes w)).
Proof.
  induction sizes as [|bytes rest IH]; intros w Hr.
  - unfold idle_updates. cbn [fold_left]. lia.
  - destruct Hr as [Hr1 Hr2].
    specialize (IH _ Hr2).
    pose proof (homa_update_idle_time_exact K E bytes w Hr1) as He.
    cbv zeta in He. destruct He as [He Hc].
    unfold idle_updates in *. cbn [fold_left].
    lia.
Qed.

(** C8.  Within the ranges of its integer types,
    [homa_update_idle_time] sets [link_idle_time] to
    [max(link_idle_time, now) + cycles] with
    [cycles = (bytes + HOMA_MAX_IPV4_HEADER + HOMA_VLAN_HEADER
               + HOMA_ETH_OVERHEAD) * cycles_per_kbyte / 1000]
    and touches nothing else of the transport; the new value is never
    below the old one, so [link_idle_time] never decreases over a
    sequence of calls.  With [cycles_per_kbyte = 1000] and
    [link_idle_time = 10000], 1000 bytes at tick 5000 give 11104 and 200
    bytes at tick 20000 give 20304. *)
Theorem link_idle_time_advance :
  (forall K E bytes w,
      idle_update_in_range K E bytes w ->
      let h := w_homa w in
      let now := get_cycles_at E (w_clock w) in
      let cycles := (bytes + (HOMA_MAX_IPV4_HEADER K + HOMA_VLAN_HEADER K
                              + HOMA_ETH_OVERHEAD K))
                    * cycles_per_kbyte h / 1000 in
      let w' := homa_update_idle_time K E bytes w in
      link_idle_time (w_homa w') = Z.max (link_idle_time h) now + cycles /\
      link_idle_time h <= link_idle_time (w_homa w') /\
      w_homa w' = set_link_idle_time (link_idle_time (w_homa w')) h) /\
  (forall K E sizes w,
      idle_updates_in_range K E sizes w ->
      link_idle_time (w_homa w)
      <= link_idle_time (w_homa (idle_updates K E sizes w))) /\
  link_idle_time
    (w_homa (homa_update_idle_time unit_impl (unit_externals 5000) 1000
               (unit_world unit_homa []))) = 11104 /\
  link_idle_time
    (w_homa (homa_update_idle_time unit_impl (unit_externals 20000) 200
               (unit_world unit_homa []))) = 20304.
Proof.
  split.
  { intros K E bytes w Hr. cbv zeta.
    pose proof (homa_update_idle_time_exact K E bytes w Hr) as He.
    cbv zeta in He. destruct He as [He Hc].
    split; [exact He|]. split; [lia | reflexivity]. }
  split; [exact idle_updates_monotone|].
  split; vm_compute; reflexivity.
Qed.

Lemma link_idle_time_advance_witness :
  let w := unit_world unit_homa [] in
  let E := unit_externals 5000 in
  (idle_update_in_range unit_impl E 1000 w /\
   link_idle_time (w_homa (homa_update_idle_time unit_impl E 1000 w))
   = Z.max 10000 5000 + (1000 + (60 + 20 + 24)) * 1000 / 1000) /\
  (idle_updates_in_range unit_impl E [1000; 200] w /\
   link_idle_time (w_homa w)
   <= link_idle_time (w_homa (idle_updates unit_impl E [1000; 200] w))).
Proof.
  cbv zeta. split.
  - assert (Hr : idle_update_in_range unit_impl (unit_externals 5000) 1000
                   (unit_world unit_homa [])).
    { unfold idle_update_in_range. eval_ranges. }
    split; [exact Hr|].
    exact (proj1 (proj1 link_idle_time_advance unit_impl
                    (unit_externals 5000) 1000 (unit_world unit_homa []) Hr)).
  - assert (Hr : idle_updates_in_range unit_impl (unit_externals 5000)
                   [1000; 200] (unit_world unit_homa [])).
    { unfold idle_updates_in_range, idle_update_in_range. eval_ranges. }
    split; [exact Hr|].
    exact (proj1 (proj2 link_idle_time_advance) unit_impl
             (unit_externals 5000) [1000; 200] (unit_world unit_homa []) Hr).
Defined.

(** C8 without the ranges fails: with the [cycles_per_kbyte] that
    [homa_outgoing_sysctl_changed] computes for a 3 GHz processor and a
    link of 10 Mbit/s, the [int] product for a packet of 1428 bytes
    wraps, [cycles_for_packet] is negative, and [link_idle_time] drops
    from 1000000 to 381833 instead of rising to
    [max(1000000, 10000) + 1532 * 2400000 / 1000]. *)
Lemma link_idle_time_can_decrease :
  homa_outgoing_sysctl_changed 3000000 (mk_homa_sysctl 10 0)
    (mk_homa 10000 1000000 1000 0 1000 7 2 [])
  = Some (mk_homa 10000 1000000 2400000 0 1000 7 2 []) /\
  cycles_for_packet unit_impl (mk_homa 10000 1000000 2400000 0 1000 7 2 [])
    1428 = - 618167 /\
  link_idle_time
    (w_homa (homa_update_idle_time unit_impl (unit_externals 10000) 1428
               (unit_world (mk_homa 10000 1000000 2400000 0 1000 7 2 []) [])))
  = 381833 /\
  381833 < link_idle_time (mk_homa 10000 1000000 2400000 0 1000 7 2 []) /\
  381833 <> Z.max 1000000 10000 + (1428 + (60 + 20 + 24)) * 2400000 / 1000.
Proof.
  split; [vm_compute; reflexivity|].
  split; [vm_compute; reflexivity|].
  split; [vm_compute; reflexivity|].
  split; vm_compute; [reflexivity | discriminate].
Qed.

(** ** [homa_xmit_data] *)

Lemma w_set_rpc_same rpc r w : w_rpcs (w_set_rpc rpc r w) rpc = r.
Proof. unfold w_set_rpc. simpl. rewrite Nat.eqb_refl. reflexivity. Qed.

Lemma w_set_rpc_other rpc r w a :
  a <> rpc -> w_rpcs (w_set_rpc rpc r w) a = w_rpcs w a.
Proof.
  intros Ha. unfold w_set_rpc. simpl.
  destruct (Nat.eqb_spec a rpc); [contradiction | reflexivity].
Qed.

Section XmitFacts.

Variable K : homa_impl_h.
Variable E : externals.
Variable rpc : nat.

(** The throttle test reads the clock and changes nothing else. *)
Lemma xmit_data_throttle_frame w :
  let w1 := snd (xmit_data_throttle K E rpc w) in
  w_homa w1 = w_homa w /\ w_rpcs w1 = w_rpcs w /\ w_wire w1 = w_wire w /\
  w_metrics w1 = w_metrics w /\ w_wakeups w1 = w_wakeups w.
Proof.
  unfold xmit_data_throttle.
  destruct (_ >? _); [|repeat split; reflexivity].
  cbn. destruct (_ <? _); repeat split; reflexivity.
Qed.

(** A message with few bytes left skips the test without a look at the
    clock. *)
Lemma xmit_data_throttle_small w :
  remaining_bytes (w_rpcs w rpc) <= throttle_min_bytes (w_homa w) ->
  xmit_data_throttle K E rpc w = (false, w).
Proof.
  intros Hs. unfold xmit_data_throttle, remaining_bytes in *.
  destruct (_ >? _) eqn:Hc; [lia | reflexivity].
Qed.

Lemma xmit_data_throttle_disabled w :
  Z.land (flags (w_homa w)) (HOMA_FLAG_DONT_THROTTLE K) <> 0 ->
  fst (xmit_data_throttle K E rpc w) = false.
Proof.
  intros Hf. unfold xmit_data_throttle.
  destruct (_ >? _); [|reflexivity].
  cbn. destruct (_ <? _); [|reflexivity].
  cbn. apply Z.eqb_neq. exact Hf.
Qed.

(** Within range, the test of the code is the test over the integers. *)
Lemma xmit_data_throttle_fires w :
  throttle_in_range E rpc w ->
  throttle_test K E rpc w ->
  xmit_data_throttle K E rpc w = (true, snd (get_cycles E w)).
Proof.
  unfold throttle_in_range, throttle_test. cbv zeta.
  intros (Hr & Hn & Hs & Hl) (Hrem & Hq & Hf).
  unfold xmit_data_throttle.
  rewrite s32_small by exact Hr.
  destruct (_ >? _) eqn:Hc; [|lia].
  cbn. rewrite (u64_small (get_cycles_at E (w_clock w))) by exact Hn.
  rewrite u64_small by exact Hs. rewrite u64_small by exact Hl.
  destruct (_ <? _) eqn:Hc2; [|lia].
  rewrite Hf. reflexivity.
Qed.

Lemma xmit_data_throttle_passes w :
  throttle_in_range E rpc w ->
  ~ throttle_test K E rpc w ->
  fst (xmit_data_throttle K E rpc w) = false.
Proof.
  unfold throttle_in_range, throttle_test. cbv zeta.
  intros (Hr & Hn & Hs & Hl) Hnot.
  unfold xmit_data_throttle.
  rewrite s32_small by exact Hr.
  destruct (_ >? _) eqn:Hc; [|reflexivity].
  cbn. rewrite (u64_small (get_cycles_at E (w_clock w))) by exact Hn.
  rewrite u64_small by exact Hs. rewrite u64_small by exact Hl.
  destruct (_ <? _) eqn:Hc2; [|reflexivity].
  cbn. apply Z.eqb_neq. intros Hf. apply Hnot. repeat split; [lia | lia | exact Hf].
Qed.

(** What [__homa_xmit_data] does to the world and to the buffer. *)
Lemma homa_xmit_data_low_frame skb r w :
  let skb' := fst (__homa_xmit_data K E skb r w) in
  let w' := snd (__homa_xmit_data K E skb r w) in
  w_rpcs w' = w_rpcs w /\
  w_wire w' = w_wire w ++ [xmit_prepare skb r] /\
  w_homa w' = set_link_idle_time (link_idle_time (w_homa w')) (w_homa w) /\
  w_wakeups w' = w_wakeups w /\
  hdr skb' = set_cutoff_version (cutoff_version (peer r)) (hdr skb) /\
  vlan_tci skb' = vlan_tci skb /\
  payload skb' = payload skb.
Proof.
  unfold __homa_xmit_data.
  destruct (negb (ip_err (ip_queue_xmit E (length (w_wire w))) =? 0)).
  - destruct (users _ >? 1); cbn;
      unfold ip_leaves, xmit_prepare;
      repeat match goal with |- context [if ?c then _ else _] => destruct c end;
      repeat split; reflexivity.
  - cbn. unfold ip_leaves, xmit_prepare.
    repeat match goal with |- context [if ?c then _ else _] => destruct c end;
      repeat split; reflexivity.
Qed.

(** A pass of the loop that ends in [return] is the throttle branch. *)
Lemma xmit_data_body_throttled w w' :
  xmit_data_body K E rpc w = Some (true, w') ->
  fst (xmit_data_throttle K E rpc w) = true /\
  w' = homa_add_to_throttled rpc (snd (xmit_data_throttle K E rpc w)).
Proof.
  unfold xmit_data_body.
  destruct (next_packet _) as [i|]; [|discriminate].
  destruct (_ !! i) as [skb|]; [|discriminate].
  destruct (xmit_data_throttle K E rpc w) as [t w1]. destruct t.
  - intros H. injection H as <-. split; reflexivity.
  - cbn. destruct (skb_shared skb); [discriminate|].
    destruct (__homa_xmit_data _ _ _ _ _); discriminate.
Qed.

(** A pass that does not return: [next_packet] moves to the next buffer,
    [next_offset] grows by one packet, and the buffer is put on the wire
    unless it is shared, in which case it is left as it is. *)
Lemma xmit_data_body_pass w w' i skb :
  next_packet (msgout (w_rpcs w rpc)) = Some i ->
  packets (msgout (w_rpcs w rpc)) !! i = Some skb ->
  xmit_data_body K E rpc w = Some (false, w') ->
  let r := w_rpcs w rpc in
  let m := msgout r in
  let priority := xmit_priority E r (next_offset m) in
  fst (xmit_data_throttle K E rpc w) = false /\
  (forall a, a <> rpc -> w_rpcs w' a = w_rpcs w a) /\
  rpc_id (w_rpcs w' rpc) = rpc_id r /\
  peer (w_rpcs w' rpc) = peer r /\
  (exists skb',
      msgout (w_rpcs w' rpc)
      = set_packets (<[i := skb']> (packets m))
          (set_next (homa_next_skb (packets m) i)
             (s32 (next_offset m + HOMA_MAX_DATA_PER_PACKET)) m) /\
      (skb_shared skb = true -> skb' = skb) /\
      (skb_shared skb = false ->
       hdr skb' = set_cutoff_version (cutoff_version (peer r))
                    (set_retransmit 0 (hdr skb)) /\
       vlan_tci skb' = tci_at priority /\
       payload skb' = payload skb)) /\
  w_wire w' = w_wire w
              ++ (if skb_shared skb then []
                  else [xmit_prepare (xmit_tagged skb priority) r]) /\
  w_homa w' = set_link_idle_time (link_idle_time (w_homa w')) (w_homa w) /\
  (skb_shared skb = true -> w_homa w' = w_homa w) /\
  w_wakeups w' = w_wakeups w.
Proof.
  intros Hnext Hskb. unfold xmit_data_body. rewrite Hnext, Hskb.
  pose proof (xmit_data_throttle_frame w) as Hfr. cbv zeta in Hfr.
  destruct (xmit_data_throttle K E rpc w) as [t w1]. cbn [fst snd] in *.
  destruct Hfr as (Hh & Hr & Hw & Hm & Hk).
  destruct t; [discriminate|].
  rewrite Hr.
  destruct (skb_shared skb) eqn:Hsh.
  - intros H. injection H as <-. cbv zeta.
    split; [reflexivity|].
    split. { intros a Ha. unfold w_set_msgout. rewrite w_set_rpc_other by exact Ha.
             rewrite Hr. reflexivity. }
    unfold w_set_msgout. rewrite w_set_rpc_same. rewrite Hr.
    split; [reflexivity|]. split; [reflexivity|].
    split.
    { exists skb. split; [|split; [reflexivity | discriminate]].
      rewrite list_insert_id by exact Hskb. cbn.
      destruct (msgout (w_rpcs w rpc)); reflexivity. }
    split. { cbn. rewrite Hw. rewrite app_nil_r. reflexivity. }
    split. { cbn. rewrite Hh. destruct (w_homa w); reflexivity. }
    split. { intros _. cbn. exact Hh. }
    cbn. exact Hk.
  - match goal with
    | |- context [__homa_xmit_data K E ?s ?r ?v] =>
      pose proof (homa_xmit_data_low_frame s r v) as Hlow
    end.
    cbv zeta in Hlow.
    destruct (__homa_xmit_data K E _ _ _) as [skb3 w3]. cbn [fst snd] in Hlow.
    destruct Hlow as (L1 & L2 & L3 & L4 & L5 & L6 & L7).
    intros H. injection H as <-. cbv zeta.
    split; [reflexivity|].
    unfold w_set_packet, w_set_msgout in *.
    rewrite w_set_rpc_same in *. rewrite L1. rewrite w_set_rpc_same.
    split. { intros a Ha. rewrite w_set_rpc_other by exact Ha. rewrite L1.
             rewrite w_set_rpc_other by exact Ha. rewrite Hr. reflexivity. }
    rewrite Hr in *.
    split; [reflexivity|]. split; [reflexivity|].
    split.
    { exists skb3. split; [reflexivity|]. split; [discriminate|]. intros _.
      rewrite L5, L6, L7. repeat split. }
    split. { cbn. rewrite L2. cbn. rewrite Hw. reflexivity. }
    split. { cbn. rewrite L3. cbn. rewrite Hh. destruct (w_homa w); reflexivity. }
    split; [discriminate|].
    cbn. rewrite L4. cbn. exact Hk.
Qed.

End XmitFacts.

Section XmitLoop.

Variable K : homa_impl_h.
Variable E : externals.
Variable rpc : nat.

Lemma xmit_data_cond_true w :
  xmit_data_cond rpc w = true ->
  next_offset (msgout (w_rpcs w rpc)) < granted (msgout (w_rpcs w rpc)) /\
  exists i, next_packet (msgout (w_rpcs w rpc)) = Some i.
Proof.
  unfold xmit_data_cond. intros H. apply andb_true_iff in H as [H1 H2].
  apply bool_decide_eq_true in H2.
  split; [lia|].
  destruct (next_packet _) as [i|]; [eauto | contradiction].
Qed.

Lemma xmit_data_cond_false w :
  xmit_data_cond rpc w = false <-> message_drained (msgout (w_rpcs w rpc)).
Proof.
  unfold xmit_data_cond, message_drained. split.
  - intros H. apply andb_false_iff in H as [H | H]; [left; lia|].
    right. apply bool_decide_eq_false in H.
    destruct (next_packet _); [exfalso; apply H; discriminate | reflexivity].
  - intros [H | H]; apply andb_false_iff.
    + left. lia.
    + right. apply bool_decide_eq_false. rewrite H. intros Hc. apply Hc. reflexivity.
Qed.

(** With [next_packet] inside the list, a pass of the loop is defined. *)
Lemma xmit_data_body_defined w :
  message_linked (msgout (w_rpcs w rpc)) ->
  xmit_data_cond rpc w = true ->
  exists t w', xmit_data_body K E rpc w = Some (t, w').
Proof.
  intros Hl Hc. apply xmit_data_cond_true in Hc as [_ [i Hi]].
  pose proof (Hl i Hi) as Hlt.
  apply lookup_lt_is_Some_2 in Hlt as [skb Hskb].
  unfold xmit_data_body. rewrite Hi, Hskb.
  destruct (xmit_data_throttle K E rpc w) as [t w1]. destruct t; [eauto|].
  cbn. destruct (skb_shared skb); [eauto|].
  destruct (__homa_xmit_data _ _ _ _ _); eauto.
Qed.

(** A pass keeps [next_packet] inside the list and uses up one pass. *)
Lemma xmit_data_body_linked w w' :
  message_linked (msgout (w_rpcs w rpc)) ->
  xmit_data_cond rpc w = true ->
  xmit_data_body K E rpc w = Some (false, w') ->
  message_linked (msgout (w_rpcs w' rpc)) /\
  S (passes_left (msgout (w_rpcs w' rpc)))
  = passes_left (msgout (w_rpcs w rpc)).
Proof.
  intros Hl Hc Hb. apply xmit_data_cond_true in Hc as [_ [i Hi]].
  pose proof (Hl i Hi) as Hlt.
  destruct (lookup_lt_is_Some_2 _ _ Hlt) as [skb Hskb].
  pose proof (xmit_data_body_pass K E rpc w w' i skb Hi Hskb Hb) as Hp.
  cbv zeta in Hp.
  destruct Hp as (_ & _ & _ & _ & (skb' & Hm & _) & _).
  rewrite Hm. unfold message_linked, passes_left. cbn. rewrite Hi.
  rewrite length_insert. unfold homa_next_skb.
  destruct (Nat.ltb_spec (S i) (length (packets (msgout (w_rpcs w rpc))))).
  - split; [|lia]. intros i' Hi'. injection Hi' as <-. lia.
  - split; [|lia]. intros i' Hi'. discriminate.
Qed.

(** The loop comes to an end within the passes that are left. *)
Lemma xmit_data_loop_exits fuel :
  forall w,
    message_linked (msgout (w_rpcs w rpc)) ->
    (passes_left (msgout (w_rpcs w rpc)) <= fuel)%nat ->
    exists ex w', xmit_data_loop K E fuel rpc w = Some (ex, w').
Proof.
  induction fuel as [|fuel IH]; intros w Hl Hf.
  - simpl. destruct (xmit_data_cond rpc w) eqn:Hc; [|eauto].
    exfalso. destruct (xmit_data_cond_true w Hc) as [_ [i Hi]].
    pose proof (Hl i Hi). unfold passes_left in Hf. rewrite Hi in Hf. lia.
  - simpl. destruct (xmit_data_cond rpc w) eqn:Hc; [|eauto].
    destruct (xmit_data_body_defined w Hl Hc) as (t & w1 & Hb).
    rewrite Hb. destruct t; [eauto|].
    destruct (xmit_data_body_linked w w1 Hl Hc Hb) as [Hl1 Hp1].
    apply IH; [exact Hl1 | lia].
Qed.

(** Whatever holds at the start and is kept by every pass that does not
    return holds in the world in which the loop is left. *)
Lemma xmit_data_loop_invariant (I : world -> Prop) :
  (forall w w', I w -> xmit_data_cond rpc w = true ->
                xmit_data_body K E rpc w = Some (false, w') -> I w') ->
  forall fuel w ex w',
    I w ->
    xmit_data_loop K E fuel rpc w = Some (ex, w') ->
    exists wl,
      I wl /\
      match ex with
      | exit_condition => w' = wl /\ xmit_data_cond rpc wl = false
      | exit_throttled =>
        xmit_data_cond rpc wl = true /\
        xmit_data_body K E rpc wl = Some (true, w')
      end.
Proof.
  intros Hstep. induction fuel as [|fuel IH]; intros w ex w' HI Hrun;
    simpl in Hrun; destruct (xmit_data_cond rpc w) eqn:Hc.
  - discriminate.
  - injection Hrun as <- <-. exists w. auto.
  - destruct (xmit_data_body K E rpc w) as [[t w1]|] eqn:Hb; [|discriminate].
    destruct t.
    + injection Hrun as <- <-. exists w. auto.
    + eapply IH; [|exact Hrun]. eapply Hstep; eassumption.
  - injection Hrun as <- <-. exists w. auto.
Qed.

End XmitLoop.

Section XmitProgress.

Variable K : homa_impl_h.
Variable E : externals.
Variable rpc : nat.

Lemma xmit_wire_nil r pkts k : xmit_wire E r pkts k k = [].
Proof. unfold xmit_wire. rewrite Nat.sub_diag. reflexivity. Qed.

Lemma xmit_wire_S r pkts k j :
  (k <= j)%nat ->
  xmit_wire E r pkts k (S j)
  = xmit_wire E r pkts k j
    ++ match xmit_wire_entry E r pkts j with Some s => [s] | None => [] end.
Proof.
  intros Hk. unfold xmit_wire.
  replace (S j - k)%nat with (S (j - k)) by lia.
  rewrite seq_S, omap_app. simpl.
  replace (k + (j - k))%nat with j by lia.
  destruct (xmit_wire_entry E r pkts j); reflexivity.
Qed.

(** Every packet on the wire is one of the buffers, in its wire form. *)
Lemma xmit_wire_elem r pkts k j s :
  s ∈ xmit_wire E r pkts k j ->
  exists i skb,
    (k <= i < j)%nat /\ pkts !! i = Some skb /\ skb_shared skb = false /\
    s = xmit_wire_form E r i skb.
Proof.
  unfold xmit_wire. intros Hs. apply list_elem_of_omap in Hs as (i & Hi & He).
  apply elem_of_seq in Hi.
  unfold xmit_wire_entry in He.
  destruct (pkts !! i) as [skb|] eqn:Hskb; [|discriminate].
  destruct (skb_shared skb) eqn:Hsh; [discriminate|].
  injection He as <-. exists i, skb. repeat split; try assumption; lia.
Qed.


Lemma xmit_progress_start w0 k0 :
  message_at (msgout (w_rpcs w0 rpc)) k0 ->
  xmit_progress E rpc w0 k0 w0 k0.
Proof.
  intros Hat. unfold xmit_progress. cbv zeta.
  rewrite xmit_wire_nil, app_nil_r.
  repeat split; try reflexivity; try (apply Hat); try lia.
  destruct (w_homa w0); reflexivity.
Qed.

Lemma xmit_progress_step w0 k0 w j w' :
  HOMA_MAX_DATA_PER_PACKET
    * Z.of_nat (length (packets (msgout (w_rpcs w0 rpc)))) < 2 ^ 31 ->
  xmit_progress E rpc w0 k0 w j ->
  xmit_data_cond rpc w = true ->
  xmit_data_body K E rpc w = Some (false, w') ->
  xmit_progress E rpc w0 k0 w' (S j).
Proof.
  intros Hbound Hp Hc Hb. unfold xmit_progress in Hp. cbv zeta in Hp.
  destruct Hp as (Hk & (Hj1 & Hj2 & Hj3) & Ho
                  & (Hid & Hpeer & Hlen & Hun & Hgr & Hsp)
                  & Hlp & Hsame & Hh & Hwk & Hwire & Hbelow).
  destruct (xmit_data_cond_true rpc w Hc) as [Hlt [i Hi]].
  rewrite Hi in Hj3.
  destruct (Nat.ltb_spec j (length (packets (msgout (w_rpcs w rpc)))))
    as [Hjl|]; [|discriminate].
  injection Hj3 as ->.
  destruct (lookup_lt_is_Some_2 _ _ Hjl) as [skb Hskb].
  pose proof (xmit_data_body_pass K E rpc w w' j skb Hi Hskb Hb) as Hpass.
  cbv zeta in Hpass.
  destruct Hpass as (_ & Ho' & Hid' & Hpeer' & (skb' & Hm' & _) & Hwire'
                     & Hh' & _ & Hwk').
  assert (Hskb0 : packets (msgout (w_rpcs w0 rpc)) !! j = Some skb).
  { rewrite <- Hsame by lia. exact Hskb. }
  unfold xmit_progress. cbv zeta. rewrite Hm'. cbn.
  rewrite length_insert.
  split; [lia|].
  split.
  { unfold message_at. cbn. rewrite length_insert.
    split; [lia|]. split.
    - rewrite Hj2. unfold HOMA_MAX_DATA_PER_PACKET in *.
      rewrite s32_small by lia. lia.
    - unfold homa_next_skb. reflexivity. }
  split. { intros a Ha. rewrite Ho' by exact Ha. apply Ho. exact Ha. }
  split. { rewrite Hid', Hpeer'. repeat split; assumption. }
  split; [exact Hlp|].
  split. { intros i Hi'. rewrite list_lookup_insert_ne by lia. apply Hsame. lia. }
  split. { rewrite Hh'. rewrite Hh. destruct (w_homa w0); reflexivity. }
  split. { rewrite Hwk'. exact Hwk. }
  split.
  { rewrite Hwire', Hwire, xmit_wire_S by exact Hk. rewrite <- app_assoc.
    f_equal. f_equal. unfold xmit_wire_entry. rewrite Hskb0.
    destruct (skb_shared skb); [reflexivity|].
    f_equal. unfold xmit_wire_form, xmit_prepare, xmit_priority.
    rewrite Hj2, Hpeer, Hlen, Hun, Hsp. reflexivity. }
  intros i Hi'. destruct (Nat.eq_dec i j) as [->|Hne].
  - rewrite <- Hgr, <- Hj2. exact Hlt.
  - apply Hbelow. lia.
Qed.

(** [homa_xmit_data], called with the message standing at buffer [k0],
    returns; it has worked through some buffers [k0], ..., [j - 1], and
    it either left the loop with the message drained up to the grant or
    was stopped at buffer [j] by the throttle test. *)
Lemma homa_xmit_data_run w0 k0 :
  HOMA_MAX_DATA_PER_PACKET
    * Z.of_nat (length (packets (msgout (w_rpcs w0 rpc)))) < 2 ^ 31 ->
  message_at (msgout (w_rpcs w0 rpc)) k0 ->
  exists ex w' wl j,
    homa_xmit_data_exit K E rpc w0 = Some (ex, w') /\
    xmit_progress E rpc w0 k0 wl j /\
    match ex with
    | exit_condition =>
      w' = wl /\ message_drained (msgout (w_rpcs wl rpc))
    | exit_throttled =>
      xmit_data_cond rpc wl = true /\
      fst (xmit_data_throttle K E rpc wl) = true /\
      w' = homa_add_to_throttled rpc (snd (xmit_data_throttle K E rpc wl))
    end.
Proof.
  intros Hbound Hat.
  assert (Hl : message_linked (msgout (w_rpcs w0 rpc))).
  { destruct Hat as (H1 & _ & H3). intros i Hi. rewrite Hi in H3.
    destruct (Nat.ltb_spec k0 (length (packets (msgout (w_rpcs w0 rpc)))));
      [|discriminate].
    injection H3 as ->. assumption. }
  destruct (xmit_data_loop_exits K E rpc
              (length (packets (msgout (w_rpcs w0 rpc)))) w0 Hl)
    as (ex & w' & Hrun).
  { unfold passes_left. destruct (next_packet _); lia. }
  destruct (xmit_data_loop_invariant K E rpc
              (fun w => exists j, xmit_progress E rpc w0 k0 w j))
    with (fuel := length (packets (msgout (w_rpcs w0 rpc))))
         (w := w0) (ex := ex) (w' := w')
    as (wl & [j Hj] & Hex).
  - intros w w1 [j Hj] Hc Hb. exists (S j).
    eapply xmit_progress_step; eassumption.
  - exists k0. apply xmit_progress_start. exact Hat.
  - exact Hrun.
  - exists ex, w', wl, j. split; [exact Hrun|]. split; [exact Hj|].
    destruct ex.
    + destruct Hex as [-> Hc]. split; [reflexivity|].
      apply xmit_data_cond_false. exact Hc.
    + destruct Hex as [Hc Hb]. split; [exact Hc|].
      apply xmit_data_body_throttled. exact Hb.
Qed.

End XmitProgress.

Section XmitClaims.

Variable K : homa_impl_h.
Variable E : externals.
Variable rpc : nat.

(** A pass that does not return leaves the throttled list alone. *)
Lemma xmit_data_body_keeps_list w w' :
  message_linked (msgout (w_rpcs w rpc)) ->
  xmit_data_cond rpc w = true ->
  xmit_data_body K E rpc w = Some (false, w') ->
  throttled_rpcs (w_homa w') = throttled_rpcs (w_homa w) /\
  w_wakeups w' = w_wakeups w.
Proof.
  intros Hl Hc Hb. destruct (xmit_data_cond_true rpc w Hc) as [_ [i Hi]].
  destruct (lookup_lt_is_Some_2 _ _ (Hl i Hi)) as [skb Hskb].
  pose proof (xmit_data_body_pass K E rpc w w' i skb Hi Hskb Hb) as Hp.
  cbv zeta in Hp.
  destruct Hp as (_ & _ & _ & _ & _ & _ & Hh & _ & Hwk).
  split; [|exact Hwk]. rewrite Hh. reflexivity.
Qed.

Lemma homa_xmit_data_exits w :
  message_linked (msgout (w_rpcs w rpc)) ->
  exists ex w',
    homa_xmit_data_exit K E rpc w = Some (ex, w') /\
    homa_xmit_data K E rpc w = Some w' /\
    match ex with
    | exit_condition =>
      message_drained (msgout (w_rpcs w' rpc)) /\
      throttled_rpcs (w_homa w') = throttled_rpcs (w_homa w) /\
      w_wakeups w' = w_wakeups w
    | exit_throttled =>
      rpc ∈ throttled_rpcs (w_homa w')
    end.
Proof.
  intros Hl.
  destruct (xmit_data_loop_exits K E rpc
              (length (packets (msgout (w_rpcs w rpc)))) w Hl)
    as (ex & w' & Hrun).
  { unfold passes_left. destruct (next_packet _); lia. }
  exists ex, w'. split; [exact Hrun|].
  split. { unfold homa_xmit_data, homa_xmit_data_exit. rewrite Hrun. reflexivity. }
  destruct (xmit_data_loop_invariant K E rpc
              (fun v => message_linked (msgout (w_rpcs v rpc)) /\
                        throttled_rpcs (w_homa v) = throttled_rpcs (w_homa w) /\
                        w_wakeups v = w_wakeups w))
    with (fuel := length (packets (msgout (w_rpcs w rpc))))
         (w := w) (ex := ex) (w' := w')
    as (wl & (Hll & Hlist & Hwk) & Hex).
  - intros v v' (Hvl & Hvlist & Hvwk) Hc Hb.
    destruct (xmit_data_body_linked K E rpc v v' Hvl Hc Hb) as [Hl' _].
    destruct (xmit_data_body_keeps_list v v' Hvl Hc Hb) as [Hlist' Hwk'].
    split; [exact Hl'|]. split; congruence.
  - auto.
  - exact Hrun.
  - destruct ex.
    + destruct Hex as [-> Hc]. split; [|split; assumption].
      apply xmit_data_cond_false. exact Hc.
    + destruct Hex as [_ Hb].
      apply xmit_data_body_throttled in Hb as [_ ->].
      apply homa_add_to_throttled_elem. left. reflexivity.
Qed.

End XmitClaims.

(** C10.  [homa_xmit_data] always returns, and it leaves its loop in one
    of two ways only.  Either the loop condition failed: then the message
    is drained up to its grant ([next_offset >= granted] or [next_packet]
    is [NULL]) and the throttled list is as it was.  Or the throttle
    branch returned after its call of [homa_add_to_throttled]: then the
    RPC is on the throttled list.  So whenever the RPC is not on the
    throttled list on return, the message is drained; and so it is
    whenever an RPC that was not on the list has not been put there. *)
Theorem xmit_data_drained_or_throttled :
  forall K E rpc w,
    message_linked (msgout (w_rpcs w rpc)) ->
    exists ex w',
      homa_xmit_data_exit K E rpc w = Some (ex, w') /\
      homa_xmit_data K E rpc w = Some w' /\
      match ex with
      | exit_condition =>
        message_drained (msgout (w_rpcs w' rpc)) /\
        throttled_rpcs (w_homa w') = throttled_rpcs (w_homa w) /\
        w_wakeups w' = w_wakeups w
      | exit_throttled =>
        rpc ∈ throttled_rpcs (w_homa w')
      end /\
      (rpc ∉ throttled_rpcs (w_homa w') ->
       message_drained (msgout (w_rpcs w' rpc))) /\
      (rpc ∉ throttled_rpcs (w_homa w) ->
       throttled_rpcs (w_homa w') = throttled_rpcs (w_homa w) ->
       message_drained (msgout (w_rpcs w' rpc))).
Proof.
  intros K E rpc w Hl.
  destruct (homa_xmit_data_exits K E rpc w Hl) as (ex & w' & H1 & H2 & H3).
  exists ex, w'. repeat split; try assumption.
  - intros Hnot. destruct ex; [apply H3 | contradiction].
  - intros Hnot Hsame. destruct ex; [apply H3|].
    rewrite Hsame in H3. contradiction.
Qed.

Lemma xmit_data_drained_or_throttled_witness :
  let w := unit_world throttle_homa [unit_rpc 0 0; unit_rpc 1 6000] in
  message_linked (msgout (w_rpcs w 1%nat)) /\
  exists w',
    homa_xmit_data unit_impl (unit_externals 10000) 1 w = Some w' /\
    1%nat ∈ throttled_rpcs (w_homa w').
Proof.
  cbv zeta.
  set (w := unit_world throttle_homa [unit_rpc 0 0; unit_rpc 1 6000]).
  assert (Hm : next_packet (msgout (w_rpcs w 1%nat)) = Some 0%nat /\
               length (packets (msgout (w_rpcs w 1%nat))) = 5%nat)
    by (split; vm_compute; reflexivity).
  assert (Hl : message_linked (msgout (w_rpcs w 1%nat))).
  { intros i Hi. destruct Hm as [Hn Hlen]. rewrite Hn in Hi.
    injection Hi as <-. rewrite Hlen. lia. }
  split; [exact Hl|].
  assert (Hthr : fst <$> homa_xmit_data_exit unit_impl (unit_externals 10000)
                           1 w = Some exit_throttled)
    by (vm_compute; reflexivity).
  destruct (xmit_data_drained_or_throttled unit_impl (unit_externals 10000)
              1%nat w Hl) as (ex & w' & Hex & Hrun & Hcase & _ & _).
  exists w'. split; [exact Hrun|].
  rewrite Hex in Hthr. injection Hthr as ->. exact Hcase.
Defined.

Section ThrottleClaims.

Variable K : homa_impl_h.
Variable E : externals.
Variable rpc : nat.

(** The throttle branch: nothing is sent, the message is not touched, and
    [homa_add_to_throttled] has been called. *)
Lemma xmit_data_body_throttles w :
  xmit_data_cond rpc w = true ->
  message_linked (msgout (w_rpcs w rpc)) ->
  throttle_in_range E rpc w ->
  throttle_test K E rpc w ->
  let w' := homa_add_to_throttled rpc (snd (get_cycles E w)) in
  xmit_data_body K E rpc w = Some (true, w') /\
  homa_xmit_data_exit K E rpc w = Some (exit_throttled, w') /\
  rpc ∈ throttled_rpcs (w_homa w') /\
  w_wire w' = w_wire w /\
  w_rpcs w' = w_rpcs w.
Proof.
  intros Hc Hl Hr Ht. cbv zeta.
  destruct (xmit_data_cond_true rpc w Hc) as [_ [i Hi]].
  pose proof (Hl i Hi) as Hlt.
  destruct (lookup_lt_is_Some_2 _ _ Hlt) as [skb Hskb].
  assert (Hb : xmit_data_body K E rpc w
               = Some (true, homa_add_to_throttled rpc (snd (get_cycles E w)))).
  { unfold xmit_data_body. rewrite Hi, Hskb.
    rewrite (xmit_data_throttle_fires K E rpc w Hr Ht). reflexivity. }
  split; [exact Hb|].
  split.
  { unfold homa_xmit_data_exit.
    destruct (length (packets (msgout (w_rpcs w rpc)))) as [|n]; [lia|].
    simpl. rewrite Hc, Hb. reflexivity. }
  split. { apply homa_add_to_throttled_elem. left. reflexivity. }
  unfold homa_add_to_throttled.
  destruct (bool_decide _); split; reflexivity.
Qed.

(** A message whose bytes left do not exceed [throttle_min_bytes] is
    never stopped by the throttle test. *)
Lemma homa_xmit_data_small w k :
  HOMA_MAX_DATA_PER_PACKET
    * Z.of_nat (length (packets (msgout (w_rpcs w rpc)))) < 2 ^ 31 ->
  message_at (msgout (w_rpcs w rpc)) k ->
  0 <= msg_length (msgout (w_rpcs w rpc)) < 2 ^ 31 ->
  msg_length (msgout (w_rpcs w rpc)) - next_offset (msgout (w_rpcs w rpc))
    <= throttle_min_bytes (w_homa w) ->
  exists w' j,
    homa_xmit_data_exit K E rpc w = Some (exit_condition, w') /\
    xmit_progress E rpc w k w' j /\
    message_drained (msgout (w_rpcs w' rpc)).
Proof.
  intros Hbound Hat Hlen Hsmall.
  destruct (homa_xmit_data_run K E rpc w k Hbound Hat)
    as (ex & w' & wl & j & Hrun & Hp & Hex).
  destruct ex.
  - destruct Hex as [-> Hd]. exists wl, j. auto.
  - exfalso. destruct Hex as (_ & Hfire & _).
    unfold xmit_progress in Hp. cbv zeta in Hp.
    destruct Hp as (Hk & (Hj1 & Hj2 & _) & _
                    & (_ & _ & Hl & _) & Hlp & _ & Hh & _).
    rewrite xmit_data_throttle_small in Hfire; [discriminate|].
    unfold remaining_bytes. rewrite Hl, Hj2, Hh. cbn.
    destruct Hat as (_ & Hk2 & _). rewrite Hk2 in Hsmall.
    unfold HOMA_MAX_DATA_PER_PACKET in *.
    rewrite s32_small by lia. lia.
Qed.

End ThrottleClaims.

(** C3.  In the loop of [homa_xmit_data], before a packet is handled: if
    the bytes left, [length - next_offset], exceed [throttle_min_bytes],
    and [now + max_nic_queue_cycles < link_idle_time], and
    [HOMA_FLAG_DONT_THROTTLE] is clear, then [homa_add_to_throttled] is
    called for the RPC and the function returns; that packet is not sent
    and the message is not touched.  A message whose bytes left are at
    most [throttle_min_bytes] is worked off at once, up to its grant, and
    the throttled list stays as it was.  With [link_idle_time = 11000],
    [max_nic_queue_cycles = 3000] and the clock at 10000, a message of
    6000 bytes sends the packets at offsets 0 and 1400 and joins the
    throttled list with [next_offset = 2800]; a message of 200 bytes
    sends its single packet and the list stays empty.  The same holds
    for the 200 bytes with [max_nic_queue_cycles = 500], where the queue
    counts as full from the start and 6000 bytes are throttled before
    their first packet. *)
Theorem xmit_data_throttle_rule :
  (forall K E rpc w,
      xmit_data_cond rpc w = true ->
      message_linked (msgout (w_rpcs w rpc)) ->
      throttle_in_range E rpc w ->
      throttle_test K E rpc w ->
      let w' := homa_add_to_throttled rpc (snd (get_cycles E w)) in
      xmit_data_body K E rpc w = Some (true, w') /\
      homa_xmit_data K E rpc w = Some w' /\
      rpc ∈ throttled_rpcs (w_homa w') /\
      w_wire w' = w_wire w /\
      w_rpcs w' = w_rpcs w) /\
  (forall K E rpc w k,
      let m := msgout (w_rpcs w rpc) in
      HOMA_MAX_DATA_PER_PACKET * Z.of_nat (length (packets m)) < 2 ^ 31 ->
      message_at m k ->
      0 <= msg_length m < 2 ^ 31 ->
      msg_length m - next_offset m <= throttle_min_bytes (w_homa w) ->
      exists w' j,
        homa_xmit_data K E rpc w = Some w' /\
        throttled_rpcs (w_homa w') = throttled_rpcs (w_homa w) /\
        w_wakeups w' = w_wakeups w /\
        w_wire w' = w_wire w ++ xmit_wire E (w_rpcs w rpc) (packets m) k j /\
        message_at (msgout (w_rpcs w' rpc)) j /\
        message_drained (msgout (w_rpcs w' rpc))) /\
  xmit_report 1
    <$> homa_xmit_data unit_impl (unit_externals 10000) 1
          (unit_world throttle_homa [unit_rpc 0 0; unit_rpc 1 6000])
  = Some ([(0, tci_at 6, 0); (1400, tci_at 6, 0)], [1%nat], 2800,
          Some 2%nat) /\
  xmit_report 1
    <$> homa_xmit_data unit_impl (unit_externals 10000) 1
          (unit_world throttle_homa [unit_rpc 0 0; unit_rpc 1 200])
  = Some ([(0, tci_at 6, 0)], [], 1400, None) /\
  xmit_report 1
    <$> homa_xmit_data unit_impl (unit_externals 10000) 1
          (unit_world backlog_homa [unit_rpc 0 0; unit_rpc 1 200])
  = Some ([(0, tci_at 6, 0)], [], 1400, None) /\
  xmit_report 1
    <$> homa_xmit_data unit_impl (unit_externals 10000) 1
          (unit_world backlog_homa [unit_rpc 0 0; unit_rpc 1 6000])
  = Some ([], [1%nat], 0, Some 0%nat).
Proof.
  split.
  { intros K E rpc w Hc Hl Hr Ht. cbv zeta.
    pose proof (xmit_data_body_throttles K E rpc w Hc Hl Hr Ht) as H.
    cbv zeta in H. destruct H as (H1 & H2 & H3 & H4 & H5).
    repeat split; try assumption.
    unfold homa_xmit_data. rewrite H2. reflexivity. }
  split.
  { intros K E rpc w k m Hbound Hat Hlen Hsmall.
    destruct (homa_xmit_data_small K E rpc w k Hbound Hat Hlen Hsmall)
      as (w' & j & Hrun & Hp & Hd).
    exists w', j. unfold xmit_progress in Hp. cbv zeta in Hp.
    destruct Hp as (_ & Hj & _ & _ & _ & _ & Hh & Hwk & Hwire & _).
    split. { unfold homa_xmit_data. rewrite Hrun. reflexivity. }
    split. { rewrite Hh. reflexivity. }
    repeat split; try assumption; apply Hj. }
  repeat split; vm_compute; reflexivity.
Qed.

Lemma xmit_data_throttle_rule_witness :
  (let w := unit_world (mk_homa 10000 14064 1000 3000 1000 7 0 [])
              [unit_rpc 0 0; unit_rpc 1 6000] in
   let E := unit_externals 10000 in
   xmit_data_cond 1 w = true /\
   message_linked (msgout (w_rpcs w 1%nat)) /\
   throttle_in_range E 1 w /\
   throttle_test unit_impl E 1 w /\
   homa_xmit_data unit_impl E 1 w
   = Some (homa_add_to_throttled 1 (snd (get_cycles E w)))) /\
  (let w := unit_world backlog_homa [unit_rpc 0 0; unit_rpc 1 200] in
   let m := msgout (w_rpcs w 1%nat) in
   HOMA_MAX_DATA_PER_PACKET * Z.of_nat (length (packets m)) < 2 ^ 31 /\
   message_at m 0 /\
   0 <= msg_length m < 2 ^ 31 /\
   msg_length m - next_offset m <= throttle_min_bytes (w_homa w) /\
   exists w',
     homa_xmit_data unit_impl (unit_externals 10000) 1 w = Some w' /\
     throttled_rpcs (w_homa w') = throttled_rpcs (w_homa w)).
Proof.
  split.
  - cbv zeta.
    set (w := unit_world (mk_homa 10000 14064 1000 3000 1000 7 0 [])
                [unit_rpc 0 0; unit_rpc 1 6000]).
    assert (Hc : xmit_data_cond 1 w = true) by (vm_compute; reflexivity).
    assert (Hm : next_packet (msgout (w_rpcs w 1%nat)) = Some 0%nat /\
                 length (packets (msgout (w_rpcs w 1%nat))) = 5%nat)
      by (split; vm_compute; reflexivity).
    assert (Hl : message_linked (msgout (w_rpcs w 1%nat))).
    { intros i Hi. destruct Hm as [Hn Hlen]. rewrite Hn in Hi.
      injection Hi as <-. rewrite Hlen. lia. }
    assert (Hr : throttle_in_range (unit_externals 10000) 1 w)
      by (unfold throttle_in_range; cbv zeta; eval_ranges).
    assert (Ht : throttle_test unit_impl (unit_externals 10000) 1 w)
      by (unfold throttle_test; cbv zeta; eval_ranges).
    repeat (split; [assumption|]).
    exact (proj1 (proj2 (proj1 xmit_data_throttle_rule unit_impl
                           (unit_externals 10000) 1%nat w Hc Hl Hr Ht))).
  - cbv zeta.
    set (w := unit_world backlog_homa [unit_rpc 0 0; unit_rpc 1 200]).
    destruct (unit_rpc_in_order 1 200 ltac:(lia))
      as ((Hbound & _) & Hat & Hlen & _).
    change (msgout (unit_rpc 1 200)) with (msgout (w_rpcs w 1%nat))
      in Hbound, Hat, Hlen.
    assert (Hoff : next_offset (msgout (w_rpcs w 1%nat)) = 0)
      by (destruct Hat as (_ & -> & _); reflexivity).
    assert (Hmin : throttle_min_bytes (w_homa w) = 1000) by reflexivity.
    assert (H1 : 0 <= msg_length (msgout (w_rpcs w 1%nat)) < 2 ^ 31)
      by (rewrite Hlen; lia).
    assert (H2 : msg_length (msgout (w_rpcs w 1%nat))
                 - next_offset (msgout (w_rpcs w 1%nat))
                 <= throttle_min_bytes (w_homa w))
      by (rewrite Hlen, Hoff, Hmin; lia).
    repeat (split; [assumption|]).
    destruct (proj1 (proj2 xmit_data_throttle_rule) unit_impl
                (unit_externals 10000) 1%nat w 0%nat Hbound Hat H1 H2)
      as (w' & j & Hrun & Hlist & _).
    exists w'. split; assumption.
Defined.

(** ** Priorities of the packets sent *)

Lemma xmit_wire_form_fields E r i skb :
  let s := xmit_wire_form E r i skb in
  h_offset (hdr s) = h_offset (hdr skb) /\
  h_retransmit (hdr s) = 0 /\
  h_cutoff_version (hdr s) = cutoff_version (peer r) /\
  vlan_tci s
  = tci_at (xmit_priority E r (HOMA_MAX_DATA_PER_PACKET * Z.of_nat i)) /\
  payload s = payload skb.
Proof.
  unfold xmit_wire_form, xmit_prepare, xmit_tagged, set_priority. cbn.
  repeat match goal with |- context [if ?c then _ else _] => destruct c end;
    repeat split; reflexivity.
Qed.

(** The VLAN priority field carries the priority with 0 and 1 swapped. *)
Lemma tci_at_priority p :
  0 <= p <= 7 ->
  Z.shiftr (Z.land (tci_at p) VLAN_PRIO_MASK) VLAN_PRIO_SHIFT
  = if p =? 0 then 1 else if p =? 1 then 0 else p.
Proof.
  intros Hp.
  assert (Hc : p = 0 \/ p = 1 \/ p = 2 \/ p = 3 \/ p = 4 \/ p = 5 \/ p = 6
               \/ p = 7) by lia.
  repeat (destruct Hc as [-> | Hc]; [reflexivity|]). subst p. reflexivity.
Qed.

(** The packets [homa_xmit_data] puts on the wire, whichever way it
    returns. *)
Lemma homa_xmit_data_wire K E rpc w k :
  let m := msgout (w_rpcs w rpc) in
  HOMA_MAX_DATA_PER_PACKET * Z.of_nat (length (packets m)) < 2 ^ 31 ->
  message_at m k ->
  exists w' j,
    homa_xmit_data K E rpc w = Some w' /\
    (k <= j <= length (packets m))%nat /\
    w_wire w' = w_wire w ++ xmit_wire E (w_rpcs w rpc) (packets m) k j.
Proof.
  intros m Hbound Hat.
  destruct (homa_xmit_data_run K E rpc w k Hbound Hat)
    as (ex & w' & wl & j & Hrun & Hp & Hex).
  exists w', j. unfold homa_xmit_data. rewrite Hrun.
  split; [reflexivity|].
  unfold xmit_progress in Hp. cbv zeta in Hp.
  destruct Hp as (Hk & (Hj & _) & _ & _ & Hlp & _ & _ & _ & Hwire & _).
  split; [fold m in Hlp; lia|].
  destruct ex.
  - destruct Hex as [-> _]. exact Hwire.
  - destruct Hex as (_ & _ & ->).
    pose proof (xmit_data_throttle_frame K E rpc wl) as Hfr. cbv zeta in Hfr.
    destruct Hfr as (_ & _ & Hw & _).
    unfold homa_add_to_throttled. destruct (bool_decide _); cbn;
      rewrite Hw; exact Hwire.
Qed.

(** C4.  Every packet [homa_xmit_data] sends carries [retransmit = 0]
    and the tag of a priority chosen by its offset: below the message's
    [unscheduled] bytes the priority is
    [homa_unsched_priority(peer, length)], from there on it is
    [sched_priority].  For a message of 6000 bytes with
    [unscheduled = 2000], [granted = 5000], [sched_priority = 2] and a
    peer whose cutoffs give priority 6, the packets are P6 at 0, P6 at
    1400, P2 at 2800 and P2 at 4200. *)
Theorem xmit_data_priority :
  (forall K E rpc w k,
      let r := w_rpcs w rpc in
      let m := msgout r in
      packets_in_order (packets m) ->
      message_at m k ->
      exists w' sent,
        homa_xmit_data K E rpc w = Some w' /\
        w_wire w' = w_wire w ++ sent /\
        Forall
          (fun s =>
             h_retransmit (hdr s) = 0 /\
             vlan_tci s
             = tci_at (if ntohl (h_offset (hdr s)) <? unscheduled m
                       then homa_unsched_priority E (peer r) (msg_length m)
                       else sched_priority m))
          sent) /\
  (forall p, 0 <= p <= 7 ->
             Z.shiftr (Z.land (tci_at p) VLAN_PRIO_MASK) VLAN_PRIO_SHIFT
             = if p =? 0 then 1 else if p =? 1 then 0 else p) /\
  xmit_report 1
    <$> homa_xmit_data unit_impl (unit_externals 10000) 1
          (unit_world unit_homa [unit_rpc 0 0; basics_rpc])
  = Some ([(0, tci_at 6, 0); (1400, tci_at 6, 0);
           (2800, tci_at 2, 0); (4200, tci_at 2, 0)], [], 5600,
          Some 4%nat).
Proof.
  split.
  { intros K E rpc w k r m [Hbound Hoff] Hat.
    destruct (homa_xmit_data_wire K E rpc w k Hbound Hat)
      as (w' & j & Hrun & _ & Hwire).
    exists w', (xmit_wire E r (packets m) k j).
    split; [exact Hrun|]. split; [exact Hwire|].
    apply Forall_forall. intros s Hs.
    apply xmit_wire_elem in Hs as (i & skb & _ & Hskb & _ & ->).
    pose proof (xmit_wire_form_fields E r i skb) as Hf. cbv zeta in Hf.
    destruct Hf as (Ho & Hre & _ & Htci & _).
    split; [exact Hre|].
    rewrite Htci, Ho, (Hoff i skb Hskb). reflexivity. }
  split; [exact tci_at_priority|].
  vm_compute. reflexivity.
Qed.

Lemma xmit_data_priority_witness :
  (let w := unit_world unit_homa [unit_rpc 0 0; unit_rpc 1 6000] in
   let m := msgout (w_rpcs w 1%nat) in
   packets_in_order (packets m) /\
   message_at m 0 /\
   exists w' sent,
     homa_xmit_data unit_impl (unit_externals 10000) 1 w = Some w' /\
     w_wire w' = w_wire w ++ sent) /\
  (0 <= 6 <= 7 /\
   Z.shiftr (Z.land (tci_at 6) VLAN_PRIO_MASK) VLAN_PRIO_SHIFT = 6).
Proof.
  split.
  - cbv zeta.
    set (w := unit_world unit_homa [unit_rpc 0 0; unit_rpc 1 6000]).
    destruct (unit_rpc_in_order 1 6000 ltac:(lia)) as (Hord & Hat & _).
    change (msgout (unit_rpc 1 6000)) with (msgout (w_rpcs w 1%nat))
      in Hord, Hat.
    split; [exact Hord|]. split; [exact Hat|].
    destruct (proj1 xmit_data_priority unit_impl (unit_externals 10000) 1%nat
                w 0%nat Hord Hat) as (w' & sent & Hrun & Hwire & _).
    exists w', sent. split; assumption.
  - assert (Hp : 0 <= 6 <= 7) by lia.
    split; [exact Hp|].
    exact (proj1 (proj2 xmit_data_priority) 6 Hp).
Defined.

(** ** Progress of [next_offset] *)

(** With throttling switched off and the whole message granted,
    [homa_xmit_data] works through every buffer. *)
Lemma homa_xmit_data_drains K E rpc w k :
  let m := msgout (w_rpcs w rpc) in
  0 <= msg_length m ->
  HOMA_MAX_DATA_PER_PACKET * Z.of_nat (length (packets m)) < 2 ^ 31 ->
  Z.of_nat (length (packets m))
  = (msg_length m + (HOMA_MAX_DATA_PER_PACKET - 1)) / HOMA_MAX_DATA_PER_PACKET ->
  message_at m k ->
  msg_length m <= granted m ->
  Z.land (flags (w_homa w)) (HOMA_FLAG_DONT_THROTTLE K) <> 0 ->
  exists w',
    homa_xmit_data K E rpc w = Some w' /\
    xmit_progress E rpc w k w' (length (packets m)).
Proof.
  intros m Hlen Hbound Hcount Hat Hgr Hflag.
  destruct (homa_xmit_data_run K E rpc w k Hbound Hat)
    as (ex & w' & wl & j & Hrun & Hp & Hex).
  pose proof Hp as Hp'. unfold xmit_progress in Hp'. cbv zeta in Hp'.
  destruct Hp' as (Hk & (Hj1 & Hj2 & Hj3) & _
                   & (_ & _ & Hl & _ & Hg & _) & Hlp & _ & Hh & _).
  destruct ex.
  - destruct Hex as [-> Hd]. exists wl.
    unfold homa_xmit_data. rewrite Hrun. split; [reflexivity|].
    rewrite Hlp in Hj1, Hj3. fold m in Hj1, Hj3, Hl, Hg.
    destruct (Nat.ltb_spec j (length (packets m))) as [Hlt|Hge].
    + exfalso. destruct Hd as [Hd | Hd]; [|congruence].
      rewrite Hg, Hj2 in Hd. unfold HOMA_MAX_DATA_PER_PACKET in *.
      assert (Z.of_nat j < (msg_length m + (1400 - 1)) / 1400) by lia.
      Z.div_mod_to_equations. lia.
    + replace (length (packets m)) with j by lia. exact Hp.
  - exfalso. destruct Hex as (_ & Hfire & _).
    rewrite xmit_data_throttle_disabled in Hfire; [discriminate|].
    rewrite Hh. exact Hflag.
Qed.

(** Where a call of [homa_xmit_data] leaves the message, whichever way
    it returns. *)
Lemma homa_xmit_data_position K E rpc w k :
  let m := msgout (w_rpcs w rpc) in
  HOMA_MAX_DATA_PER_PACKET * Z.of_nat (length (packets m)) < 2 ^ 31 ->
  message_at m k ->
  exists w' j,
    homa_xmit_data K E rpc w = Some w' /\
    (k <= j)%nat /\
    message_at (msgout (w_rpcs w' rpc)) j /\
    length (packets (msgout (w_rpcs w' rpc))) = length (packets m).
Proof.
  intros m Hbound Hat.
  destruct (homa_xmit_data_run K E rpc w k Hbound Hat)
    as (ex & w' & wl & j & Hrun & Hp & Hex).
  exists w', j. unfold homa_xmit_data. rewrite Hrun.
  split; [reflexivity|].
  unfold xmit_progress in Hp. cbv zeta in Hp.
  destruct Hp as (Hk & Hj & _ & _ & Hlp & _).
  split; [exact Hk|].
  assert (Hsame : w_rpcs w' = w_rpcs wl).
  { destruct ex.
    - destruct Hex as [-> _]. reflexivity.
    - destruct Hex as (_ & _ & ->).
      rewrite homa_add_to_throttled_rpcs.
      apply (xmit_data_throttle_frame K E rpc wl). }
  rewrite Hsame. split; assumption.
Qed.

(** C5.  Every pass of the loop of [homa_xmit_data] that handles a
    packet moves [next_packet] to the next buffer and adds exactly
    [HOMA_MAX_DATA_PER_PACKET] to [next_offset], for the short last
    packet and for a shared buffer alike; a shared buffer is neither
    retagged nor sent.  So once a fully granted message is drained,
    [next_offset] is [ceil(length / HOMA_MAX_DATA_PER_PACKET)] packets,
    which may exceed [length]: 4200 for 3000 bytes.  After any call
    [next_offset] is a whole number of packets, and it is that ceiling
    whenever [next_packet] is [NULL].  With the second and
    third buffer of a 5000-byte message held elsewhere, the packets at 0
    and 4200 are sent and [next_offset] ends at 5600. *)
Theorem xmit_data_advances :
  (forall K E rpc w w' i skb,
      let m := msgout (w_rpcs w rpc) in
      let m' := msgout (w_rpcs w' rpc) in
      next_packet m = Some i ->
      packets m !! i = Some skb ->
      xmit_data_body K E rpc w = Some (false, w') ->
      - 2 ^ 31 <= next_offset m + HOMA_MAX_DATA_PER_PACKET < 2 ^ 31 ->
      next_offset m' = next_offset m + HOMA_MAX_DATA_PER_PACKET /\
      next_packet m' = homa_next_skb (packets m) i /\
      (skb_shared skb = true ->
       packets m' = packets m /\ w_wire w' = w_wire w /\
       w_homa w' = w_homa w) /\
      (skb_shared skb = false ->
       w_wire w'
       = w_wire w
         ++ [xmit_prepare
               (xmit_tagged skb
                  (xmit_priority E (w_rpcs w rpc) (next_offset m)))
               (w_rpcs w rpc)])) /\
  (forall K E rpc w k,
      let m := msgout (w_rpcs w rpc) in
      let n := (msg_length m + (HOMA_MAX_DATA_PER_PACKET - 1))
               / HOMA_MAX_DATA_PER_PACKET in
      0 <= msg_length m ->
      HOMA_MAX_DATA_PER_PACKET * Z.of_nat (length (packets m)) < 2 ^ 31 ->
      Z.of_nat (length (packets m)) = n ->
      message_at m k ->
      msg_length m <= granted m ->
      Z.land (flags (w_homa w)) (HOMA_FLAG_DONT_THROTTLE K) <> 0 ->
      exists w',
        homa_xmit_data K E rpc w = Some w' /\
        next_offset (msgout (w_rpcs w' rpc)) = n * HOMA_MAX_DATA_PER_PACKET /\
        next_packet (msgout (w_rpcs w' rpc)) = None /\
        msg_length m <= next_offset (msgout (w_rpcs w' rpc))
          < msg_length m + HOMA_MAX_DATA_PER_PACKET) /\
  (forall K E rpc w k,
      let m := msgout (w_rpcs w rpc) in
      let n := (msg_length m + (HOMA_MAX_DATA_PER_PACKET - 1))
               / HOMA_MAX_DATA_PER_PACKET in
      HOMA_MAX_DATA_PER_PACKET * Z.of_nat (length (packets m)) < 2 ^ 31 ->
      Z.of_nat (length (packets m)) = n ->
      message_at m k ->
      exists w' j,
        homa_xmit_data K E rpc w = Some w' /\
        Z.of_nat k <= j <= n /\
        next_offset (msgout (w_rpcs w' rpc)) = j * HOMA_MAX_DATA_PER_PACKET /\
        (next_packet (msgout (w_rpcs w' rpc)) = None ->
         next_offset (msgout (w_rpcs w' rpc))
         = n * HOMA_MAX_DATA_PER_PACKET)) /\
  xmit_report 1
    <$> homa_xmit_data unit_impl (unit_externals 10000) 1
          (unit_world unit_homa [unit_rpc 0 0; unit_rpc 1 3000])
  = Some ([(0, tci_at 6, 0); (1400, tci_at 6, 0); (2800, tci_at 6, 0)], [],
          4200, None) /\
  xmit_report 1
    <$> homa_xmit_data unit_impl (unit_externals 10000) 1
          (unit_world unit_homa
             [unit_rpc 0 0; hold_packets [1; 2]%nat (unit_rpc 1 5000)])
  = Some ([(0, tci_at 6, 0); (4200, tci_at 6, 0)], [], 5600, None).
Proof.
  split.
  { intros K E rpc w w' i skb m m' Hi Hskb Hb Hr.
    pose proof (xmit_data_body_pass K E rpc w w' i skb Hi Hskb Hb) as Hp.
    cbv zeta in Hp.
    destruct Hp as (_ & _ & _ & _ & (skb' & Hm' & Hsh & _) & Hwire & _
                    & Hh & _).
    subst m'. rewrite Hm'. cbn. fold m.
    split; [apply s32_small; exact Hr|].
    split; [reflexivity|].
    split.
    - intros Hs. rewrite (Hsh Hs). rewrite list_insert_id by exact Hskb.
      rewrite Hwire, Hs, app_nil_r. repeat split. apply Hh. exact Hs.
    - intros Hs. rewrite Hwire, Hs. reflexivity. }
  split.
  { intros K E rpc w k m n Hlen Hbound Hcount Hat Hgr Hflag.
    destruct (homa_xmit_data_drains K E rpc w k Hlen Hbound Hcount Hat Hgr
                Hflag) as (w' & Hrun & Hp).
    exists w'. split; [exact Hrun|].
    unfold xmit_progress in Hp. cbv zeta in Hp.
    destruct Hp as (_ & (Hj1 & Hj2 & Hj3) & _ & _ & Hlp & _).
    fold m in Hj2, Hj3, Hlp. rewrite Hlp in Hj3.
    rewrite Nat.ltb_irrefl in Hj3.
    rewrite Hj2, Hcount. subst n. unfold HOMA_MAX_DATA_PER_PACKET in *.
    split; [lia|]. split; [exact Hj3|].
    Z.div_mod_to_equations. lia. }
  split.
  { intros K E rpc w k m n Hbound Hcount Hat.
    destruct (homa_xmit_data_position K E rpc w k Hbound Hat)
      as (w' & j & Hrun & Hk & (Hj1 & Hj2 & Hj3) & Hlp).
    exists w', (Z.of_nat j). split; [exact Hrun|].
    fold m in Hlp. rewrite Hlp in Hj1, Hj3.
    split; [lia|]. split; [lia|].
    intros Hnone. rewrite Hnone in Hj3.
    destruct (Nat.ltb_spec j (length (packets m))); [discriminate|].
    rewrite Hj2. replace j with (length (packets m)) by lia. lia. }
  split; vm_compute; reflexivity.
Qed.

Lemma xmit_data_advances_witness :
  let w := unit_world unit_homa [unit_rpc 0 0; unit_rpc 1 3000] in
  let m := msgout (w_rpcs w 1%nat) in
  let n := (msg_length m + (HOMA_MAX_DATA_PER_PACKET - 1))
           / HOMA_MAX_DATA_PER_PACKET in
  (exists skb w',
      next_packet m = Some 0%nat /\
      packets m !! 0%nat = Some skb /\
      xmit_data_body unit_impl (unit_externals 10000) 1 w = Some (false, w') /\
      - 2 ^ 31 <= next_offset m + HOMA_MAX_DATA_PER_PACKET < 2 ^ 31 /\
      next_offset (msgout (w_rpcs w' 1%nat))
      = next_offset m + HOMA_MAX_DATA_PER_PACKET) /\
  (0 <= msg_length m /\
   HOMA_MAX_DATA_PER_PACKET * Z.of_nat (length (packets m)) < 2 ^ 31 /\
   Z.of_nat (length (packets m)) = n /\
   message_at m 0 /\
   msg_length m <= granted m /\
   Z.land (flags (w_homa w)) (HOMA_FLAG_DONT_THROTTLE unit_impl) <> 0 /\
   exists w',
     homa_xmit_data unit_impl (unit_externals 10000) 1 w = Some w' /\
     next_offset (msgout (w_rpcs w' 1%nat)) = n * HOMA_MAX_DATA_PER_PACKET) /\
  (exists w' j,
      homa_xmit_data unit_impl (unit_externals 10000) 1 w = Some w' /\
      next_offset (msgout (w_rpcs w' 1%nat)) = j * HOMA_MAX_DATA_PER_PACKET).
Proof.
  cbv zeta.
  set (w := unit_world unit_homa [unit_rpc 0 0; unit_rpc 1 3000]).
  destruct (unit_rpc_in_order 1 3000 ltac:(lia))
    as ((Hbound & Hoffs) & Hat & Hlen & Hcnt).
  change (msgout (unit_rpc 1 3000)) with (msgout (w_rpcs w 1%nat))
    in Hbound, Hoffs, Hat, Hlen, Hcnt.
  assert (Hgr : granted (msgout (w_rpcs w 1%nat)) = 3000)
    by (vm_compute; reflexivity).
  assert (Hflag : Z.land (flags (w_homa w))
                    (HOMA_FLAG_DONT_THROTTLE unit_impl) <> 0)
    by discriminate.
  assert (Hcnt3 : length (packets (msgout (w_rpcs w 1%nat))) = 3%nat).
  { unfold HOMA_MAX_DATA_PER_PACKET in Hcnt.
    change ((3000 + (1400 - 1)) / 1400) with 3 in Hcnt. lia. }
  rewrite <- Hlen in Hcnt.
  pose proof Hat as (_ & Hoff & Hnext). rewrite Hcnt3 in Hnext.
  change (next_packet (msgout (w_rpcs w 1%nat)) = Some 0%nat) in Hnext.
  change (next_offset (msgout (w_rpcs w 1%nat)) = 0) in Hoff.
  split; [|split].
  - assert (Hl : message_linked (msgout (w_rpcs w 1%nat))).
    { intros i Hi. rewrite Hnext in Hi. injection Hi as <-. lia. }
    assert (Hc : xmit_data_cond 1 w = true).
    { unfold xmit_data_cond. rewrite Hoff, Hgr, Hnext. reflexivity. }
    destruct (lookup_lt_is_Some_2 (packets (msgout (w_rpcs w 1%nat))) 0%nat)
      as [skb Hskb]; [lia|].
    destruct (xmit_data_body_defined unit_impl (unit_externals 10000) 1 w
                Hl Hc) as (t & w' & Hb).
    assert (Ht : t = false).
    { destruct t; [|reflexivity].
      apply xmit_data_body_throttled in Hb as [Hfire _].
      rewrite xmit_data_throttle_disabled in Hfire by exact Hflag.
      discriminate. }
    subst t.
    assert (Hr : - 2 ^ 31 <= next_offset (msgout (w_rpcs w 1%nat))
                             + HOMA_MAX_DATA_PER_PACKET < 2 ^ 31)
      by (rewrite Hoff; eval_ranges).
    exists skb, w'. repeat (split; [assumption|]).
    exact (proj1 (proj1 xmit_data_advances unit_impl (unit_externals 10000)
                    1%nat w w' 0%nat skb Hnext Hskb Hb Hr)).
  - assert (H0 : 0 <= msg_length (msgout (w_rpcs w 1%nat)))
      by (rewrite Hlen; lia).
    assert (Hle : msg_length (msgout (w_rpcs w 1%nat))
                  <= granted (msgout (w_rpcs w 1%nat)))
      by (rewrite Hlen, Hgr; lia).
    repeat (split; [assumption|]).
    destruct (proj1 (proj2 xmit_data_advances) unit_impl
                (unit_externals 10000) 1%nat w 0%nat H0 Hbound Hcnt Hat Hle
                Hflag) as (w' & Hrun & Ho & _).
    exists w'. split; assumption.
  - destruct (proj1 (proj2 (proj2 xmit_data_advances)) unit_impl
                (unit_externals 10000) 1%nat w 0%nat Hbound Hcnt Hat)
      as (w' & j & Hrun & _ & Ho & _).
    exists w', j. split; assumption.
Defined.

(** ** [homa_resend_data] *)

Lemma xmit_prepare_peer skb r r' :
  peer r' = peer r -> xmit_prepare skb r' = xmit_prepare skb r.
Proof. intros Hp. unfold xmit_prepare. rewrite Hp. reflexivity. Qed.

Lemma resend_frame_refl rpc w : resend_frame rpc w w.
Proof.
  unfold resend_frame. cbv zeta. repeat split.
  - destruct (msgout (w_rpcs w rpc)); reflexivity.
  - destruct (w_homa w); reflexivity.
Qed.

Lemma resend_frame_trans rpc w1 w2 w3 :
  resend_frame rpc w1 w2 -> resend_frame rpc w2 w3 -> resend_frame rpc w1 w3.
Proof.
  unfold resend_frame. cbv zeta.
  intros (A1 & A2 & A3 & A4 & A5 & A6 & A7) (B1 & B2 & B3 & B4 & B5 & B6 & B7).
  split. { intros a Ha. rewrite B1, A1 by exact Ha. reflexivity. }
  split; [congruence|]. split; [congruence|].
  split. { rewrite B4. rewrite A4. reflexivity. }
  split; [congruence|].
  split. { rewrite B6. rewrite A6. destruct (w_homa w1); reflexivity. }
  congruence.
Qed.

Section ResendFacts.

Variable K : homa_impl_h.
Variable E : externals.
Variable rpc : nat.
Variables start end_ priority : Z.

(** The world after buffer [i] has been retransmitted. *)
Lemma resend_send_frame w i skb skb3 w1 :
  packets (msgout (w_rpcs w rpc)) !! i = Some skb ->
  __homa_xmit_data K E (resend_tagged skb priority) (w_rpcs w rpc) w
  = (skb3, w1) ->
  let mt := w_metrics (w_set_packet rpc i skb3 w1) in
  let w3 := w_set_metrics
              (mk_homa_metrics (packets_sent_data mt) (data_xmit_errors mt)
                 (resent_packets mt + 1))
              (w_set_packet rpc i skb3 w1) in
  resend_frame rpc w w3 /\
  packets (msgout (w_rpcs w3 rpc))
  = <[i := skb3]> (packets (msgout (w_rpcs w rpc))) /\
  h_offset (hdr skb3) = h_offset (hdr skb) /\
  w_wire w3 = w_wire w ++ [resend_wire_form (w_rpcs w rpc) priority skb].
Proof.
  intros Hskb Hx.
  pose proof (homa_xmit_data_low_frame K E (resend_tagged skb priority)
                (w_rpcs w rpc) w) as Hlow.
  cbv zeta in Hlow. rewrite Hx in Hlow. cbn [fst snd] in Hlow.
  destruct Hlow as (L1 & L2 & L3 & L4 & L5 & _).
  cbv zeta. unfold resend_frame, w_set_packet, w_set_msgout.
  cbn [w_rpcs w_set_metrics w_homa w_wakeups w_wire].
  rewrite !w_set_rpc_same. rewrite L1.
  split.
  { split. { intros a Ha. rewrite w_set_rpc_other by exact Ha.
             rewrite L1. reflexivity. }
    cbn. rewrite length_insert.
    repeat split; try assumption. }
  split; [reflexivity|].
  split. { rewrite L5. reflexivity. }
  cbn. exact L2.
Qed.

(** The walk over the packet list comes to an end and leaves the frame
    alone. *)
Lemma resend_data_loop_frame fuel :
  forall w i,
    (length (packets (msgout (w_rpcs w rpc))) - i <= fuel)%nat ->
    exists w',
      resend_data_loop K E fuel rpc start end_ priority
        (if (i <? length (packets (msgout (w_rpcs w rpc))))%nat
         then Some i else None) w = Some w' /\
      resend_frame rpc w w'.
Proof.
  induction fuel as [|fuel IH]; intros w i Hf.
  - destruct (Nat.ltb_spec i (length (packets (msgout (w_rpcs w rpc)))));
      [lia|].
    simpl. exists w. split; [reflexivity | apply resend_frame_refl].
  - destruct (Nat.ltb_spec i (length (packets (msgout (w_rpcs w rpc)))))
      as [Hlt|Hge].
    2:{ simpl. exists w. split; [reflexivity | apply resend_frame_refl]. }
    destruct (lookup_lt_is_Some_2 _ _ Hlt) as [skb Hskb].
    cbn [resend_data_loop]. rewrite Hskb. unfold homa_next_skb.
    destruct (_ <=? start).
    { apply (IH w (S i)). lia. }
    destruct (_ >=? end_).
    { exists w. split; [reflexivity | apply resend_frame_refl]. }
    destruct (skb_shared skb).
    { apply (IH w (S i)). lia. }
    fold (resend_tagged skb priority).
    destruct (__homa_xmit_data K E (resend_tagged skb priority)
                (w_rpcs w rpc) w) as [skb3 w1] eqn:Hx.
    pose proof (resend_send_frame w i skb skb3 w1 Hskb Hx) as Hs.
    cbv zeta in Hs. destruct Hs as (Hfr & Hpk & _ & _).
    match goal with
    | |- context [resend_data_loop K E fuel rpc start end_ priority _ ?v] =>
      set (w3 := v) in *
    end.
    assert (Hlen : length (packets (msgout (w_rpcs w3 rpc)))
                   = length (packets (msgout (w_rpcs w rpc)))).
    { rewrite Hpk. apply length_insert. }
    rewrite <- Hlen.
    destruct (IH w3 (S i)) as (w' & Hrun & Hfr'); [lia|].
    exists w'. split; [exact Hrun|].
    eapply resend_frame_trans; eassumption.
Qed.

End ResendFacts.

Lemma packets_head_index (pkts : list sk_buff) :
  packets_head pkts = if (0 <? length pkts)%nat then Some 0%nat else None.
Proof. destruct pkts; reflexivity. Qed.

Lemma filter_none {A} (f : A -> bool) (l : list A) :
  (forall x, x ∈ l -> f x = false) -> List.filter f l = [].
Proof.
  induction l as [|x l IH]; intros H; [reflexivity|]. simpl.
  rewrite (H x) by (apply elem_of_cons; left; reflexivity).
  apply IH. intros y Hy. apply H. apply elem_of_cons. right. exact Hy.
Qed.

Lemma resend_wire_form_fields r priority skb :
  let s := resend_wire_form r priority skb in
  h_offset (hdr s) = h_offset (hdr skb) /\
  h_retransmit (hdr s) = 1 /\
  h_cutoff_version (hdr s) = cutoff_version (peer r) /\
  vlan_tci s = tci_at priority /\
  payload s = payload skb.
Proof.
  unfold resend_wire_form, xmit_prepare, resend_tagged, set_priority. cbn.
  repeat match goal with |- context [if ?c then _ else _] => destruct c end;
    repeat split; reflexivity.
Qed.

Section ResendWire.

Variable K : homa_impl_h.
Variable E : externals.
Variable rpc : nat.
Variables start end_ priority : Z.

(** With the buffers in order of their offsets, the walk sends the
    buffers that overlap the range and are not shared, and no others:
    once it has stopped, nothing further down the list overlaps. *)
Lemma resend_data_loop_wire fuel :
  forall w i w',
    HOMA_MAX_DATA_PER_PACKET
      * Z.of_nat (length (packets (msgout (w_rpcs w rpc)))) < 2 ^ 31 ->
    (forall (d : nat) skb,
        (i <= d)%nat ->
        packets (msgout (w_rpcs w rpc)) !! d = Some skb ->
        ntohl (h_offset (hdr skb))
        = HOMA_MAX_DATA_PER_PACKET * Z.of_nat d) ->
    resend_data_loop K E fuel rpc start end_ priority
      (if (i <? length (packets (msgout (w_rpcs w rpc))))%nat
       then Some i else None) w = Some w' ->
    w_wire w'
    = w_wire w
      ++ map (resend_wire_form (w_rpcs w rpc) priority)
           (List.filter (resend_selects start end_)
              (drop i (packets (msgout (w_rpcs w rpc))))).
Proof.
  induction fuel as [|fuel IH]; intros w i w' Hbound Hoff Hrun.
  - destruct (Nat.ltb_spec i (length (packets (msgout (w_rpcs w rpc)))))
      as [Hlt|Hge]; [discriminate|].
    injection Hrun as <-. rewrite drop_ge by lia. simpl.
    rewrite app_nil_r. reflexivity.
  - destruct (Nat.ltb_spec i (length (packets (msgout (w_rpcs w rpc)))))
      as [Hlt|Hge].
    2:{ injection Hrun as <-. rewrite drop_ge by lia. simpl.
        rewrite app_nil_r. reflexivity. }
    destruct (lookup_lt_is_Some_2 _ _ Hlt) as [skb Hskb].
    pose proof (Hoff i skb (Nat.le_refl i) Hskb) as Ho.
    cbn [resend_data_loop] in Hrun. rewrite Hskb in Hrun.
    unfold homa_next_skb in Hrun. rewrite Ho in Hrun.
    unfold HOMA_MAX_DATA_PER_PACKET in *.
    rewrite (s32_small (1400 * Z.of_nat i)) in Hrun by lia.
    rewrite (s32_small (1400 * Z.of_nat i + 1400)) in Hrun by lia.
    rewrite (drop_S _ _ _ Hskb). cbn [List.filter].
    unfold resend_selects at 1, resend_overlaps. rewrite Ho.
    unfold HOMA_MAX_DATA_PER_PACKET.
    destruct (1400 * Z.of_nat i + 1400 <=? start) eqn:Hskip.
    { replace (start <? 1400 * Z.of_nat i + 1400) with false by lia.
      cbn [andb]. apply (IH w (S i) w' Hbound); [|exact Hrun].
      intros d s Hd. apply Hoff. lia. }
    replace (start <? 1400 * Z.of_nat i + 1400) with true by lia.
    destruct (1400 * Z.of_nat i >=? end_) eqn:Hbrk.
    { injection Hrun as <-.
      replace (1400 * Z.of_nat i <? end_) with false by lia. cbn [andb].
      rewrite filter_none; [simpl; rewrite app_nil_r; reflexivity|].
      intros s Hs. apply list_elem_of_lookup in Hs as [d Hd].
      rewrite lookup_drop in Hd.
      pose proof (Hoff (S i + d)%nat s ltac:(lia) Hd) as Hos.
      unfold resend_selects, resend_overlaps. rewrite Hos.
      unfold HOMA_MAX_DATA_PER_PACKET.
      assert (Hf : (1400 * Z.of_nat (S i + d) <? end_) = false)
        by (apply Z.ltb_ge; lia).
      rewrite Hf.
      rewrite andb_false_r. reflexivity. }
    replace (1400 * Z.of_nat i <? end_) with true by lia. cbn [andb].
    destruct (skb_shared skb) eqn:Hsh.
    { cbn [negb]. apply (IH w (S i) w' Hbound); [|exact Hrun].
      intros d s Hd. apply Hoff. lia. }
    cbn [negb map].
    fold (resend_tagged skb priority) in Hrun.
    destruct (__homa_xmit_data K E (resend_tagged skb priority)
                (w_rpcs w rpc) w) as [skb3 w1] eqn:Hx.
    pose proof (resend_send_frame K E rpc priority w i skb skb3 w1 Hskb Hx)
      as Hs.
    cbv zeta in Hs. destruct Hs as (Hfr & Hpk & Hho & Hwire).
    match type of Hrun with
    | resend_data_loop K E fuel rpc start end_ priority _ ?v = _ =>
      set (w3 := v) in *
    end.
    assert (Hlen : length (packets (msgout (w_rpcs w3 rpc)))
                   = length (packets (msgout (w_rpcs w rpc)))).
    { rewrite Hpk. apply length_insert. }
    rewrite <- Hlen in Hrun.
    apply IH in Hrun.
    + rewrite Hrun, Hwire, Hpk. rewrite <- app_assoc. cbn [app].
      rewrite drop_insert_lt by lia.
      do 2 f_equal. apply map_ext. intros s.
      unfold resend_wire_form. apply xmit_prepare_peer. apply Hfr.
    + rewrite Hlen. exact Hbound.
    + intros d s Hd Hds. rewrite Hpk in Hds.
      rewrite list_lookup_insert_ne in Hds by lia.
      apply Hoff; [lia | exact Hds].
Qed.

End ResendWire.

Lemma homa_resend_data_frame K E rpc start end_ priority w :
  exists w',
    homa_resend_data K E rpc start end_ priority w = Some w' /\
    resend_frame rpc w w'.
Proof.
  unfold homa_resend_data. rewrite packets_head_index.
  apply resend_data_loop_frame. lia.
Qed.

Lemma resend_selects_spec start end_ skb :
  resend_selects start end_ skb = true
  <-> start < ntohl (h_offset (hdr skb)) + HOMA_MAX_DATA_PER_PACKET /\
      ntohl (h_offset (hdr skb)) < end_ /\
      skb_shared skb = false.
Proof.
  unfold resend_selects, resend_overlaps.
  rewrite !andb_true_iff, negb_true_iff, Z.ltb_lt, Z.ltb_lt. tauto.
Qed.

(** For a range that is not empty, the overlap test says that the packet
    and the range have a byte in common. *)
Lemma resend_overlaps_common_byte start end_ skb :
  start < end_ ->
  resend_overlaps start end_ skb = true
  <-> exists b,
        ntohl (h_offset (hdr skb)) <= b
          < ntohl (h_offset (hdr skb)) + HOMA_MAX_DATA_PER_PACKET /\
        start <= b < end_.
Proof.
  intros Hne. unfold resend_overlaps, HOMA_MAX_DATA_PER_PACKET.
  rewrite andb_true_iff, !Z.ltb_lt. split.
  - intros [H1 H2].
    exists (Z.max start (ntohl (h_offset (hdr skb)))). lia.
  - intros (b & Hb1 & Hb2). lia.
Qed.

(** C6.  For a message whose buffers are in order of their offsets,
    [homa_resend_data] puts on the wire exactly the buffers that are not
    shared and whose bytes [offset, offset + HOMA_MAX_DATA_PER_PACKET)
    overlap [start, end), that is [start < offset + HOMA_MAX_DATA_PER_PACKET]
    and [offset < end] (for [start < end]: the two have a byte in common),
    in list order, each with [retransmit = 1] and the tag of the priority
    given; the walk stops at the first buffer with [offset >= end].  For a
    message of 10000 bytes, the range [1000, 5000) at priority 5 sends the
    offsets 0, 1400, 2800, 4200, and then the range [1400, 2800) at
    priority 7 sends the offset 1400 only. *)
Theorem resend_data_range :
  (forall K E rpc start end_ priority w,
      let r := w_rpcs w rpc in
      let pkts := packets (msgout r) in
      packets_in_order pkts ->
      exists w',
        homa_resend_data K E rpc start end_ priority w = Some w' /\
        w_wire w'
        = w_wire w
          ++ map (resend_wire_form r priority)
               (List.filter (resend_selects start end_) pkts) /\
        (forall skb,
            let s := resend_wire_form r priority skb in
            h_offset (hdr s) = h_offset (hdr skb) /\
            h_retransmit (hdr s) = 1 /\
            vlan_tci s = tci_at priority)) /\
  (forall start end_ skb,
      resend_selects start end_ skb = true
      <-> start < ntohl (h_offset (hdr skb)) + HOMA_MAX_DATA_PER_PACKET /\
          ntohl (h_offset (hdr skb)) < end_ /\
          skb_shared skb = false) /\
  (forall start end_ skb,
      start < end_ ->
      resend_overlaps start end_ skb = true
      <-> exists b,
            ntohl (h_offset (hdr skb)) <= b
              < ntohl (h_offset (hdr skb)) + HOMA_MAX_DATA_PER_PACKET /\
            start <= b < end_) /\
  (forall K E fuel rpc start end_ priority w i skb,
      packets (msgout (w_rpcs w rpc)) !! i = Some skb ->
      ntohl (h_offset (hdr skb)) + HOMA_MAX_DATA_PER_PACKET < 2 ^ 31 ->
      start < ntohl (h_offset (hdr skb)) + HOMA_MAX_DATA_PER_PACKET ->
      end_ <= ntohl (h_offset (hdr skb)) ->
      resend_data_loop K E (S fuel) rpc start end_ priority (Some i) w
      = Some w) /\
  wire_summary
    <$> homa_resend_data unit_impl (unit_externals 10000) 1 1000 5000 5
          resend_world
  = Some [(0, tci_at 5, 1); (1400, tci_at 5, 1); (2800, tci_at 5, 1);
          (4200, tci_at 5, 1)] /\
  wire_summary
    <$> (homa_resend_data unit_impl (unit_externals 10000) 1 1000 5000 5
           resend_world
         ≫= homa_resend_data unit_impl (unit_externals 10000) 1 1400 2800 7)
  = Some [(0, tci_at 5, 1); (1400, tci_at 5, 1); (2800, tci_at 5, 1);
          (4200, tci_at 5, 1); (1400, tci_at 7, 1)].
Proof.
  split.
  { intros K E rpc start end_ priority w r pkts [Hbound Hoff].
    destruct (homa_resend_data_frame K E rpc start end_ priority w)
      as (w' & Hrun & _).
    exists w'. split; [exact Hrun|]. split.
    - unfold homa_resend_data in Hrun. rewrite packets_head_index in Hrun.
      apply resend_data_loop_wire in Hrun.
      + rewrite drop_0 in Hrun. exact Hrun.
      + exact Hbound.
      + intros d skb _ Hd. apply Hoff. exact Hd.
    - intros skb.
      pose proof (resend_wire_form_fields r priority skb) as Hf.
      cbv zeta in *. tauto. }
  split; [exact resend_selects_spec|].
  split; [exact resend_overlaps_common_byte|].
  split.
  { intros K E fuel rpc start end_ priority w i skb Hskb Hr Hs He.
    pose proof (ntohl_range (h_offset (hdr skb))) as Hh.
    cbn [resend_data_loop]. rewrite Hskb.
    unfold HOMA_MAX_DATA_PER_PACKET in *.
    rewrite (s32_small (ntohl _)) by lia.
    rewrite s32_small by lia.
    destruct (_ <=? start) eqn:H1; [lia|].
    destruct (_ >=? end_) eqn:H2; [reflexivity | lia]. }
  split; vm_compute; reflexivity.
Qed.

Lemma resend_data_range_witness :
  let pkts := packets (msgout (w_rpcs resend_world 1%nat)) in
  (packets_in_order pkts /\
   exists w',
     homa_resend_data unit_impl (unit_externals 10000) 1 1000 5000 5
       resend_world = Some w' /\
     w_wire w'
     = w_wire resend_world
       ++ map (resend_wire_form (w_rpcs resend_world 1%nat) 5)
            (List.filter (resend_selects 1000 5000) pkts)) /\
  (exists skb,
      pkts !! 4%nat = Some skb /\
      1000 < 5000 /\
      (resend_overlaps 1000 5000 skb = true
       <-> exists b,
             ntohl (h_offset (hdr skb)) <= b
               < ntohl (h_offset (hdr skb)) + HOMA_MAX_DATA_PER_PACKET /\
             1000 <= b < 5000) /\
      ntohl (h_offset (hdr skb)) + HOMA_MAX_DATA_PER_PACKET < 2 ^ 31 /\
      1000 < ntohl (h_offset (hdr skb)) + HOMA_MAX_DATA_PER_PACKET /\
      5000 <= ntohl (h_offset (hdr skb)) /\
      resend_data_loop unit_impl (unit_externals 10000) 1 1 1000 5000 5
        (Some 4%nat) resend_world = Some resend_world).
Proof.
  cbv zeta.
  destruct (unit_rpc_in_order 1 10000 ltac:(lia))
    as (Hord & _ & Hlen & Hcnt).
  change (msgout (unit_rpc 1 10000))
    with (msgout (w_rpcs resend_world 1%nat)) in Hord, Hlen, Hcnt.
  split.
  - split; [exact Hord|].
    destruct (proj1 resend_data_range unit_impl (unit_externals 10000) 1%nat
                1000 5000 5 resend_world Hord) as (w' & Hrun & Hwire & _).
    exists w'. split; assumption.
  - assert (Hcnt8 : length (packets (msgout (w_rpcs resend_world 1%nat)))
                    = 8%nat).
    { unfold HOMA_MAX_DATA_PER_PACKET in Hcnt.
      change ((10000 + (1400 - 1)) / 1400) with 8 in Hcnt. lia. }
    destruct (lookup_lt_is_Some_2
                (packets (msgout (w_rpcs resend_world 1%nat))) 4%nat)
      as [skb Hskb]; [lia|].
    pose proof (proj2 Hord 4%nat skb Hskb) as Ho.
    unfold HOMA_MAX_DATA_PER_PACKET in Ho.
    change (1400 * Z.of_nat 4) with 5600 in Ho.
    assert (Hne : 1000 < 5000) by lia.
    assert (H1 : ntohl (h_offset (hdr skb)) + HOMA_MAX_DATA_PER_PACKET
                 < 2 ^ 31) by (rewrite Ho; eval_ranges).
    assert (H2 : 1000 < ntohl (h_offset (hdr skb))
                        + HOMA_MAX_DATA_PER_PACKET)
      by (rewrite Ho; eval_ranges).
    assert (H3 : 5000 <= ntohl (h_offset (hdr skb)))
      by (rewrite Ho; eval_ranges).
    exists skb. split; [exact Hskb|]. split; [exact Hne|].
    split.
    { exact (proj1 (proj2 (proj2 resend_data_range)) 1000 5000 skb Hne). }
    repeat (split; [assumption|]).
    exact (proj1 (proj2 (proj2 (proj2 resend_data_range))) unit_impl
             (unit_externals 10000) 0%nat 1%nat 1000 5000 5 resend_world
             4%nat skb Hskb H1 H2 H3).
Defined.

(** C7.  [homa_resend_data] always returns, and whatever the message, the
    range and the priority, it leaves [next_offset] and [next_packet] as
    they were, like every other field of the message but the buffers
    themselves. *)
Theorem resend_data_keeps_position :
  forall K E rpc start end_ priority w,
    exists w',
      homa_resend_data K E rpc start end_ priority w = Some w' /\
      next_offset (msgout (w_rpcs w' rpc)) = next_offset (msgout (w_rpcs w rpc)) /\
      next_packet (msgout (w_rpcs w' rpc)) = next_packet (msgout (w_rpcs w rpc)) /\
      resend_frame rpc w w'.
Proof.
  intros K E rpc start end_ priority w.
  destruct (homa_resend_data_frame K E rpc start end_ priority w)
    as (w' & Hrun & Hfr).
  exists w'. split; [exact Hrun|].
  pose proof Hfr as Hfr'. unfold resend_frame in Hfr'. cbv zeta in Hfr'.
  destruct Hfr' as (_ & _ & _ & Hm & _).
  rewrite Hm. cbn. split; [reflexivity|]. split; [reflexivity | exact Hfr].
Qed.

(** * Further properties *)

(** ** [homa_message_out_init]: failures *)

Section InitFailures.

Variable E : externals.
Variables (dest : homa_peer) (dport sport id : Z).

(** A pass that fails destroys what has been built. *)
Lemma message_out_init_loop_failure fuel :
  forall k bl m e m',
    0 <= msg_length m ->
    message_out_init_loop E fuel dest dport sport id k bl m = Some (e, m') ->
    e <> 0 ->
    packets m' = [] /\ next_packet m' = next_packet m /\
    next_offset m' = next_offset m /\
    (e = - ENOMEM \/ exists j, e = skb_add_data_nocache E j).
Proof.
  induction fuel as [|fuel IH]; intros k bl m e m' Hlen Hrun He;
    simpl in Hrun; destruct (bl >? 0).
  - discriminate.
  - injection Hrun as <- <-. contradiction.
  - assert (Hd : packets (homa_message_out_destroy m) = [] /\
                 next_packet (homa_message_out_destroy m) = next_packet m /\
                 next_offset (homa_message_out_destroy m) = next_offset m).
    { unfold homa_message_out_destroy.
      destruct (msg_length m <? 0) eqn:Hneg; [lia|]. repeat split. }
    destruct (alloc_skb_ok E k); simpl in Hrun.
    + destruct (skb_add_data_nocache E k =? 0) eqn:Hc; simpl in Hrun.
      * apply IH in Hrun; [|exact Hlen | exact He].
        destruct Hrun as (H1 & H2 & H3 & H4). repeat split; assumption.
      * injection Hrun as <- <-. destruct Hd as (H1 & H2 & H3).
        repeat split; try assumption. right. exists k. reflexivity.
    + injection Hrun as <- <-. destruct Hd as (H1 & H2 & H3).
      repeat split; try assumption. left. reflexivity.
  - injection Hrun as <- <-. contradiction.
Qed.

(** The passes go through as long as allocation and copy succeed, and
    the first pass that fails decides the return value. *)
Lemma message_out_init_loop_first_failure fuel :
  forall k bl m (j : nat),
    bl < 2 ^ 31 ->
    (Z.to_nat bl <= fuel)%nat ->
    (j < init_passes bl)%nat ->
    (forall i, (i < j)%nat -> init_pass_ok E (k + i) = true) ->
    init_pass_ok E (k + j) = false ->
    exists m',
      message_out_init_loop E fuel dest dport sport id k bl m
      = Some (if alloc_skb_ok E (k + j)
              then skb_add_data_nocache E (k + j) else - ENOMEM, m').
Proof.
  induction fuel as [|fuel IH]; intros k bl m j Hbl Hf Hj Hok Hfail.
  - destruct (Z_lt_le_dec 0 bl) as [Hpos|Hnp]; [lia|].
    rewrite init_passes_nonpos in Hj by lia. lia.
  - destruct (Z_lt_le_dec 0 bl) as [Hpos|Hnp].
    2:{ rewrite init_passes_nonpos in Hj by lia. lia. }
    simpl. destruct (bl >? 0) eqn:Hb; [|lia].
    destruct j as [|j].
    + rewrite Nat.add_0_r in *. unfold init_pass_ok in Hfail.
      destruct (alloc_skb_ok E k); simpl in *; [|eauto].
      rewrite Hfail. simpl. eauto.
    + pose proof (Hok 0%nat ltac:(lia)) as H0. rewrite Nat.add_0_r in H0.
      unfold init_pass_ok in H0. apply andb_true_iff in H0 as [Ha Hc].
      rewrite Ha, Hc. simpl.
      rewrite s32_small by (unfold HOMA_MAX_DATA_PER_PACKET; lia).
      rewrite (init_passes_pos bl) in Hj by lia.
      replace (k + S j)%nat with (S k + j)%nat in * by lia.
      apply IH.
      * unfold HOMA_MAX_DATA_PER_PACKET. lia.
      * unfold HOMA_MAX_DATA_PER_PACKET. lia.
      * lia.
      * intros i Hi. replace (S k + i)%nat with (k + S i)%nat by lia.
        apply Hok. lia.
      * exact Hfail.
Qed.

Lemma message_out_init_loop_all_ok fuel :
  forall k bl m,
    bl < 2 ^ 31 ->
    (Z.to_nat bl <= fuel)%nat ->
    (forall i, (i < init_passes bl)%nat -> init_pass_ok E (k + i) = true) ->
    exists m',
      message_out_init_loop E fuel dest dport sport id k bl m = Some (0, m').
Proof.
  induction fuel as [|fuel IH]; intros k bl m Hbl Hf Hok.
  - simpl. destruct (bl >? 0) eqn:Hb; [lia | eauto].
  - simpl. destruct (bl >? 0) eqn:Hb; [|eauto].
    rewrite (init_passes_pos bl) in Hok by lia.
    pose proof (Hok 0%nat ltac:(lia)) as H0. rewrite Nat.add_0_r in H0.
    unfold init_pass_ok in H0. apply andb_true_iff in H0 as [Ha Hc].
    rewrite Ha, Hc. simpl.
    rewrite s32_small by (unfold HOMA_MAX_DATA_PER_PACKET; lia).
    apply IH.
    + unfold HOMA_MAX_DATA_PER_PACKET. lia.
    + unfold HOMA_MAX_DATA_PER_PACKET. lia.
    + intros i Hi. replace (S k + i)%nat with (k + S i)%nat by lia.
      apply Hok. lia.
Qed.

End InitFailures.

(** An error return of [homa_message_out_init] leaves the message
    without buffers. *)
Lemma homa_message_out_init_failure K E h len dest dport sport id e m :
  homa_message_out_init K E h len dest dport sport id = Some (e, m) ->
  e <> 0 ->
  packets m = [] /\ next_packet m = None /\ next_offset m = 0 /\
  (e = - EINVAL \/ e = - ENOMEM \/ exists j, e = skb_add_data_nocache E j).
Proof.
  intros Hrun He.
  unfold homa_message_out_init in Hrun. cbn [granted msg_length] in Hrun.
  destruct (u64 len >? u64 (HOMA_MAX_MESSAGE_LENGTH K)).
  - injection Hrun as <- <-.
    assert (Hp : forall m0, packets m0 = [] ->
                            packets (homa_message_out_destroy m0) = []).
    { intros m0 H0. unfold homa_message_out_destroy.
      destruct (_ <? 0); [exact H0 | reflexivity]. }
    split.
    { apply Hp. destruct (rtt_bytes h >? s32 len); reflexivity. }
    unfold homa_message_out_destroy.
    destruct (rtt_bytes h >? s32 len); cbn; destruct (s32 len <? 0);
      repeat split; left; reflexivity.
  - destruct (Z_lt_le_dec 0 (s32 len)) as [Hpos|Hnp].
    + apply message_out_init_loop_failure in Hrun; [|
        destruct (rtt_bytes h >? s32 len); cbn; lia | exact He].
      destruct Hrun as (H1 & H2 & H3 & H4).
      split; [exact H1|].
      split. { rewrite H2. destruct (rtt_bytes h >? s32 len); reflexivity. }
      split. { rewrite H3. destruct (rtt_bytes h >? s32 len); reflexivity. }
      right. exact H4.
    + exfalso. destruct (Z.to_nat (s32 len)); simpl in Hrun;
        (destruct (s32 len >? 0) eqn:Hb; [lia|]);
        injection Hrun as <- _; contradiction.
Qed.

(** X1.  Whenever [homa_message_out_init] returns an error, it leaves no
    buffer behind: the packet list is empty and [next_packet] is [NULL],
    whatever had been built before the failure.  The error is [-EINVAL],
    [-ENOMEM] or the value a failed copy returned. *)
Theorem init_failure_leaves_no_packets :
  forall K E h len dest dport sport id e m,
    homa_message_out_init K E h len dest dport sport id = Some (e, m) ->
    e <> 0 ->
    packets m = [] /\ next_packet m = None /\ next_offset m = 0 /\
    (e = - EINVAL \/ e = - ENOMEM \/ exists j, e = skb_add_data_nocache E j).
Proof.
  intros K E h len dest dport sport id e m Hrun He.
  exact (homa_message_out_init_failure K E h len dest dport sport id e m
           Hrun He).
Qed.

Lemma init_failure_leaves_no_packets_witness :
  let E := failing_externals (fun k => Nat.eqb k 1) (fun _ => false) in
  exists m,
    homa_message_out_init unit_impl E unit_homa 3000 unit_peer 99 40000 1
    = Some (- ENOMEM, m) /\
    - ENOMEM <> 0 /\
    packets m = [] /\ next_packet m = None.
Proof.
  cbv zeta.
  destruct (homa_message_out_init_total unit_impl
              (failing_externals (fun k => Nat.eqb k 1) (fun _ => false))
              unit_homa 3000 unit_peer 99 40000 1) as [[e m] Hrun].
  assert (He : fst <$> homa_message_out_init unit_impl
                 (failing_externals (fun k => Nat.eqb k 1) (fun _ => false))
                 unit_homa 3000 unit_peer 99 40000 1 = Some (- ENOMEM))
    by (vm_compute; reflexivity).
  rewrite Hrun in He. injection He as ->.
  assert (Hne : - ENOMEM <> 0) by discriminate.
  exists m. split; [exact Hrun|]. split; [exact Hne|].
  destruct (init_failure_leaves_no_packets _ _ _ _ _ _ _ _ _ _ Hrun Hne)
    as (H1 & H2 & _).
  split; assumption.
Defined.

(** X2.  For a length within bounds, [homa_message_out_init] succeeds
    exactly when the allocation and the copy of every one of its
    [ceil(len / HOMA_MAX_DATA_PER_PACKET)] passes succeed; otherwise the
    first pass that fails decides the result: [-ENOMEM] when its
    allocation fails, else the error of its copy. *)
Theorem init_first_failure_decides :
  forall K E h len dest dport sport id,
    0 <= len <= HOMA_MAX_MESSAGE_LENGTH K ->
    HOMA_MAX_MESSAGE_LENGTH K < 2 ^ 31 ->
    let n := init_passes len in
    ((forall i, (i < n)%nat -> init_pass_ok E i = true) <->
     exists m, homa_message_out_init K E h len dest dport sport id
               = Some (0, m)) /\
    (forall j,
        (j < n)%nat ->
        (forall i, (i < j)%nat -> init_pass_ok E i = true) ->
        init_pass_ok E j = false ->
        exists m,
          homa_message_out_init K E h len dest dport sport id
          = Some (if alloc_skb_ok E j
                  then skb_add_data_nocache E j else - ENOMEM, m) /\
          packets m = []).
Proof.
  intros K E h len dest dport sport id Hlen HK n.
  assert (Hunf : homa_message_out_init K E h len dest dport sport id
                 = message_out_init_loop E (Z.to_nat len) dest dport sport id
                     0 len
                     (if rtt_bytes h >? len
                      then mk_homa_message_out len [] None 0 (rtt_bytes h)
                             len 0
                      else mk_homa_message_out len [] None 0 (rtt_bytes h)
                             (rtt_bytes h) 0)).
  { unfold homa_message_out_init. rewrite !u64_small by lia.
    rewrite s32_small by lia. cbn [granted msg_length].
    destruct (len >? HOMA_MAX_MESSAGE_LENGTH K) eqn:Hb; [lia|].
    destruct (rtt_bytes h >? len); reflexivity. }
  assert (Hfirst : forall j,
             (j < n)%nat ->
             (forall i, (i < j)%nat -> init_pass_ok E i = true) ->
             init_pass_ok E j = false ->
             exists m,
               homa_message_out_init K E h len dest dport sport id
               = Some (if alloc_skb_ok E j
                       then skb_add_data_nocache E j else - ENOMEM, m) /\
               packets m = [] /\
               (if alloc_skb_ok E j
                then skb_add_data_nocache E j else - ENOMEM) <> 0).
  { intros j Hj Hok Hfail.
    destruct (message_out_init_loop_first_failure E dest dport sport id
                (Z.to_nat len) 0 len
                (if rtt_bytes h >? len
                 then mk_homa_message_out len [] None 0 (rtt_bytes h) len 0
                 else mk_homa_message_out len [] None 0 (rtt_bytes h)
                        (rtt_bytes h) 0) j) as [m Hm];
      try assumption; try lia.
    rewrite <- Hunf in Hm.
    assert (Hne : (if alloc_skb_ok E j
                   then skb_add_data_nocache E j else - ENOMEM) <> 0).
    { unfold init_pass_ok in Hfail. destruct (alloc_skb_ok E j);
        [|discriminate]. simpl in Hfail. lia. }
    exists m. split; [exact Hm|]. split; [|exact Hne].
    apply (homa_message_out_init_failure _ _ _ _ _ _ _ _ _ _ Hm Hne). }
  split.
  - split.
    + intros Hok. rewrite Hunf.
      apply message_out_init_loop_all_ok; [lia | lia |].
      intros i Hi. apply Hok. exact Hi.
    + intros [m Hm] i.
      induction i as [i IH] using lt_wf_ind. intros Hi.
      destruct (init_pass_ok E i) eqn:Hf; [reflexivity|].
      destruct (Hfirst i Hi) as (m' & Hm' & _ & Hne); [|exact Hf|].
      * intros i' Hi'. apply IH; lia.
      * rewrite Hm in Hm'. injection Hm' as He _. congruence.
  - intros j Hj Hok Hfail.
    destruct (Hfirst j Hj Hok Hfail) as (m & Hm & Hp & _).
    exists m. split; assumption.
Qed.

Lemma init_first_failure_decides_witness :
  let E := failing_externals (fun _ => false) (fun k => Nat.eqb k 1) in
  (0 <= 3000 <= HOMA_MAX_MESSAGE_LENGTH unit_impl) /\
  (HOMA_MAX_MESSAGE_LENGTH unit_impl < 2 ^ 31) /\
  (1 < init_passes 3000)%nat /\
  init_pass_ok E 0 = true /\
  init_pass_ok E 1 = false /\
  exists m,
    homa_message_out_init unit_impl E unit_homa 3000 unit_peer 99 40000 1
    = Some (- EFAULT, m) /\
    packets m = [].
Proof.
  cbv zeta.
  assert (H1 : 0 <= 3000 <= HOMA_MAX_MESSAGE_LENGTH unit_impl) by eval_ranges.
  assert (H2 : HOMA_MAX_MESSAGE_LENGTH unit_impl < 2 ^ 31) by eval_ranges.
  assert (H3 : (1 < init_passes 3000)%nat) by (vm_compute; lia).
  repeat (split; [first [assumption | reflexivity]|]).
  apply (proj2 (init_first_failure_decides unit_impl
                  (failing_externals (fun _ => false) (fun k => Nat.eqb k 1))
                  unit_homa 3000 unit_peer 99 40000 1 H1 H2) 1%nat H3).
  - intros i Hi. assert (i = 0%nat) as -> by lia. reflexivity.
  - reflexivity.
Defined.

(** ** [homa_message_out_init]: what the buffers carry *)

Lemma ntohs_htons z : 0 <= z < 2 ^ 16 -> ntohs (htons z) = z.
Proof.
  intros Hz. unfold ntohs, htons, u16, byte_of.
  change (256 ^ 0) with 1; change (256 ^ 1) with 256.
  change (2 ^ 8) with 256; change (2 ^ 16) with 65536 in *.
  rewrite (Z.mod_small z 65536) by lia.
  Z.div_mod_to_equations. lia.
Qed.

Lemma payload_total_app l1 l2 :
  payload_total (l1 ++ l2) = payload_total l1 + payload_total l2.
Proof.
  induction l1 as [|a l1 IH]; simpl; [reflexivity|].
  fold (payload_total (l1 ++ l2)). fold (payload_total l1). lia.
Qed.

Lemma payload_total_init_built_from m dest dport sport id n :
  forall bl,
    n = init_passes bl ->
    payload_total (init_built_from m dest dport sport id n bl) = Z.max 0 bl.
Proof.
  induction n as [|n IH]; intros bl Hn.
  - destruct (Z_lt_le_dec 0 bl) as [Hpos|Hnp].
    + rewrite (init_passes_pos bl) in Hn by lia. discriminate.
    + simpl. lia.
  - destruct (Z_lt_le_dec 0 bl) as [Hpos|Hnp].
    2:{ rewrite init_passes_nonpos in Hn by lia. discriminate. }
    rewrite (init_passes_pos bl) in Hn by lia. injection Hn as Hn.
    simpl. fold (payload_total
                   (init_built_from m dest dport sport id n
                      (bl - HOMA_MAX_DATA_PER_PACKET))).
    rewrite (IH _ Hn). unfold HOMA_MAX_DATA_PER_PACKET. lia.
Qed.

(** X3.  A successful [homa_message_out_init] distributes exactly the
    message over its buffers: the payloads add up to [len], no buffer is
    empty and none carries more than [HOMA_MAX_DATA_PER_PACKET] bytes. *)
Theorem init_payload_conservation :
  forall K E h len dest dport sport id m,
    0 <= len <= HOMA_MAX_MESSAGE_LENGTH K ->
    HOMA_MAX_MESSAGE_LENGTH K < 2 ^ 31 ->
    homa_message_out_init K E h len dest dport sport id = Some (0, m) ->
    payload_total (packets m) = len /\
    Forall (fun skb => 0 < payload skb <= HOMA_MAX_DATA_PER_PACKET)
      (packets m).
Proof.
  intros K E h len dest dport sport id m Hlen HK Hrun.
  assert (Hlen64 : 0 <= len < 2 ^ 64) by lia.
  assert (HK' : 0 <= HOMA_MAX_MESSAGE_LENGTH K < 2 ^ 31) by lia.
  destruct (homa_message_out_init_success _ _ _ _ _ _ _ _ _ Hlen64 HK' Hrun)
    as [_ ->].
  cbv zeta. cbn [packets set_next set_packets]. split.
  - rewrite payload_total_init_built_from by reflexivity. lia.
  - apply Forall_lookup_2. intros i skb Hi.
    assert (Hlt : (i < init_passes len)%nat).
    { apply lookup_lt_Some in Hi. rewrite init_built_from_length in Hi.
      exact Hi. }
    rewrite init_built_from_lookup in Hi by exact Hlt.
    injection Hi as <-. cbn [init_built skb_set_payload payload].
    assert (Z.of_nat i < (len + (HOMA_MAX_DATA_PER_PACKET - 1))
                         / HOMA_MAX_DATA_PER_PACKET).
    { unfold init_passes in Hlt.
      destruct (Z_lt_le_dec (Z.of_nat i)
                  ((len + (HOMA_MAX_DATA_PER_PACKET - 1))
                   / HOMA_MAX_DATA_PER_PACKET)); [assumption|lia]. }
    unfold HOMA_MAX_DATA_PER_PACKET in *.
    Z.div_mod_to_equations. lia.
Qed.

Lemma init_payload_conservation_witness :
  (0 <= 3000 <= HOMA_MAX_MESSAGE_LENGTH unit_impl) /\
  (HOMA_MAX_MESSAGE_LENGTH unit_impl < 2 ^ 31) /\
  exists m,
    homa_message_out_init unit_impl (unit_externals 10000) unit_homa 3000
      unit_peer 99 40000 1 = Some (0, m) /\
    payload_total (packets m) = 3000.
Proof.
  assert (H1 : 0 <= 3000 <= HOMA_MAX_MESSAGE_LENGTH unit_impl) by eval_ranges.
  assert (H2 : HOMA_MAX_MESSAGE_LENGTH unit_impl < 2 ^ 31) by eval_ranges.
  split; [exact H1|]. split; [exact H2|].
  destruct (homa_message_out_init_total unit_impl (unit_externals 10000)
              unit_homa 3000 unit_peer 99 40000 1) as [[e m] Hrun].
  assert (He : fst <$> homa_message_out_init unit_impl (unit_externals 10000)
                 unit_homa 3000 unit_peer 99 40000 1 = Some 0)
    by (vm_compute; reflexivity).
  rewrite Hrun in He. injection He as ->.
  exists m. split; [exact Hrun|].
  exact (proj1 (init_payload_conservation _ _ _ _ _ _ _ _ _ H1 H2 Hrun)).
Defined.

(** X4.  Every buffer of a successful [homa_message_out_init] carries a
    complete data header: type [DATA], the RPC id, the peer's
    [cutoff_version], [retransmit] cleared, and, read back from network
    byte order, the ports, the message length and the unscheduled limit
    [rtt_bytes]; the buffer has one holder and no route yet. *)
Theorem init_header_round_trip :
  forall K E h len dest dport sport id m,
    0 <= len <= HOMA_MAX_MESSAGE_LENGTH K ->
    HOMA_MAX_MESSAGE_LENGTH K < 2 ^ 31 ->
    0 <= rtt_bytes h < 2 ^ 31 ->
    0 <= sport < 2 ^ 16 ->
    0 <= dport < 2 ^ 16 ->
    homa_message_out_init K E h len dest dport sport id = Some (0, m) ->
    Forall
      (fun skb =>
         h_type (hdr skb) = DATA /\ h_id (hdr skb) = id /\
         h_cutoff_version (hdr skb) = cutoff_version dest /\
         h_retransmit (hdr skb) = 0 /\
         ntohs (h_sport (hdr skb)) = sport /\
         ntohs (h_dport (hdr skb)) = dport /\
         ntohl (h_message_length (hdr skb)) = len /\
         ntohl (h_unscheduled (hdr skb)) = rtt_bytes h /\
         skb_shared skb = false /\ skb_dst skb = false)
      (packets m).
Proof.
  intros K E h len dest dport sport id m Hlen HK Hrtt Hs Hd Hrun.
  assert (Hlen64 : 0 <= len < 2 ^ 64) by lia.
  assert (HK' : 0 <= HOMA_MAX_MESSAGE_LENGTH K < 2 ^ 31) by lia.
  destruct (homa_message_out_init_success _ _ _ _ _ _ _ _ _ Hlen64 HK' Hrun)
    as [_ ->].
  cbv zeta. cbn [packets set_next set_packets].
  apply Forall_lookup_2. intros i skb Hi.
  assert (Hlt : (i < init_passes len)%nat).
  { apply lookup_lt_Some in Hi. rewrite init_built_from_length in Hi.
    exact Hi. }
  rewrite init_built_from_lookup in Hi by exact Hlt.
  injection Hi as <-. cbn.
  rewrite !ntohs_htons by assumption.
  rewrite !ntohl_htonl by lia.
  repeat split.
Qed.

Lemma init_header_round_trip_witness :
  (0 <= 3000 <= HOMA_MAX_MESSAGE_LENGTH unit_impl) /\
  (HOMA_MAX_MESSAGE_LENGTH unit_impl < 2 ^ 31) /\
  (0 <= rtt_bytes unit_homa < 2 ^ 31) /\
  (0 <= 40000 < 2 ^ 16) /\ (0 <= 99 < 2 ^ 16) /\
  exists m,
    homa_message_out_init unit_impl (unit_externals 10000) unit_homa 3000
      unit_peer 99 40000 1 = Some (0, m) /\
    Forall (fun skb => ntohs (h_sport (hdr skb)) = 40000 /\
                       ntohl (h_unscheduled (hdr skb)) = 10000)
      (packets m).
Proof.
  assert (H1 : 0 <= 3000 <= HOMA_MAX_MESSAGE_LENGTH unit_impl) by eval_ranges.
  assert (H2 : HOMA_MAX_MESSAGE_LENGTH unit_impl < 2 ^ 31) by eval_ranges.
  assert (H3 : 0 <= rtt_bytes unit_homa < 2 ^ 31) by eval_ranges.
  assert (H4 : 0 <= 40000 < 2 ^ 16) by eval_ranges.
  assert (H5 : 0 <= 99 < 2 ^ 16) by eval_ranges.
  repeat (split; [assumption|]).
  destruct (homa_message_out_init_total unit_impl (unit_externals 10000)
              unit_homa 3000 unit_peer 99 40000 1) as [[e m] Hrun].
  assert (He : fst <$> homa_message_out_init unit_impl (unit_externals 10000)
                 unit_homa 3000 unit_peer 99 40000 1 = Some 0)
    by (vm_compute; reflexivity).
  rewrite Hrun in He. injection He as ->.
  exists m. split; [exact Hrun|].
  eapply Forall_impl;
    [exact (init_header_round_trip _ _ _ _ _ _ _ _ _ H1 H2 H3 H4 H5 Hrun)|].
  intros skb (_ & _ & _ & _ & Ha & _ & _ & Hb & _). split; assumption.
Defined.

(** ** [set_priority] *)

(** X5.  [homa_set_priority] marks the buffer as an 802.1Q frame with
    the tag present, different priorities give different tags, a later
    call replaces the tag of an earlier one, and nothing else of the
    buffer changes. *)
Theorem set_priority_tag :
  forall skb p q,
    0 <= p <= 7 -> 0 <= q <= 7 ->
    ntohs (vlan_proto (homa_set_priority skb p)) = 33024 /\
    Z.land (vlan_tci (homa_set_priority skb p)) VLAN_TAG_PRESENT
    = VLAN_TAG_PRESENT /\
    (vlan_tci (homa_set_priority skb p) = vlan_tci (homa_set_priority skb q)
     -> p = q) /\
    homa_set_priority (homa_set_priority skb p) q = homa_set_priority skb q /\
    hdr (homa_set_priority skb p) = hdr skb /\
    payload (homa_set_priority skb p) = payload skb /\
    users (homa_set_priority skb p) = users skb /\
    skb_dst (homa_set_priority skb p) = skb_dst skb.
Proof.
  intros skb p q Hp Hq. unfold homa_set_priority.
  assert (Hcp : p = 0 \/ p = 1 \/ p = 2 \/ p = 3 \/ p = 4 \/ p = 5 \/ p = 6
                \/ p = 7) by lia.
  split; [reflexivity|].
  split.
  { cbn [set_priority skb_set_vlan vlan_tci].
    repeat (destruct Hcp as [-> | Hcp]; [reflexivity|]). subst p.
    reflexivity. }
  split.
  { cbn [set_priority skb_set_vlan vlan_tci]. intros Heq.
    assert (Hd : Z.shiftr (Z.land (tci_at p) VLAN_PRIO_MASK) VLAN_PRIO_SHIFT
                 = Z.shiftr (Z.land (tci_at q) VLAN_PRIO_MASK)
                     VLAN_PRIO_SHIFT) by (rewrite Heq; reflexivity).
    rewrite !tci_at_priority in Hd by assumption.
    destruct (p =? 0) eqn:Hp0; destruct (q =? 0) eqn:Hq0;
      destruct (p =? 1) eqn:Hp1; destruct (q =? 1) eqn:Hq1; lia. }
  repeat split.
Qed.

Lemma set_priority_tag_witness :
  let skb := mk_sk_buff (mk_data_header 0 0 1 DATA 0 0 0 0 0) 1400 1 0 0
               false 0 in
  (0 <= 0 <= 7) /\ (0 <= 1 <= 7) /\
  Z.land (vlan_tci (homa_set_priority skb 0)) VLAN_TAG_PRESENT
  = VLAN_TAG_PRESENT /\
  homa_set_priority (homa_set_priority skb 0) 1 = homa_set_priority skb 1.
Proof.
  cbv zeta.
  assert (H0 : 0 <= 0 <= 7) by lia.
  assert (H1 : 0 <= 1 <= 7) by lia.
  split; [exact H0|]. split; [exact H1|].
  destruct (set_priority_tag
              (mk_sk_buff (mk_data_header 0 0 1 DATA 0 0 0 0 0) 1400 1 0 0
                 false 0) 0 1 H0 H1) as (_ & Ha & _ & Hb & _).
  split; assumption.
Defined.

(** ** What the senders leave alone *)

Lemma same_data_refl skb : same_data skb skb.
Proof. repeat split. Qed.

Lemma same_data_trans a b c : same_data a b -> same_data b c -> same_data a c.
Proof.
  unfold same_data.
  intros (H1 & H2 & H3 & H4 & H5 & H6 & H7 & H8)
         (G1 & G2 & G3 & G4 & G5 & G6 & G7 & G8).
  repeat split; congruence.
Qed.

Lemma same_data_list_refl l : Forall2 same_data l l.
Proof. induction l; constructor; [apply same_data_refl | assumption]. Qed.

Lemma same_data_list_trans l1 l2 l3 :
  Forall2 same_data l1 l2 -> Forall2 same_data l2 l3 ->
  Forall2 same_data l1 l3.
Proof. apply Forall2_trans. exact same_data_trans. Qed.

Lemma same_data_insert l i skb skb' :
  l !! i = Some skb -> same_data skb skb' ->
  Forall2 same_data l (<[i := skb']> l).
Proof.
  intros Hi Hs. rewrite <- (list_insert_id l i skb Hi) at 1.
  apply Forall2_insert; [apply same_data_list_refl | exact Hs].
Qed.

(** Buffers that differ only in what the senders may change carry the
    same offsets. *)
Lemma same_data_in_order l l' :
  Forall2 same_data l l' -> packets_in_order l -> packets_in_order l'.
Proof.
  intros Hs [Hb Hoff]. split.
  - rewrite <- (Forall2_length _ _ _ Hs). exact Hb.
  - intros i skb' Hi.
    destruct (Forall2_lookup_r _ _ _ _ _ Hs Hi) as (skb & Hl & Hd).
    destruct Hd as (_ & _ & _ & _ & _ & _ & Ho & _). rewrite Ho.
    exact (Hoff i skb Hl).
Qed.

Lemma same_data_payload_total l l' :
  Forall2 same_data l l' -> payload_total l' = payload_total l.
Proof.
  induction 1 as [|a b l l' Hab _ IH]; [reflexivity|]. simpl.
  fold (payload_total l). fold (payload_total l').
  destruct Hab as (Hp & _). rewrite Hp, IH. reflexivity.
Qed.

(** What [__homa_xmit_data] does to a buffer that a sender has tagged. *)
Lemma homa_xmit_data_low_same_data K E skb skb0 r w :
  payload skb = payload skb0 ->
  (exists v, hdr skb = set_retransmit v (hdr skb0)) ->
  same_data skb0 (fst (__homa_xmit_data K E skb r w)).
Proof.
  intros Hp [v Hh].
  destruct (homa_xmit_data_low_frame K E skb r w)
    as (_ & _ & _ & _ & Hhdr & _ & Hpay).
  unfold same_data. rewrite Hhdr, Hpay, Hh, Hp. repeat split.
Qed.

Lemma sender_keeps_refl rpc w : sender_keeps rpc w w.
Proof.
  unfold sender_keeps. split; [apply same_data_list_refl|].
  repeat split; reflexivity.
Qed.

Lemma sender_keeps_trans rpc w1 w2 w3 :
  sender_keeps rpc w1 w2 -> sender_keeps rpc w2 w3 -> sender_keeps rpc w1 w3.
Proof.
  unfold sender_keeps.
  intros (H1 & H2 & H3 & H4 & H5 & H6 & H7 & H8)
         (G1 & G2 & G3 & G4 & G5 & G6 & G7 & G8).
  split; [exact (same_data_list_trans _ _ _ H1 G1)|].
  repeat split; try congruence.
  intros a Ha. rewrite G8, H8 by exact Ha. reflexivity.
Qed.

Lemma message_at_linked m k : message_at m k -> message_linked m.
Proof.
  intros (Hk & _ & Hn) i Hi. rewrite Hn in Hi.
  destruct (k <? length (packets m))%nat eqn:Hlt; [|discriminate].
  injection Hi as <-. apply Nat.ltb_lt in Hlt. exact Hlt.
Qed.

Section SenderKeeps.

Variable K : homa_impl_h.
Variable E : externals.
Variable rpc : nat.

(** One pass of the loop of [homa_xmit_data]. *)
Lemma xmit_data_body_keeps w w' :
  message_linked (msgout (w_rpcs w rpc)) ->
  xmit_data_cond rpc w = true ->
  xmit_data_body K E rpc w = Some (false, w') ->
  sender_keeps rpc w w'.
Proof.
  intros Hl Hc Hb.
  destruct (xmit_data_cond_true rpc w Hc) as [_ [i Hi]].
  pose proof (Hl i Hi) as Hlt.
  destruct (lookup_lt_is_Some_2 _ _ Hlt) as [skb Hskb].
  pose proof (xmit_data_body_pass K E rpc w w' i skb Hi Hskb Hb) as Hp.
  cbv zeta in Hp.
  destruct Hp as (_ & Hoth & Hid & Hpeer & (skb' & Hm & Hsh & Hns) & _).
  unfold sender_keeps. rewrite Hm.
  cbn [packets msg_length unscheduled granted sched_priority set_packets
       set_next].
  split.
  { apply (same_data_insert _ _ skb); [exact Hskb|].
    destruct (skb_shared skb) eqn:Hs.
    - rewrite (Hsh eq_refl). apply same_data_refl.
    - destruct (Hns eq_refl) as (Hh & _ & Hpay).
      unfold same_data. rewrite Hh, Hpay. repeat split. }
  repeat split; assumption.
Qed.

Lemma homa_xmit_data_keeps w :
  message_linked (msgout (w_rpcs w rpc)) ->
  exists w',
    homa_xmit_data K E rpc w = Some w' /\
    sender_keeps rpc w w' /\
    message_linked (msgout (w_rpcs w' rpc)).
Proof.
  intros Hl.
  destruct (homa_xmit_data_exits K E rpc w Hl) as (ex & w' & Hex & Hrun & _).
  exists w'. split; [exact Hrun|].
  unfold homa_xmit_data_exit in Hex.
  destruct (xmit_data_loop_invariant K E rpc
              (fun w1 => message_linked (msgout (w_rpcs w1 rpc)) /\
                         sender_keeps rpc w w1))
    with (fuel := length (packets (msgout (w_rpcs w rpc))))
         (w := w) (ex := ex) (w' := w') as (wl & [Hll Hkl] & Hcase).
  - intros w1 w2 [Hl1 Hk1] Hc Hb. split.
    + exact (proj1 (xmit_data_body_linked K E rpc w1 w2 Hl1 Hc Hb)).
    + exact (sender_keeps_trans _ _ _ _ Hk1
               (xmit_data_body_keeps w1 w2 Hl1 Hc Hb)).
  - split; [exact Hl | apply sender_keeps_refl].
  - exact Hex.
  - destruct ex.
    + destruct Hcase as [-> _]. split; assumption.
    + destruct Hcase as [_ Hb].
      apply xmit_data_body_throttled in Hb as [_ ->].
      destruct (xmit_data_throttle_frame K E rpc wl) as (_ & Hr & _).
      cbv zeta in Hr.
      assert (Hrs : w_rpcs (homa_add_to_throttled rpc
                              (snd (xmit_data_throttle K E rpc wl)))
                    = w_rpcs wl)
        by (rewrite homa_add_to_throttled_rpcs; exact Hr).
      unfold sender_keeps in *. rewrite Hrs. split; assumption.
Qed.

Variables start end_ priority : Z.

Lemma resend_data_loop_keeps fuel :
  forall cur w w',
    resend_data_loop K E fuel rpc start end_ priority cur w = Some w' ->
    sender_keeps rpc w w'.
Proof.
  induction fuel as [|fuel IH]; intros cur w w' Hrun;
    destruct cur as [i|]; simpl in Hrun;
    try (injection Hrun as <-; apply sender_keeps_refl);
    try discriminate.
  destruct (packets (msgout (w_rpcs w rpc)) !! i) as [skb|] eqn:Hskb;
    [|discriminate].
  destruct (s32 (s32 (ntohl (h_offset (hdr skb))) + HOMA_MAX_DATA_PER_PACKET)
            <=? start).
  { exact (IH _ _ _ Hrun). }
  destruct (s32 (ntohl (h_offset (hdr skb))) >=? end_).
  { injection Hrun as <-. apply sender_keeps_refl. }
  destruct (skb_shared skb).
  { exact (IH _ _ _ Hrun). }
  change (set_priority (skb_set_hdr (set_retransmit 1 (hdr skb)) skb) priority)
    with (resend_tagged skb priority) in Hrun.
  destruct (__homa_xmit_data K E (resend_tagged skb priority) (w_rpcs w rpc) w)
    as [skb3 w1] eqn:Hlow.
  apply IH in Hrun.
  set (w3 := w_set_metrics _ _) in Hrun.
  refine (sender_keeps_trans _ _ _ _ _ Hrun).
  assert (Hfr3 : resend_frame rpc w w3 /\
                 packets (msgout (w_rpcs w3 rpc))
                 = <[i := skb3]> (packets (msgout (w_rpcs w rpc)))).
  { destruct (resend_send_frame K E rpc priority w i skb skb3 w1 Hskb Hlow)
      as (Hfr & Hpk & _ & _).
    split; [exact Hfr | exact Hpk]. }
  destruct Hfr3 as [Hfr Hpk].
  destruct Hfr as (Hoth & Hid & Hpeer & Hm & _).
  unfold sender_keeps. rewrite Hpk. rewrite Hm.
  cbn [msg_length unscheduled granted sched_priority set_packets].
  split.
  { apply (same_data_insert _ _ skb); [exact Hskb|].
    assert (Hs : skb3 = fst (__homa_xmit_data K E (resend_tagged skb priority)
                               (w_rpcs w rpc) w)) by (rewrite Hlow; reflexivity).
    rewrite Hs. apply homa_xmit_data_low_same_data; [reflexivity|].
    exists 1. reflexivity. }
  repeat split; assumption.
Qed.

End SenderKeeps.

(** X6.  [homa_xmit_data] never alters what a buffer carries: after the
    call every buffer of the message has the payload, ports, id, type,
    message length, offset and unscheduled limit it had before, the
    message keeps its length, grant and priorities, and the other RPCs
    are untouched; so the buffers are still in offset order and
    [next_packet] still points into the list. *)
Theorem xmit_data_keeps_data :
  forall K E rpc w,
    let m := msgout (w_rpcs w rpc) in
    message_linked m ->
    exists w',
      homa_xmit_data K E rpc w = Some w' /\
      let m' := msgout (w_rpcs w' rpc) in
      Forall2 same_data (packets m) (packets m') /\
      msg_length m' = msg_length m /\ unscheduled m' = unscheduled m /\
      granted m' = granted m /\ sched_priority m' = sched_priority m /\
      (forall a, a <> rpc -> w_rpcs w' a = w_rpcs w a) /\
      message_linked m' /\
      payload_total (packets m') = payload_total (packets m) /\
      (packets_in_order (packets m) -> packets_in_order (packets m')).
Proof.
  intros K E rpc w m Hl.
  destruct (homa_xmit_data_keeps K E rpc w Hl) as (w' & Hrun & Hk & Hl').
  exists w'. split; [exact Hrun|]. cbv zeta.
  destruct Hk as (Hs & H1 & H2 & H3 & H4 & _ & _ & Hoth).
  split; [exact Hs|].
  repeat (split; [assumption|]).
  split; [exact (same_data_payload_total _ _ Hs)|].
  exact (same_data_in_order _ _ Hs).
Qed.

Lemma xmit_data_keeps_data_witness :
  let w := unit_world unit_homa [unit_rpc 0 0; unit_rpc 1 6000] in
  message_linked (msgout (w_rpcs w 1%nat)) /\
  exists w',
    homa_xmit_data unit_impl (unit_externals 10000) 1 w = Some w' /\
    Forall2 same_data (packets (msgout (w_rpcs w 1%nat)))
      (packets (msgout (w_rpcs w' 1%nat))).
Proof.
  cbv zeta.
  set (w := unit_world unit_homa [unit_rpc 0 0; unit_rpc 1 6000]).
  assert (Hm : next_packet (msgout (w_rpcs w 1%nat)) = Some 0%nat /\
               length (packets (msgout (w_rpcs w 1%nat))) = 5%nat)
    by (split; vm_compute; reflexivity).
  assert (Hl : message_linked (msgout (w_rpcs w 1%nat))).
  { intros i Hi. destruct Hm as [Hn Hlen]. rewrite Hn in Hi.
    injection Hi as <-. rewrite Hlen. lia. }
  split; [exact Hl|].
  destruct (xmit_data_keeps_data unit_impl (unit_externals 10000) 1%nat w Hl)
    as (w' & Hrun & Hs & _).
  exists w'. split; [exact Hrun | exact Hs].
Defined.

(** X7.  [homa_resend_data] never alters what a buffer carries either:
    whatever the range and the priority, every buffer keeps its payload,
    ports, id, type, message length, offset and unscheduled limit, the
    message keeps its position ([next_packet], [next_offset]), length,
    grant and priorities, and the other RPCs are untouched. *)
Theorem resend_data_keeps_data :
  forall K E rpc start end_ priority w,
    let m := msgout (w_rpcs w rpc) in
    exists w',
      homa_resend_data K E rpc start end_ priority w = Some w' /\
      let m' := msgout (w_rpcs w' rpc) in
      Forall2 same_data (packets m) (packets m') /\
      m' = set_packets (packets m') m /\
      (forall a, a <> rpc -> w_rpcs w' a = w_rpcs w a) /\
      payload_total (packets m') = payload_total (packets m) /\
      (packets_in_order (packets m) -> packets_in_order (packets m')).
Proof.
  intros K E rpc start end_ priority w m.
  destruct (homa_resend_data_frame K E rpc start end_ priority w)
    as (w' & Hrun & Hfr).
  exists w'. split; [exact Hrun|]. cbv zeta.
  unfold homa_resend_data in Hrun.
  apply resend_data_loop_keeps in Hrun.
  destruct Hrun as (Hs & _).
  destruct Hfr as (Hoth & _ & _ & Hm & _).
  split; [exact Hs|].
  split; [exact Hm|].
  split; [exact Hoth|].
  split; [exact (same_data_payload_total _ _ Hs)|].
  exact (same_data_in_order _ _ Hs).
Qed.

(** ** [homa_xmit_data]: order of the packets, repeated calls *)

Lemma omap_length_le {A B} (f : A -> option B) (l : list A) :
  (length (omap f l) <= length l)%nat.
Proof.
  induction l as [|a l IH]; simpl; [lia|].
  change (list_omap A B f l) with (omap f l).
  destruct (f a); simpl; lia.
Qed.

Section WireOrder.

Variable E : externals.
Variable r : homa_rpc.
Variable pkts : list sk_buff.
Hypothesis Hoff :
  forall (i : nat) skb,
    pkts !! i = Some skb ->
    ntohl (h_offset (hdr skb)) = HOMA_MAX_DATA_PER_PACKET * Z.of_nat i.

Lemma xmit_wire_entry_offset i s :
  xmit_wire_entry E r pkts i = Some s ->
  wire_offset s = HOMA_MAX_DATA_PER_PACKET * Z.of_nat i.
Proof.
  unfold xmit_wire_entry. destruct (pkts !! i) as [skb|] eqn:Hi; [|discriminate].
  destruct (skb_shared skb); [discriminate|]. intros H. injection H as <-.
  unfold wire_offset.
  destruct (xmit_wire_form_fields E r i skb) as (Ho & _). cbv zeta in Ho.
  rewrite Ho. exact (Hoff i skb Hi).
Qed.

(** The packets of a run carry strictly increasing offsets. *)
Lemma xmit_wire_sorted n :
  forall k,
    StronglySorted Z.lt
      (map wire_offset (omap (xmit_wire_entry E r pkts) (seq k n))) /\
    Forall (fun x => HOMA_MAX_DATA_PER_PACKET * Z.of_nat k <= x
                     < HOMA_MAX_DATA_PER_PACKET * Z.of_nat (k + n))
      (map wire_offset (omap (xmit_wire_entry E r pkts) (seq k n))).
Proof.
  induction n as [|n IH]; intros k; simpl.
  - split; constructor.
  - destruct (IH (S k)) as [Hs Hf].
    assert (Hf' : Forall
                    (fun x => HOMA_MAX_DATA_PER_PACKET * Z.of_nat k < x
                              < HOMA_MAX_DATA_PER_PACKET * Z.of_nat (k + S n))
                    (map wire_offset
                       (omap (xmit_wire_entry E r pkts) (seq (S k) n)))).
    { eapply Forall_impl; [exact Hf|]. cbv beta. intros x Hx.
      unfold HOMA_MAX_DATA_PER_PACKET in *. lia. }
    destruct (xmit_wire_entry E r pkts k) as [s|] eqn:Hk; simpl.
    + rewrite (xmit_wire_entry_offset k s Hk). split.
      * constructor; [exact Hs|].
        eapply Forall_impl; [exact Hf'|]. cbv beta. intros x Hx. lia.
      * constructor.
        { unfold HOMA_MAX_DATA_PER_PACKET. lia. }
        eapply Forall_impl; [exact Hf'|]. cbv beta. intros x Hx. lia.
    + split; [exact Hs|].
      eapply Forall_impl; [exact Hf'|]. cbv beta. intros x Hx. lia.
Qed.

End WireOrder.

(** X8.  [homa_message_out_reset] after [homa_xmit_data] puts the
    message back at its first buffer, however far the transmission got:
    [next_offset] is 0, [next_packet] is the head of the list, the grant
    is the smaller of [unscheduled] and the length, and the buffers still
    carry the data they carried before the transmission. *)
Theorem reset_after_xmit_data :
  forall K E rpc w,
    let m := msgout (w_rpcs w rpc) in
    message_linked m ->
    exists w',
      homa_xmit_data K E rpc w = Some w' /\
      let m' := homa_message_out_reset (msgout (w_rpcs w' rpc)) in
      message_at m' 0 /\
      granted m' = Z.min (unscheduled m) (msg_length m) /\
      msg_length m' = msg_length m /\
      Forall2 same_data (packets m) (packets m') /\
      (packets_in_order (packets m) -> packets_in_order (packets m')).
Proof.
  intros K E rpc w m Hl. subst m.
  destruct (homa_xmit_data_keeps K E rpc w Hl) as (w' & Hrun & Hk & _).
  exists w'. split; [exact Hrun|]. cbv zeta.
  destruct Hk as (Hs & H1 & H2 & _).
  destruct (homa_message_out_reset_rewinds (msgout (w_rpcs w' rpc)))
    as (R1 & R2 & R3 & R4 & _).
  cbv zeta in R1, R2, R3, R4.
  split.
  { unfold message_at. rewrite R1, R2, R4. split; [lia|].
    split; [reflexivity|]. apply packets_head_index. }
  split. { rewrite R3, H1, H2. reflexivity. }
  split.
  { rewrite <- H1. unfold homa_message_out_reset. cbn.
    destruct (_ >? _); reflexivity. }
  rewrite R4. split; [exact Hs|].
  exact (same_data_in_order _ _ Hs).
Qed.

Lemma reset_after_xmit_data_witness :
  let w := unit_world unit_homa [unit_rpc 0 0; unit_rpc 1 6000] in
  message_linked (msgout (w_rpcs w 1%nat)) /\
  exists w',
    homa_xmit_data unit_impl (unit_externals 10000) 1 w = Some w' /\
    message_at (homa_message_out_reset (msgout (w_rpcs w' 1%nat))) 0.
Proof.
  cbv zeta.
  set (w := unit_world unit_homa [unit_rpc 0 0; unit_rpc 1 6000]).
  assert (Hm : next_packet (msgout (w_rpcs w 1%nat)) = Some 0%nat /\
               length (packets (msgout (w_rpcs w 1%nat))) = 5%nat)
    by (split; vm_compute; reflexivity).
  assert (Hl : message_linked (msgout (w_rpcs w 1%nat))).
  { intros i Hi. destruct Hm as [Hn Hlen]. rewrite Hn in Hi.
    injection Hi as <-. rewrite Hlen. lia. }
  split; [exact Hl|].
  destruct (reset_after_xmit_data unit_impl (unit_externals 10000) 1%nat w Hl)
    as (w' & Hrun & Hat & _).
  exists w'. split; [exact Hrun | exact Hat].
Defined.

(** X9.  One call of [homa_xmit_data] sends its packets in strictly
    increasing offset order, so none goes out twice, and every offset
    lies between the [next_offset] of the call and the grant. *)
Theorem xmit_data_sends_in_order :
  forall K E rpc w k,
    let m := msgout (w_rpcs w rpc) in
    packets_in_order (packets m) ->
    message_at m k ->
    exists w' sent,
      homa_xmit_data K E rpc w = Some w' /\
      w_wire w' = w_wire w ++ sent /\
      StronglySorted Z.lt (map wire_offset sent) /\
      Forall (fun x => next_offset m <= x < granted m)
        (map wire_offset sent) /\
      (length sent <= length (packets m) - k)%nat.
Proof.
  intros K E rpc w k m [Hbound Hoff] Hat.
  destruct (homa_xmit_data_run K E rpc w k Hbound Hat)
    as (ex & w' & wl & j & Hrun & Hp & Hex).
  exists w', (xmit_wire E (w_rpcs w rpc) (packets m) k j).
  unfold homa_xmit_data. rewrite Hrun. split; [reflexivity|].
  unfold xmit_progress in Hp. cbv zeta in Hp.
  destruct Hp as (Hk & (Hj & _) & _ & _ & Hlp & _ & _ & _ & Hwire & Hgr).
  fold m in Hlp, Hwire, Hgr.
  split.
  { destruct ex.
    - destruct Hex as [-> _]. exact Hwire.
    - destruct Hex as (_ & _ & ->).
      pose proof (xmit_data_throttle_frame K E rpc wl) as Hfr.
      cbv zeta in Hfr. destruct Hfr as (_ & _ & Hw & _).
      unfold homa_add_to_throttled. destruct (bool_decide _); cbn;
        rewrite Hw; exact Hwire. }
  destruct (xmit_wire_sorted E (w_rpcs w rpc) (packets m) Hoff (j - k) k)
    as [Hs Hf].
  split; [exact Hs|].
  split.
  - apply Forall_forall. intros x Hx.
    apply list_elem_of_fmap in Hx as (s & -> & Hs').
    apply xmit_wire_elem in Hs' as (i & skb & Hi & Hlk & _ & ->).
    unfold wire_offset.
    destruct (xmit_wire_form_fields E (w_rpcs w rpc) i skb) as (Ho & _).
    cbv zeta in Ho. rewrite Ho, (Hoff i skb Hlk).
    destruct Hat as (_ & Hno & _). fold m in Hno. rewrite Hno.
    pose proof (Hgr i Hi). unfold HOMA_MAX_DATA_PER_PACKET in *. lia.
  - unfold xmit_wire.
    pose proof (omap_length_le (xmit_wire_entry E (w_rpcs w rpc) (packets m))
                  (seq k (j - k))) as Hle.
    rewrite length_seq in Hle. lia.
Qed.

Lemma xmit_data_sends_in_order_witness :
  let w := unit_world unit_homa [unit_rpc 0 0; unit_rpc 1 6000] in
  packets_in_order (packets (msgout (w_rpcs w 1%nat))) /\
  message_at (msgout (w_rpcs w 1%nat)) 0 /\
  exists w' sent,
    homa_xmit_data unit_impl (unit_externals 10000) 1 w = Some w' /\
    w_wire w' = w_wire w ++ sent /\
    StronglySorted Z.lt (map wire_offset sent).
Proof.
  cbv zeta.
  assert (Hr : 0 <= 6000 <= 1000000) by lia.
  destruct (unit_rpc_in_order 1 6000 Hr) as (Ho & Hat & _).
  change (msgout (unit_rpc 1 6000))
    with (msgout (w_rpcs (unit_world unit_homa [unit_rpc 0 0; unit_rpc 1 6000])
                    1%nat)) in Ho, Hat.
  split; [exact Ho|]. split; [exact Hat|].
  destruct (xmit_data_sends_in_order unit_impl (unit_externals 10000) 1%nat
              _ 0%nat Ho Hat) as (w' & sent & Hrun & Hw & Hs & _).
  exists w', sent. repeat (split; [assumption|]). exact Hs.
Defined.

(** ** [__homa_xmit_data]: references, counters and the link clock *)

Lemma homa_xmit_data_low_metrics K E skb r w :
  let w' := snd (__homa_xmit_data K E skb r w) in
  let o := ip_queue_xmit E (length (w_wire w)) in
  w_metrics w'
  = mk_homa_metrics (packets_sent_data (w_metrics w) + 1)
      (data_xmit_errors (w_metrics w) + (if ip_err o =? 0 then 0 else 1))
      (resent_packets (w_metrics w)) /\
  w_clock w' = S (w_clock w).
Proof.
  unfold __homa_xmit_data.
  destruct (ip_err (ip_queue_xmit E (length (w_wire w))) =? 0); cbn [negb].
  - cbn. rewrite Z.add_0_r. split; reflexivity.
  - destruct (users _ >? 1); cbn; split; reflexivity.
Qed.

Lemma homa_xmit_data_low_users K E skb r w :
  users skb = 1 ->
  let o := ip_queue_xmit E (length (w_wire w)) in
  users (fst (__homa_xmit_data K E skb r w))
  = if (ip_err o =? 0) && negb (ip_consumed o) then 2 else 1.
Proof.
  intros Hu. cbv zeta. unfold __homa_xmit_data.
  set (o := ip_queue_xmit E (length (w_wire w))).
  assert (Hp : users (xmit_prepare skb r) = 2).
  { unfold xmit_prepare.
    repeat match goal with |- context [if ?c then _ else _] => destruct c end;
      cbn; lia. }
  assert (Hl : users (ip_leaves o (xmit_prepare skb r))
               = if ip_consumed o then 1 else 2).
  { unfold ip_leaves.
    destruct (ip_consumed o), (ip_dst_released o); cbn; lia. }
  destruct (ip_err o =? 0); cbn [negb andb].
  - cbn [fst]. rewrite Hl. destruct (ip_consumed o); reflexivity.
  - destruct (users (ip_leaves o (xmit_prepare skb r)) >? 1) eqn:Hgt;
      cbn [fst skb_set_users users]; rewrite Hl in *;
      destruct (ip_consumed o); cbn in Hgt; try discriminate; reflexivity.
Qed.

(** The ranges of [homa_update_idle_time] depend on the transport and
    the clock only. *)
Lemma idle_update_in_range_same K E bytes w w' :
  w_homa w' = w_homa w -> w_clock w' = w_clock w ->
  idle_update_in_range K E bytes w -> idle_update_in_range K E bytes w'.
Proof.
  intros Hh Hc. unfold idle_update_in_range. rewrite Hh, Hc. exact id.
Qed.

Lemma homa_xmit_data_low_idle K E skb r w :
  idle_update_in_range K E (sizeof_data_header K + payload skb) w ->
  let h := w_homa w in
  link_idle_time (w_homa (snd (__homa_xmit_data K E skb r w)))
  = Z.max (link_idle_time h) (get_cycles_at E (w_clock w))
    + (sizeof_data_header K + payload skb
       + (HOMA_MAX_IPV4_HEADER K + HOMA_VLAN_HEADER K + HOMA_ETH_OVERHEAD K))
      * cycles_per_kbyte h / 1000.
Proof.
  intros Hr. cbv zeta.
  destruct (homa_xmit_data_low_frame K E skb r w)
    as (_ & _ & _ & _ & _ & _ & Hpay).
  cbv zeta in Hpay. revert Hpay.
  unfold __homa_xmit_data.
  set (o := ip_queue_xmit E (length (w_wire w))).
  set (w1 := mk_world (w_homa w) (w_rpcs w) (w_clock w) _ (w_metrics w)
               (w_wakeups w)).
  destruct (negb (ip_err o =? 0)).
  - destruct (users (ip_leaves o (xmit_prepare skb r)) >? 1);
      cbn [fst snd]; intros Hpay; rewrite Hpay;
      match goal with
      | |- context [homa_update_idle_time K E ?b ?v] =>
        destruct (homa_update_idle_time_exact K E b v) as [He _];
          [apply (idle_update_in_range_same K E b w v);
           [reflexivity | reflexivity | exact Hr] |]
      end; cbv zeta in He; exact He.
  - cbn [fst snd]; intros Hpay; rewrite Hpay.
    destruct (homa_update_idle_time_exact K E
                (sizeof_data_header K + payload skb) w1) as [He _];
      [apply (idle_update_in_range_same K E _ w w1);
       [reflexivity | reflexivity | exact Hr] |].
    cbv zeta in He. exact He.
Qed.

(** X11.  [__homa_xmit_data] balances the references of a buffer that
    was not shared: after a failed transmission the sender is its only
    holder again, and after a successful one the buffer is shared exactly
    as long as IP has not dropped its reference.  Every call puts one
    packet on the wire log, counts it in [packets_sent], counts it in
    [data_xmit_errors] exactly when IP returned an error, and reads the
    clock once. *)
Theorem xmit_data_low_accounting :
  forall K E skb r w,
    users skb = 1 ->
    let o := ip_queue_xmit E (length (w_wire w)) in
    let skb' := fst (__homa_xmit_data K E skb r w) in
    let w' := snd (__homa_xmit_data K E skb r w) in
    (skb_shared skb' = true <-> ip_err o = 0 /\ ip_consumed o = false) /\
    (ip_err o <> 0 -> users skb' = 1) /\
    w_wire w' = w_wire w ++ [xmit_prepare skb r] /\
    packets_sent_data (w_metrics w')
    = packets_sent_data (w_metrics w) + 1 /\
    data_xmit_errors (w_metrics w')
    = data_xmit_errors (w_metrics w) + (if ip_err o =? 0 then 0 else 1) /\
    resent_packets (w_metrics w') = resent_packets (w_metrics w) /\
    w_clock w' = S (w_clock w).
Proof.
  intros K E skb r w Hu. cbv zeta.
  pose proof (homa_xmit_data_low_users K E skb r w Hu) as Hus.
  cbv zeta in Hus.
  destruct (homa_xmit_data_low_metrics K E skb r w) as [Hm Hc].
  cbv zeta in Hm, Hc.
  destruct (homa_xmit_data_low_frame K E skb r w) as (_ & Hw & _).
  cbv zeta in Hw.
  split.
  { unfold skb_shared. rewrite Hus.
    destruct (ip_err _ =? 0) eqn:He; destruct (ip_consumed _); cbn;
      split; try discriminate; try (intros [? ?]; try discriminate; lia);
      intros _; split; [lia | reflexivity]. }
  split.
  { intros Hne. rewrite Hus.
    destruct (ip_err _ =? 0) eqn:He; [lia | reflexivity]. }
  split; [exact Hw|].
  rewrite Hm. cbn. repeat split. exact Hc.
Qed.

Lemma xmit_data_low_accounting_witness :
  let E := mk_externals (fun _ => 10000) (fun _ => true) (fun _ => 0)
             (fun _ => mk_ip_outcome (- EINVAL) false false 0)
             (fun _ _ => 6) in
  let skb := mk_sk_buff (mk_data_header 0 0 1 DATA 0 0 0 0 0) 1400 1 0 0
               false 0 in
  let w := unit_world unit_homa [unit_rpc 0 0] in
  users skb = 1 /\
  ip_err (ip_queue_xmit E (length (w_wire w))) <> 0 /\
  users (fst (__homa_xmit_data unit_impl E skb (unit_rpc 0 0) w)) = 1.
Proof.
  cbv zeta.
  set (E := mk_externals (fun _ => 10000) (fun _ => true) (fun _ => 0)
              (fun _ => mk_ip_outcome (- EINVAL) false false 0)
              (fun _ _ => 6)).
  set (skb := mk_sk_buff (mk_data_header 0 0 1 DATA 0 0 0 0 0) 1400 1 0 0
                false 0).
  set (w := unit_world unit_homa [unit_rpc 0 0]).
  assert (Hu : users skb = 1) by reflexivity.
  assert (He : ip_err (ip_queue_xmit E (length (w_wire w))) <> 0)
    by discriminate.
  split; [exact Hu|]. split; [exact He|].
  exact (proj1 (proj2 (xmit_data_low_accounting unit_impl E skb (unit_rpc 0 0)
                         w Hu)) He).
Defined.

(** X12.  [__homa_xmit_data] charges every packet to the link clock,
    whether IP accepted it or not: [link_idle_time] moves to the later of
    its old value and the clock reading, plus the cycles for the data
    header, the payload and the link overhead of this very buffer. *)
Theorem xmit_data_low_charges_link :
  forall K E skb r w,
    idle_update_in_range K E (sizeof_data_header K + payload skb) w ->
    let h := w_homa w in
    let w' := snd (__homa_xmit_data K E skb r w) in
    link_idle_time (w_homa w')
    = Z.max (link_idle_time h) (get_cycles_at E (w_clock w))
      + (sizeof_data_header K + payload skb
         + (HOMA_MAX_IPV4_HEADER K + HOMA_VLAN_HEADER K
            + HOMA_ETH_OVERHEAD K))
        * cycles_per_kbyte h / 1000 /\
    link_idle_time h <= link_idle_time (w_homa w') /\
    w_homa w' = set_link_idle_time (link_idle_time (w_homa w')) h.
Proof.
  intros K E skb r w Hr. cbv zeta.
  pose proof (homa_xmit_data_low_idle K E skb r w Hr) as Hi. cbv zeta in Hi.
  destruct (homa_xmit_data_low_frame K E skb r w) as (_ & _ & Hh & _).
  cbv zeta in Hh.
  split; [exact Hi|]. split; [|exact Hh].
  rewrite Hi.
  destruct Hr as (H1 & H2 & H3 & H4 & H5 & H6).
  assert (0 <= (sizeof_data_header K + payload skb
                + (HOMA_MAX_IPV4_HEADER K + HOMA_VLAN_HEADER K
                   + HOMA_ETH_OVERHEAD K))
               * cycles_per_kbyte (w_homa w) / 1000).
  { apply Z.div_pos; [|lia]. apply Z.mul_nonneg_nonneg; lia. }
  lia.
Qed.

Lemma xmit_data_low_charges_link_witness :
  let E := mk_externals (fun _ => 10000) (fun _ => true) (fun _ => 0)
             (fun _ => mk_ip_outcome (- EINVAL) false false 0)
             (fun _ _ => 6) in
  let skb := mk_sk_buff (mk_data_header 0 0 1 DATA 0 0 0 0 0) 1400 1 0 0
               false 0 in
  let w := unit_world unit_homa [unit_rpc 0 0] in
  idle_update_in_range unit_impl E (sizeof_data_header unit_impl + payload skb)
    w /\
  link_idle_time
    (w_homa (snd (__homa_xmit_data unit_impl E skb (unit_rpc 0 0) w)))
  = Z.max (link_idle_time (w_homa w)) (get_cycles_at E (w_clock w))
    + (sizeof_data_header unit_impl + payload skb
       + (HOMA_MAX_IPV4_HEADER unit_impl + HOMA_VLAN_HEADER unit_impl
          + HOMA_ETH_OVERHEAD unit_impl))
      * cycles_per_kbyte (w_homa w) / 1000.
Proof.
  cbv zeta.
  set (E := mk_externals (fun _ => 10000) (fun _ => true) (fun _ => 0)
              (fun _ => mk_ip_outcome (- EINVAL) false false 0)
              (fun _ _ => 6)).
  set (skb := mk_sk_buff (mk_data_header 0 0 1 DATA 0 0 0 0 0) 1400 1 0 0
                false 0).
  set (w := unit_world unit_homa [unit_rpc 0 0]).
  assert (Hr : idle_update_in_range unit_impl E
                 (sizeof_data_header unit_impl + payload skb) w)
    by eval_ranges.
  split; [exact Hr|].
  exact (proj1 (xmit_data_low_charges_link unit_impl E skb (unit_rpc 0 0) w
                  Hr)).
Defined.

(** ** [homa_xmit_data]: repeated calls *)

Section XmitClock.

Variable K : homa_impl_h.
Variable E : externals.
Variable rpc : nat.

(** The first conjunct of the throttle test: more bytes are left than
    [throttle_min_bytes].  The clock is read exactly then. *)
Lemma xmit_data_throttle_clock w :
  let m := msgout (w_rpcs w rpc) in
  let big := s32 (msg_length m - next_offset m)
             >? throttle_min_bytes (w_homa w) in
  w_clock (snd (xmit_data_throttle K E rpc w))
  = (if big then S (w_clock w) else w_clock w) /\
  (fst (xmit_data_throttle K E rpc w) = true -> big = true).
Proof.
  cbv zeta. unfold xmit_data_throttle.
  destruct (_ >? throttle_min_bytes (w_homa w)).
  - unfold get_cycles. destruct (_ <? _); cbn; split; reflexivity.
  - cbn. split; [reflexivity | discriminate].
Qed.

(** No pass of the loop turns the count of clock readings back, and a
    pass for a message with more than [throttle_min_bytes] left reads
    the clock. *)
Lemma xmit_data_body_clock w t w' :
  xmit_data_body K E rpc w = Some (t, w') ->
  let m := msgout (w_rpcs w rpc) in
  (w_clock w <= w_clock w')%nat /\
  ((s32 (msg_length m - next_offset m) >? throttle_min_bytes (w_homa w))
   = true -> (w_clock w < w_clock w')%nat).
Proof.
  unfold xmit_data_body.
  destruct (next_packet (msgout (w_rpcs w rpc))) as [i|]; [|discriminate].
  destruct (packets (msgout (w_rpcs w rpc)) !! i) as [skb|]; [|discriminate].
  destruct (xmit_data_throttle_clock w) as [Hc _]. cbv zeta in Hc.
  destruct (xmit_data_throttle K E rpc w) as [t1 w1]. cbn [snd] in Hc.
  assert (Hgoal : forall v, (w_clock w1 <= w_clock v)%nat ->
             (w_clock w <= w_clock v)%nat /\
             ((s32 (msg_length (msgout (w_rpcs w rpc))
                    - next_offset (msgout (w_rpcs w rpc)))
               >? throttle_min_bytes (w_homa w)) = true ->
              (w_clock w < w_clock v)%nat)).
  { intros v Hv. rewrite Hc in Hv.
    destruct (_ >? throttle_min_bytes (w_homa w)).
    - split; [lia|]. intros _. lia.
    - split; [lia | discriminate]. }
  destruct t1.
  - intros H. injection H as <- <-. cbv zeta. apply Hgoal.
    unfold homa_add_to_throttled. destruct (bool_decide _); cbn; lia.
  - destruct (skb_shared skb).
    + intros H. injection H as <- <-. cbv zeta. apply Hgoal. cbn. lia.
    + match goal with
      | |- context [__homa_xmit_data K E ?s ?r ?v] =>
        pose proof (homa_xmit_data_low_metrics K E s r v) as Hmt
      end.
      cbv zeta in Hmt. destruct Hmt as [_ Hclk].
      destruct (__homa_xmit_data K E _ _ _) as [skb3 w3].
      cbn [snd] in Hclk.
      intros H. injection H as <- <-. cbv zeta. apply Hgoal.
      cbn. rewrite Hclk. cbn. lia.
Qed.

Lemma xmit_data_loop_clock fuel :
  forall w ex w',
    xmit_data_loop K E fuel rpc w = Some (ex, w') ->
    (w_clock w <= w_clock w')%nat.
Proof.
  induction fuel as [|fuel IH]; intros w ex w'; cbn [xmit_data_loop];
    destruct (xmit_data_cond rpc w); try discriminate;
    try (intros H; injection H as _ <-; lia).
  destruct (xmit_data_body K E rpc w) as [[t w1]|] eqn:Hb; [|discriminate].
  destruct (xmit_data_body_clock w t w1 Hb) as [Hle _].
  destruct t.
  - intros H. injection H as _ <-. exact Hle.
  - intros H. apply IH in H. lia.
Qed.

(** A call that was throttled reads the clock again when it is
    repeated. *)
Lemma homa_xmit_data_throttled_again wl w' :
  message_linked (msgout (w_rpcs wl rpc)) ->
  xmit_data_cond rpc wl = true ->
  xmit_data_body K E rpc wl = Some (true, w') ->
  exists w'',
    homa_xmit_data K E rpc w' = Some w'' /\ (w_clock w' < w_clock w'')%nat.
Proof.
  intros Hl Hc Hb.
  apply xmit_data_body_throttled in Hb as [Ht ->].
  destruct (xmit_data_throttle_clock wl) as [_ Hbig]. cbv zeta in Hbig.
  specialize (Hbig Ht).
  destruct (xmit_data_throttle_frame K E rpc wl) as (Hh & Hr & _).
  cbv zeta in Hh, Hr.
  set (w' := homa_add_to_throttled rpc (snd (xmit_data_throttle K E rpc wl))).
  assert (Hrs : w_rpcs w' = w_rpcs wl).
  { unfold w'. rewrite homa_add_to_throttled_rpcs. exact Hr. }
  assert (Hmin : throttle_min_bytes (w_homa w') = throttle_min_bytes (w_homa wl)).
  { unfold w', homa_add_to_throttled. destruct (bool_decide _); cbn;
      rewrite Hh; reflexivity. }
  assert (Hl' : message_linked (msgout (w_rpcs w' rpc)))
    by (rewrite Hrs; exact Hl).
  assert (Hc' : xmit_data_cond rpc w' = true).
  { unfold xmit_data_cond in *. rewrite Hrs. exact Hc. }
  destruct (homa_xmit_data_exits K E rpc w' Hl')
    as (ex2 & w'' & Hex & Hrun & _).
  exists w''. split; [exact Hrun|].
  destruct (xmit_data_body_defined K E rpc w' Hl' Hc') as (t & w1 & Hb1).
  destruct (xmit_data_body_clock w' t w1 Hb1) as [_ Hlt]. cbv zeta in Hlt.
  rewrite Hrs, Hmin in Hlt. specialize (Hlt Hbig).
  unfold homa_xmit_data_exit in Hex.
  destruct (length (packets (msgout (w_rpcs w' rpc)))) as [|len].
  { cbn [xmit_data_loop] in Hex. rewrite Hc' in Hex. discriminate. }
  cbn [xmit_data_loop] in Hex. rewrite Hc', Hb1 in Hex.
  destruct t.
  - injection Hex as _ <-. exact Hlt.
  - apply xmit_data_loop_clock in Hex. lia.
Qed.

End XmitClock.

(** X10.  A call of [homa_xmit_data] that ends because the condition of
    its loop is false, and not in the throttle branch, has done all there
    is to do: calling it again at once changes nothing, sends nothing and
    does not even read the clock, whether or not the RPC is on the
    throttled list.  That is how the call ends whenever the RPC is not on
    the throttled list afterwards, and the same holds for any message
    that is drained up to its grant.  A call that ends in the throttle
    branch is different: repeated, it reads the clock again. *)
Theorem xmit_data_again_is_noop :
  forall K E rpc w,
    let m := msgout (w_rpcs w rpc) in
    (message_drained m -> homa_xmit_data K E rpc w = Some w) /\
    (message_linked m ->
     exists ex w',
       homa_xmit_data_exit K E rpc w = Some (ex, w') /\
       homa_xmit_data K E rpc w = Some w' /\
       (ex = exit_condition -> homa_xmit_data K E rpc w' = Some w') /\
       (ex = exit_throttled ->
        exists w'',
          homa_xmit_data K E rpc w' = Some w'' /\
          (w_clock w' < w_clock w'')%nat) /\
       (rpc ∉ throttled_rpcs (w_homa w') -> ex = exit_condition)).
Proof.
  intros K E rpc w m.
  assert (Hnoop : forall w1, message_drained (msgout (w_rpcs w1 rpc)) ->
                             homa_xmit_data K E rpc w1 = Some w1).
  { intros w1 Hd. apply xmit_data_cond_false in Hd.
    unfold homa_xmit_data, homa_xmit_data_exit.
    destruct (length _); simpl; rewrite Hd; reflexivity. }
  split; [apply Hnoop|].
  intros Hl.
  destruct (homa_xmit_data_exits K E rpc w Hl) as (ex & w' & Hex & Hrun & Hcase).
  exists ex, w'. split; [exact Hex|]. split; [exact Hrun|].
  split; [|split].
  - intros ->. apply Hnoop. exact (proj1 Hcase).
  - intros ->. unfold homa_xmit_data_exit in Hex.
    destruct (xmit_data_loop_invariant K E rpc
                (fun w1 => message_linked (msgout (w_rpcs w1 rpc))))
      with (fuel := length (packets (msgout (w_rpcs w rpc))))
           (w := w) (ex := exit_throttled) (w' := w')
      as (wl & Hll & Hc & Hb).
    + intros w1 w2 Hl1 Hc Hb.
      exact (proj1 (xmit_data_body_linked K E rpc w1 w2 Hl1 Hc Hb)).
    + exact Hl.
    + exact Hex.
    + exact (homa_xmit_data_throttled_again K E rpc wl w' Hll Hc Hb).
  - intros Hnot. destruct ex; [reflexivity | contradiction].
Qed.

Lemma xmit_data_again_is_noop_witness :
  let w := unit_world unit_homa [unit_rpc 0 0; unit_rpc 1 6000] in
  message_linked (msgout (w_rpcs w 1%nat)) /\
  exists w',
    homa_xmit_data unit_impl (unit_externals 10000) 1 w = Some w' /\
    (1%nat ∉ throttled_rpcs (w_homa w')) /\
    homa_xmit_data unit_impl (unit_externals 10000) 1 w' = Some w'.
Proof.
  cbv zeta.
  set (w := unit_world unit_homa [unit_rpc 0 0; unit_rpc 1 6000]).
  assert (Hm : next_packet (msgout (w_rpcs w 1%nat)) = Some 0%nat /\
               length (packets (msgout (w_rpcs w 1%nat))) = 5%nat)
    by (split; vm_compute; reflexivity).
  assert (Hl : message_linked (msgout (w_rpcs w 1%nat))).
  { intros i Hi. destruct Hm as [Hn Hlen]. rewrite Hn in Hi.
    injection Hi as <-. rewrite Hlen. lia. }
  split; [exact Hl|].
  assert (Hrep : (fun v => throttled_rpcs (w_homa v))
                   <$> homa_xmit_data unit_impl (unit_externals 10000) 1 w
                 = Some []) by (vm_compute; reflexivity).
  destruct (proj2 (xmit_data_again_is_noop unit_impl (unit_externals 10000)
                     1%nat w) Hl) as (ex & w' & _ & Hrun & Hcond & _ & Hex).
  rewrite Hrun in Hrep. injection Hrep as Hlist.
  assert (Hnot : 1%nat ∉ throttled_rpcs (w_homa w')).
  { rewrite Hlist. apply not_elem_of_nil. }
  exists w'. split; [exact Hrun|]. split; [exact Hnot|].
  exact (Hcond (Hex Hnot)).
Defined.

(** ** The counters of the senders *)

Lemma metrics_count_refl E b w : metrics_count E b w w.
Proof.
  exists 0%nat. simpl. rewrite Nat.add_0_r, !Z.add_0_r.
  destruct b; rewrite ?Z.add_0_r; repeat split; reflexivity.
Qed.

Lemma metrics_count_same E b w0 w w' :
  metrics_count E b w0 w ->
  w_wire w' = w_wire w -> w_metrics w' = w_metrics w ->
  metrics_count E b w0 w'.
Proof.
  intros (n & H1 & H2 & H3 & H4) Hw Hm. exists n. rewrite Hw, Hm.
  repeat split; assumption.
Qed.

Lemma metrics_count_step E b w0 w w' :
  metrics_count E b w0 w ->
  length (w_wire w') = S (length (w_wire w)) ->
  packets_sent_data (w_metrics w') = packets_sent_data (w_metrics w) + 1 ->
  resent_packets (w_metrics w')
  = resent_packets (w_metrics w) + (if b then 1 else 0) ->
  data_xmit_errors (w_metrics w')
  = data_xmit_errors (w_metrics w)
    + (if ip_err (ip_queue_xmit E (length (w_wire w))) =? 0 then 0 else 1) ->
  metrics_count E b w0 w'.
Proof.
  intros (n & H1 & H2 & H3 & H4) Hw Hp Hr He. exists (S n).
  split; [lia|]. split; [lia|].
  split. { rewrite Hr, H3. destruct b; lia. }
  rewrite He, H4. simpl. rewrite <- H1. lia.
Qed.

Lemma metrics_count_trans E b w0 w1 w2 :
  metrics_count E b w0 w1 -> metrics_count E b w1 w2 ->
  metrics_count E b w0 w2.
Proof.
  intros (n & H1 & H2 & H3 & H4) (k & G1 & G2 & G3 & G4).
  exists (n + k)%nat.
  assert (Hf : ip_failures E (length (w_wire w0)) (n + k)
               = ip_failures E (length (w_wire w0)) n
                 + ip_failures E (length (w_wire w1)) k).
  { rewrite H1. clear. induction k as [|k IH]; simpl.
    - rewrite Nat.add_0_r. lia.
    - replace (n + S k)%nat with (S (n + k)) by lia. simpl. rewrite IH.
      replace (length (w_wire w0) + (n + k))%nat
        with (length (w_wire w0) + n + k)%nat by lia.
      lia. }
  split; [lia|]. split; [lia|].
  split. { rewrite G3, H3. destruct b; lia. }
  rewrite G4, H4, Hf. lia.
Qed.

Section SenderCounts.

Variable K : homa_impl_h.
Variable E : externals.
Variable rpc : nat.

Lemma xmit_data_body_counts w w' :
  message_linked (msgout (w_rpcs w rpc)) ->
  xmit_data_cond rpc w = true ->
  xmit_data_body K E rpc w = Some (false, w') ->
  metrics_count E false w w'.
Proof.
  intros Hl Hc.
  destruct (xmit_data_cond_true rpc w Hc) as [_ [i Hi]].
  pose proof (Hl i Hi) as Hlt.
  destruct (lookup_lt_is_Some_2 _ _ Hlt) as [skb Hskb].
  unfold xmit_data_body. rewrite Hi, Hskb.
  pose proof (xmit_data_throttle_frame K E rpc w) as Hfr. cbv zeta in Hfr.
  destruct (xmit_data_throttle K E rpc w) as [t w1]. cbn [fst snd] in *.
  destruct Hfr as (Hh & Hr & Hw & Hm & Hk).
  destruct t; [discriminate|].
  destruct (skb_shared skb).
  - intros H. injection H as <-.
    apply (metrics_count_same E false w w); [apply metrics_count_refl | |].
    + cbn. exact Hw.
    + cbn. exact Hm.
  - match goal with
    | |- context [__homa_xmit_data K E ?s ?r ?v] =>
      pose proof (homa_xmit_data_low_frame K E s r v) as Hlow;
        pose proof (homa_xmit_data_low_metrics K E s r v) as Hmt
    end.
    cbv zeta in Hlow, Hmt.
    destruct (__homa_xmit_data K E _ _ _) as [skb3 w3].
    cbn [fst snd] in Hlow, Hmt.
    destruct Hlow as (_ & L2 & _). destruct Hmt as [M1 _].
    intros H. injection H as <-.
    cbn [w_wire w_set_msgout w_set_rpc w_metrics] in L2, M1.
    rewrite Hw in L2. rewrite Hw, Hm in M1.
    apply (metrics_count_step E false w w); [apply metrics_count_refl | | | |].
    + cbn. rewrite L2. rewrite length_app. simpl. lia.
    + cbn. rewrite M1. reflexivity.
    + cbn. rewrite M1. cbn. lia.
    + cbn. rewrite M1. reflexivity.
Qed.

Lemma homa_xmit_data_counts w :
  message_linked (msgout (w_rpcs w rpc)) ->
  exists w',
    homa_xmit_data K E rpc w = Some w' /\ metrics_count E false w w'.
Proof.
  intros Hl.
  destruct (homa_xmit_data_exits K E rpc w Hl) as (ex & w' & Hex & Hrun & _).
  exists w'. split; [exact Hrun|].
  unfold homa_xmit_data_exit in Hex.
  destruct (xmit_data_loop_invariant K E rpc
              (fun w1 => message_linked (msgout (w_rpcs w1 rpc)) /\
                         metrics_count E false w w1))
    with (fuel := length (packets (msgout (w_rpcs w rpc))))
         (w := w) (ex := ex) (w' := w') as (wl & [Hll Hkl] & Hcase).
  - intros w1 w2 [Hl1 Hk1] Hc Hb. split.
    + exact (proj1 (xmit_data_body_linked K E rpc w1 w2 Hl1 Hc Hb)).
    + exact (metrics_count_trans _ _ _ _ _ Hk1
               (xmit_data_body_counts w1 w2 Hl1 Hc Hb)).
  - split; [exact Hl | apply metrics_count_refl].
  - exact Hex.
  - destruct ex.
    + destruct Hcase as [-> _]. exact Hkl.
    + destruct Hcase as [_ Hb].
      apply xmit_data_body_throttled in Hb as [_ ->].
      destruct (xmit_data_throttle_frame K E rpc wl) as (_ & _ & Hw & Hm & _).
      cbv zeta in Hw, Hm.
      apply (metrics_count_same E false w wl); [exact Hkl | |];
        unfold homa_add_to_throttled; destruct (bool_decide _); cbn;
        assumption.
Qed.

Variables start end_ priority : Z.

Lemma resend_data_loop_counts fuel :
  forall cur w w',
    resend_data_loop K E fuel rpc start end_ priority cur w = Some w' ->
    metrics_count E true w w'.
Proof.
  induction fuel as [|fuel IH]; intros cur w w' Hrun;
    destruct cur as [i|]; simpl in Hrun;
    try (injection Hrun as <-; apply metrics_count_refl);
    try discriminate.
  destruct (packets (msgout (w_rpcs w rpc)) !! i) as [skb|] eqn:Hskb;
    [|discriminate].
  destruct (s32 (s32 (ntohl (h_offset (hdr skb))) + HOMA_MAX_DATA_PER_PACKET)
            <=? start).
  { exact (IH _ _ _ Hrun). }
  destruct (s32 (ntohl (h_offset (hdr skb))) >=? end_).
  { injection Hrun as <-. apply metrics_count_refl. }
  destruct (skb_shared skb).
  { exact (IH _ _ _ Hrun). }
  match type of Hrun with
  | context [__homa_xmit_data K E ?s ?r ?v] =>
    pose proof (homa_xmit_data_low_frame K E s r v) as Hlow;
      pose proof (homa_xmit_data_low_metrics K E s r v) as Hmt
  end.
  cbv zeta in Hlow, Hmt.
  destruct (__homa_xmit_data K E _ _ _) as [skb3 w1].
  cbn [fst snd] in Hlow, Hmt.
  destruct Hlow as (_ & L2 & _). destruct Hmt as [M1 _].
  apply IH in Hrun.
  refine (metrics_count_trans _ _ _ _ _ _ Hrun).
  apply (metrics_count_step E true w w); [apply metrics_count_refl | | | |].
  - cbn. rewrite L2. rewrite length_app. simpl. lia.
  - cbn. rewrite M1. reflexivity.
  - cbn. rewrite M1. reflexivity.
  - cbn. rewrite M1. reflexivity.
Qed.

End SenderCounts.

(** X13.  The counters of [homa_xmit_data] match the wire: the call
    raises [packets_sent] by the number of packets it handed to IP and
    [data_xmit_errors] by the number of those that IP refused, and it
    leaves [resent_packets] alone. *)
Theorem xmit_data_counts_packets :
  forall K E rpc w,
    message_linked (msgout (w_rpcs w rpc)) ->
    exists w' (n : nat),
      homa_xmit_data K E rpc w = Some w' /\
      length (w_wire w') = (length (w_wire w) + n)%nat /\
      packets_sent_data (w_metrics w')
      = packets_sent_data (w_metrics w) + Z.of_nat n /\
      data_xmit_errors (w_metrics w')
      = data_xmit_errors (w_metrics w)
        + ip_failures E (length (w_wire w)) n /\
      resent_packets (w_metrics w') = resent_packets (w_metrics w).
Proof.
  intros K E rpc w Hl.
  destruct (homa_xmit_data_counts K E rpc w Hl)
    as (w' & Hrun & n & H1 & H2 & H3 & H4).
  exists w', n. rewrite Z.add_0_r in H3.
  repeat (split; [assumption|]). exact H3.
Qed.

Lemma xmit_data_counts_packets_witness :
  let w := unit_world unit_homa [unit_rpc 0 0; unit_rpc 1 6000] in
  message_linked (msgout (w_rpcs w 1%nat)) /\
  exists w' (n : nat),
    homa_xmit_data unit_impl (unit_externals 10000) 1 w = Some w' /\
    length (w_wire w') = (length (w_wire w) + n)%nat /\
    packets_sent_data (w_metrics w')
    = packets_sent_data (w_metrics w) + Z.of_nat n.
Proof.
  cbv zeta.
  set (w := unit_world unit_homa [unit_rpc 0 0; unit_rpc 1 6000]).
  assert (Hm : next_packet (msgout (w_rpcs w 1%nat)) = Some 0%nat /\
               length (packets (msgout (w_rpcs w 1%nat))) = 5%nat)
    by (split; vm_compute; reflexivity).
  assert (Hl : message_linked (msgout (w_rpcs w 1%nat))).
  { intros i Hi. destruct Hm as [Hn Hlen]. rewrite Hn in Hi.
    injection Hi as <-. rewrite Hlen. lia. }
  split; [exact Hl|].
  destruct (xmit_data_counts_packets unit_impl (unit_externals 10000) 1%nat w
              Hl) as (w' & n & Hrun & H1 & H2 & _).
  exists w', n. repeat (split; [assumption|]). exact H2.
Defined.

(** X14.  The counters of [homa_resend_data] match the wire: every
    packet it hands to IP is counted once in [resent_packets] and once
    in [packets_sent], and in [data_xmit_errors] when IP refused it. *)
Theorem resend_data_counts_packets :
  forall K E rpc start end_ priority w,
    exists w' (n : nat),
      homa_resend_data K E rpc start end_ priority w = Some w' /\
      length (w_wire w') = (length (w_wire w) + n)%nat /\
      resent_packets (w_metrics w')
      = resent_packets (w_metrics w) + Z.of_nat n /\
      packets_sent_data (w_metrics w')
      = packets_sent_data (w_metrics w) + Z.of_nat n /\
      data_xmit_errors (w_metrics w')
      = data_xmit_errors (w_metrics w)
        + ip_failures E (length (w_wire w)) n.
Proof.
  intros K E rpc start end_ priority w.
  destruct (homa_resend_data_frame K E rpc start end_ priority w)
    as (w' & Hrun & _).
  pose proof Hrun as Hc. unfold homa_resend_data in Hc.
  apply resend_data_loop_counts in Hc.
  destruct Hc as (n & H1 & H2 & H3 & H4).
  exists w', n. repeat (split; [assumption|]). exact H4.
Qed.

(** ** Control packets *)

Section ControlFacts.

Variable HOMA_MAX_HEADER : Z.
Variable E : externals.

Lemma inc_packets_sent_frame type st :
  let st' := inc_packets_sent type st in
  cs_wire st' = cs_wire st /\ cs_allocs st' = cs_allocs st /\
  control_xmit_errors st' = control_xmit_errors st /\
  cs_notices st' = cs_notices st /\
  w_homa (cs_world st') = w_homa (cs_world st) /\
  w_rpcs (cs_world st') = w_rpcs (cs_world st) /\
  w_wire (cs_world st') = w_wire (cs_world st) /\
  w_clock (cs_world st') = w_clock (cs_world st) /\
  w_wakeups (cs_world st') = w_wakeups (cs_world st) /\
  data_xmit_errors (w_metrics (cs_world st'))
  = data_xmit_errors (w_metrics (cs_world st)) /\
  resent_packets (w_metrics (cs_world st'))
  = resent_packets (w_metrics (cs_world st)).
Proof. destruct type; repeat split; reflexivity. Qed.

Lemma inc_packets_sent_counts type st t :
  packets_sent (inc_packets_sent type st) t
  = packets_sent st t + (if homa_packet_type_eqb t type then 1 else 0).
Proof. destruct type, t; cbn; lia. Qed.

(** The length of the packet: the contents, padded with zeroes up to
    [HOMA_MAX_HEADER]. *)
Lemma control_padding length :
  0 <= length < 2 ^ 31 -> 0 <= HOMA_MAX_HEADER < 2 ^ 31 ->
  (if s32 (u64 (HOMA_MAX_HEADER - length)) >? 0
   then u32 (u32 length + s32 (u64 (HOMA_MAX_HEADER - length)))
   else u32 length)
  = Z.max length HOMA_MAX_HEADER.
Proof.
  intros Hl Hm.
  assert (Hu : u32 length = length).
  { apply u32_small. lia. }
  rewrite Hu.
  destruct (Z_lt_le_dec length HOMA_MAX_HEADER) as [Hlt|Hge].
  - rewrite (u64_small (HOMA_MAX_HEADER - length)) by lia.
    rewrite (s32_small (HOMA_MAX_HEADER - length)) by lia.
    destruct (_ >? 0) eqn:Hc; [|lia].
    rewrite u32_small by lia. lia.
  - assert (Hw : s32 (u64 (HOMA_MAX_HEADER - length))
                 = HOMA_MAX_HEADER - length).
    { unfold s32, u64.
      change (2 ^ 64) with (2 ^ 32 * 2 ^ 32).
      change (2 ^ 32) with 4294967296 in *. change (2 ^ 31) with 2147483648 in *.
      Z.div_mod_to_equations. lia. }
    rewrite Hw. destruct (_ >? 0) eqn:Hc; lia.
Qed.

(** The packet [__homa_xmit_control] hands to IP. *)
Lemma homa_xmit_control_low_wire contents length st :
  alloc_skb_ok E (cs_allocs st) = true ->
  let o := ip_queue_xmit E
             (List.length (w_wire (cs_world st))
              + List.length (cs_wire st)) in
  let r := __homa_xmit_control HOMA_MAX_HEADER E contents length st in
  fst r = ip_err o /\
  (exists skb,
      cs_wire (snd r) = cs_wire st ++ [skb] /\
      cs_contents skb = contents /\
      cs_len skb
      = (if s32 (u64 (HOMA_MAX_HEADER - length)) >? 0
         then u32 (u32 length + s32 (u64 (HOMA_MAX_HEADER - length)))
         else u32 length) /\
      cs_vlan_tci skb = tci_at (max_prio (w_homa (cs_world st))) /\
      cs_dst skb = true) /\
  control_xmit_errors (snd r)
  = control_xmit_errors st + (if ip_err o =? 0 then 0 else 1) /\
  (forall t,
      packets_sent (snd r) t
      = packets_sent st t
        + (if homa_packet_type_eqb t (c_type (common contents))
           then 1 else 0)) /\
  w_homa (cs_world (snd r)) = w_homa (cs_world st) /\
  w_wire (cs_world (snd r)) = w_wire (cs_world st) /\
  w_rpcs (cs_world (snd r)) = w_rpcs (cs_world st) /\
  w_clock (cs_world (snd r)) = w_clock (cs_world st).
Proof.
  intros Ha. cbv zeta.
  unfold __homa_xmit_control. rewrite Ha. cbn [negb fst snd].
  set (o := ip_queue_xmit E _).
  match goal with
  | |- context [inc_packets_sent ?t ?s] =>
    pose proof (inc_packets_sent_frame t s) as Hfr;
      pose proof (inc_packets_sent_counts t s) as Hcnt
  end.
  cbv zeta in Hfr.
  destruct Hfr as (F1 & F2 & F3 & F4 & F5 & F6 & F7 & F8 & _).
  split; [reflexivity|].
  split.
  { rewrite F1. eexists. split.
    - destruct (negb (ip_err o =? 0)); cbn [cs_wire]; reflexivity.
    - cbn [cs_contents cs_len cs_vlan_tci cs_dst set_priority_control].
      split; [destruct (_ >? 0); reflexivity|].
      split; [|split; reflexivity].
      destruct (_ >? 0); reflexivity. }
  split.
  { rewrite F3. destruct (ip_err o =? 0); cbn; lia. }
  split.
  { intros t. rewrite Hcnt. f_equal.
    destruct (negb (ip_err o =? 0)); destruct t; reflexivity. }
  rewrite F5, F6, F7, F8.
  destruct (negb (ip_err o =? 0)); repeat split; reflexivity.
Qed.

End ControlFacts.

(** X15.  When no buffer can be allocated, [__homa_xmit_control] returns
    [-ENOBUFS] and does nothing else: no packet is handed to IP, no
    metric changes, and the state of the data path is untouched. *)
Theorem xmit_control_no_buffer :
  forall HOMA_MAX_HEADER E contents length st,
    alloc_skb_ok E (cs_allocs st) = false ->
    let r := __homa_xmit_control HOMA_MAX_HEADER E contents length st in
    fst r = - ENOBUFS /\
    cs_wire (snd r) = cs_wire st /\
    cs_world (snd r) = cs_world st /\
    control_xmit_errors (snd r) = control_xmit_errors st /\
    (forall t, packets_sent (snd r) t = packets_sent st t) /\
    cs_notices (snd r) = cs_notices st.
Proof.
  intros H E contents length st Ha. cbv zeta.
  unfold __homa_xmit_control. rewrite Ha. cbn.
  repeat split.
Qed.

Lemma xmit_control_no_buffer_witness :
  let E := failing_externals (fun k => Nat.eqb k 0) (fun _ => false) in
  let st := mk_control_state (unit_world unit_homa []) 0 [] 0 (fun _ => 0) 0 in
  let c := mk_control_contents (mk_common_header 0 0 0 GRANT) [] in
  alloc_skb_ok E (cs_allocs st) = false /\
  fst (__homa_xmit_control 48 E c 40 st) = - ENOBUFS.
Proof.
  cbv zeta.
  assert (Ha : alloc_skb_ok
                 (failing_externals (fun k => Nat.eqb k 0) (fun _ => false))
                 (cs_allocs (mk_control_state (unit_world unit_homa []) 0 [] 0
                               (fun _ => 0) 0)) = false) by reflexivity.
  split; [exact Ha|].
  exact (proj1 (xmit_control_no_buffer 48 _
                  (mk_control_contents (mk_common_header 0 0 0 GRANT) [])
                  40 _ Ha)).
Defined.

(** X16.  With a buffer, [__homa_xmit_control] hands exactly one packet
    to IP: the contents unchanged, padded to [HOMA_MAX_HEADER] bytes when
    shorter, tagged with the highest priority [max_prio].  It returns
    what [ip_queue_xmit] returned, counts an error in
    [control_xmit_errors], counts the packet under its type in
    [packets_sent] even when IP refused it, and never touches the link
    clock, the data packets on the wire, the RPCs or the throttled
    list. *)
Theorem xmit_control_sends_one :
  forall HOMA_MAX_HEADER E contents length st,
    alloc_skb_ok E (cs_allocs st) = true ->
    0 <= length < 2 ^ 31 ->
    0 <= HOMA_MAX_HEADER < 2 ^ 31 ->
    let o := ip_queue_xmit E
               (List.length (w_wire (cs_world st))
                + List.length (cs_wire st)) in
    let r := __homa_xmit_control HOMA_MAX_HEADER E contents length st in
    fst r = ip_err o /\
    (exists skb,
        cs_wire (snd r) = cs_wire st ++ [skb] /\
        cs_contents skb = contents /\
        cs_len skb = Z.max length HOMA_MAX_HEADER /\
        cs_vlan_tci skb = tci_at (max_prio (w_homa (cs_world st))) /\
        cs_dst skb = true) /\
    control_xmit_errors (snd r)
    = control_xmit_errors st + (if ip_err o =? 0 then 0 else 1) /\
    (forall t,
        packets_sent (snd r) t
        = packets_sent st t
          + (if homa_packet_type_eqb t (c_type (common contents))
             then 1 else 0)) /\
    w_homa (cs_world (snd r)) = w_homa (cs_world st) /\
    w_wire (cs_world (snd r)) = w_wire (cs_world st) /\
    w_rpcs (cs_world (snd r)) = w_rpcs (cs_world st) /\
    w_clock (cs_world (snd r)) = w_clock (cs_world st).
Proof.
  intros H E contents length st Ha Hl Hm. cbv zeta.
  pose proof (control_padding H length Hl Hm) as Hpad.
  destruct (homa_xmit_control_low_wire H E contents length st Ha)
    as (R1 & (skb & W1 & W2 & W3 & W4 & W5) & R3 & R4 & R5).
  split; [exact R1|].
  split.
  { exists skb. rewrite <- Hpad. repeat (split; [assumption|]). exact W5. }
  split; [exact R3|]. split; [exact R4|]. exact R5.
Qed.

Lemma xmit_control_sends_one_witness :
  let E := unit_externals 10000 in
  let st := mk_control_state (unit_world unit_homa []) 0 [] 0 (fun _ => 0) 0 in
  let c := mk_control_contents (mk_common_header 0 0 0 GRANT) [] in
  alloc_skb_ok E (cs_allocs st) = true /\
  (0 <= 40 < 2 ^ 31) /\ (0 <= 48 < 2 ^ 31) /\
  exists skb,
    cs_wire (snd (__homa_xmit_control 48 E c 40 st)) = cs_wire st ++ [skb] /\
    cs_contents skb = c /\
    cs_len skb = Z.max 40 48 /\
    cs_vlan_tci skb = tci_at (max_prio (w_homa (cs_world st))) /\
    cs_dst skb = true.
Proof.
  cbv zeta.
  assert (Ha : alloc_skb_ok (unit_externals 10000)
                 (cs_allocs (mk_control_state (unit_world unit_homa []) 0 [] 0
                               (fun _ => 0) 0)) = true) by reflexivity.
  assert (H1 : 0 <= 40 < 2 ^ 31) by lia.
  assert (H2 : 0 <= 48 < 2 ^ 31) by lia.
  split; [exact Ha|]. split; [exact H1|]. split; [exact H2|].
  exact (proj1 (proj2 (xmit_control_sends_one 48 _
                         (mk_control_contents (mk_common_header 0 0 0 GRANT) [])
                         40 _ Ha H1 H2))).
Defined.

(** X17.  [homa_xmit_control] addresses the packet from the RPC: the
    type is the one asked for, the id is the RPC's, the destination port
    is the RPC's [dport], and the source port is the socket's client
    port for a client RPC and its server port for a server RPC, all in
    network byte order; whatever the caller had put into the common
    header is overwritten, and the bytes after it go out unchanged. *)
Theorem xmit_control_addresses :
  forall HOMA_MAX_HEADER E type contents length rpc ep st,
    alloc_skb_ok E (cs_allocs st) = true ->
    0 <= client_port ep < 2 ^ 16 ->
    0 <= server_port ep < 2 ^ 16 ->
    0 <= rpc_dport ep < 2 ^ 16 ->
    let r := homa_xmit_control HOMA_MAX_HEADER E type contents length rpc ep
               st in
    exists skb,
      cs_wire (snd r) = cs_wire st ++ [skb] /\
      let h := common (cs_contents skb) in
      c_type h = type /\ c_id h = rpc_id rpc /\
      ntohs (c_dport h) = rpc_dport ep /\
      ntohs (c_sport h)
      = (if is_client ep then client_port ep else server_port ep) /\
      after_common (cs_contents skb) = after_common contents /\
      packets_sent (snd r) type = packets_sent st type + 1.
Proof.
  intros H E type contents length rpc ep st Ha Hc Hs Hd. cbv zeta.
  unfold homa_xmit_control.
  destruct (homa_xmit_control_low_wire H E
              (mk_control_contents
                 (mk_common_header
                    (if is_client ep then htons (client_port ep)
                     else htons (server_port ep))
                    (htons (rpc_dport ep)) (rpc_id rpc) type)
                 (after_common contents)) length st Ha)
    as (_ & (skb & W1 & W2 & _) & _ & R4 & _).
  exists skb. split; [exact W1|]. rewrite W2.
  cbn [common c_type c_id c_dport c_sport after_common].
  split; [reflexivity|]. split; [reflexivity|].
  split; [apply ntohs_htons; exact Hd|].
  split.
  { destruct (is_client ep); apply ntohs_htons; assumption. }
  split; [reflexivity|].
  rewrite R4. cbn [common c_type].
  destruct type; reflexivity.
Qed.

Lemma xmit_control_addresses_witness :
  let E := unit_externals 10000 in
  let st := mk_control_state (unit_world unit_homa []) 0 [] 0 (fun _ => 0) 0 in
  let c := mk_control_contents (mk_common_header 7 7 7 DATA) [0; 0; 48; 57; 4] in
  let ep := mk_rpc_endpoint false 40000 40000 99 in
  let rpc := mk_homa_rpc 1111 empty_message unit_peer in
  alloc_skb_ok E (cs_allocs st) = true /\
  (0 <= client_port ep < 2 ^ 16) /\ (0 <= server_port ep < 2 ^ 16) /\
  (0 <= rpc_dport ep < 2 ^ 16) /\
  exists skb,
    cs_wire (snd (homa_xmit_control 48 E GRANT c 40 rpc ep st))
    = cs_wire st ++ [skb] /\
    c_type (common (cs_contents skb)) = GRANT /\
    c_id (common (cs_contents skb)) = 1111 /\
    ntohs (c_dport (common (cs_contents skb))) = 40000 /\
    ntohs (c_sport (common (cs_contents skb))) = 99.
Proof.
  cbv zeta.
  set (st := mk_control_state (unit_world unit_homa []) 0 [] 0 (fun _ => 0) 0).
  set (ep := mk_rpc_endpoint false 40000 40000 99).
  assert (Ha : alloc_skb_ok (unit_externals 10000) (cs_allocs st) = true)
    by reflexivity.
  assert (H1 : 0 <= client_port ep < 2 ^ 16) by eval_ranges.
  assert (H2 : 0 <= server_port ep < 2 ^ 16) by eval_ranges.
  assert (H3 : 0 <= rpc_dport ep < 2 ^ 16) by eval_ranges.
  repeat (split; [assumption|]).
  destruct (xmit_control_addresses 48 (unit_externals 10000) GRANT
              (mk_control_contents (mk_common_header 7 7 7 DATA)
                 [0; 0; 48; 57; 4])
              40 (mk_homa_rpc 1111 empty_message unit_peer) ep st
              Ha H1 H2 H3) as (skb & Hw & Ht & Hi & Hd & Hs & _).
  exists skb. repeat (split; [assumption|]). exact Hs.
Defined.

(** ** [homa_outgoing_sysctl_changed] *)

Lemma homa_outgoing_sysctl_changed_exact cpu_khz s h :
  0 <= cpu_khz < 2 ^ 32 ->
  0 < link_mbps s < 2 ^ 31 ->
  0 <= max_nic_queue_ns s < 2 ^ 31 ->
  homa_outgoing_sysctl_changed cpu_khz s h
  = Some (mk_homa (rtt_bytes h) (link_idle_time h)
            (s32 (8 * cpu_khz / link_mbps s))
            (s32 (max_nic_queue_ns s * cpu_khz / 1000000))
            (throttle_min_bytes h) (max_prio h) (flags h)
            (throttled_rpcs h)).
Proof.
  intros Hc Hl Hn. unfold homa_outgoing_sysctl_changed.
  assert (H32 : 2 ^ 32 = 4294967296) by reflexivity.
  assert (H31 : 2 ^ 31 = 2147483648) by reflexivity.
  assert (H64 : 2 ^ 64 = 18446744073709551616) by reflexivity.
  rewrite (u32_small cpu_khz) by lia.
  rewrite (u64_small cpu_khz) by lia.
  rewrite (u64_small (link_mbps s)) by lia.
  rewrite (u64_small (max_nic_queue_ns s)) by lia.
  rewrite (u64_small (8 * cpu_khz)) by lia.
  rewrite (u64_small (max_nic_queue_ns s * cpu_khz)) by nia.
  destruct (link_mbps s =? 0) eqn:Hz; [lia|]. reflexivity.
Qed.

(** X18.  [homa_outgoing_sysctl_changed] computes its two parameters
    without any wrap in the 64-bit intermediates, for every [cpu_khz] an
    [unsigned int] can hold and every non-negative [int] setting:
    [cycles_per_kbyte] is [8 * cpu_khz / link_mbps] and
    [max_nic_queue_cycles] is [max_nic_queue_ns * cpu_khz / 1000000],
    both rounded down, as long as the results fit an [int]; nothing else
    of the transport changes.  The cycles charged for a packet with the
    new [cycles_per_kbyte] never exceed its true time on the link.  With
    [link_mbps = 0] the function divides by zero. *)
Theorem sysctl_changed_parameters :
  forall cpu_khz s h,
    (u64 (link_mbps s) = 0 ->
     homa_outgoing_sysctl_changed cpu_khz s h = None) /\
    (0 <= cpu_khz < 2 ^ 32 ->
     0 < link_mbps s < 2 ^ 31 ->
     0 <= max_nic_queue_ns s < 2 ^ 31 ->
     exists h',
       homa_outgoing_sysctl_changed cpu_khz s h = Some h' /\
       (8 * cpu_khz / link_mbps s < 2 ^ 31 ->
        cycles_per_kbyte h' = 8 * cpu_khz / link_mbps s /\
        forall bytes,
          0 <= bytes ->
          bytes * cycles_per_kbyte h' / 1000
          <= bytes * 8 * cpu_khz / (1000 * link_mbps s)) /\
       (max_nic_queue_ns s * cpu_khz / 1000000 < 2 ^ 31 ->
        max_nic_queue_cycles h'
        = max_nic_queue_ns s * cpu_khz / 1000000) /\
       rtt_bytes h' = rtt_bytes h /\
       link_idle_time h' = link_idle_time h /\
       throttle_min_bytes h' = throttle_min_bytes h /\
       max_prio h' = max_prio h /\ flags h' = flags h /\
       throttled_rpcs h' = throttled_rpcs h).
Proof.
  intros cpu_khz s h. split.
  { intros Hz. unfold homa_outgoing_sysctl_changed. rewrite Hz. reflexivity. }
  intros Hc Hl Hn.
  rewrite (homa_outgoing_sysctl_changed_exact cpu_khz s h Hc Hl Hn).
  eexists. split; [reflexivity|].
  cbn [cycles_per_kbyte max_nic_queue_cycles rtt_bytes link_idle_time
       throttle_min_bytes max_prio flags throttled_rpcs].
  split.
  { intros Hfit.
    assert (H0 : 0 <= 8 * cpu_khz / link_mbps s)
      by (apply Z.div_pos; lia).
    rewrite s32_small by lia. split; [reflexivity|].
    intros bytes Hb.
    apply Z.div_le_lower_bound; [lia|].
    pose proof (Z.mul_div_le (8 * cpu_khz) (link_mbps s) ltac:(lia)) as Hq.
    set (q := 8 * cpu_khz / link_mbps s) in *.
    pose proof (Z.mul_div_le (bytes * q) 1000 ltac:(lia)) as Hp.
    set (p := bytes * q / 1000) in *.
    assert (Hpq : 1000 * p * link_mbps s <= bytes * q * link_mbps s)
      by (apply Z.mul_le_mono_nonneg_r; lia).
    assert (Hbq : bytes * (link_mbps s * q) <= bytes * (8 * cpu_khz))
      by (apply Z.mul_le_mono_nonneg_l; lia).
    lia. }
  split.
  { intros Hfit.
    assert (H0 : 0 <= max_nic_queue_ns s * cpu_khz / 1000000)
      by (apply Z.div_pos; [apply Z.mul_nonneg_nonneg; lia | lia]).
    rewrite s32_small by lia. reflexivity. }
  repeat split.
Qed.

Lemma sysctl_changed_parameters_witness :
  let s := mk_homa_sysctl 10000 200 in
  (0 <= 2000000 < 2 ^ 32) /\ (0 < link_mbps s < 2 ^ 31) /\
  (0 <= max_nic_queue_ns s < 2 ^ 31) /\
  exists h',
    homa_outgoing_sysctl_changed 2000000 s unit_homa = Some h' /\
    cycles_per_kbyte h' = 1600 /\ max_nic_queue_cycles h' = 400.
Proof.
  cbv zeta.
  assert (H1 : 0 <= 2000000 < 2 ^ 32) by lia.
  assert (H2 : 0 < link_mbps (mk_homa_sysctl 10000 200) < 2 ^ 31)
    by eval_ranges.
  assert (H3 : 0 <= max_nic_queue_ns (mk_homa_sysctl 10000 200) < 2 ^ 31)
    by eval_ranges.
  repeat (split; [assumption|]).
  destruct (proj2 (sysctl_changed_parameters 2000000
                     (mk_homa_sysctl 10000 200) unit_homa) H1 H2 H3)
    as (h' & Hrun & Hc & Hq & _).
  exists h'. split; [exact Hrun|].
  assert (F1 : 8 * 2000000 / link_mbps (mk_homa_sysctl 10000 200) < 2 ^ 31)
    by eval_ranges.
  assert (F2 : max_nic_queue_ns (mk_homa_sysctl 10000 200) * 2000000
               / 1000000 < 2 ^ 31) by eval_ranges.
  split.
  - rewrite (proj1 (Hc F1)). reflexivity.
  - rewrite (Hq F2). reflexivity.
Defined.

(** ** The pacer *)

Lemma list_del_head rpc rest : list_del rpc (rpc :: rest) = rest.
Proof. simpl. rewrite Nat.eqb_refl. reflexivity. Qed.

Lemma pacer_done_drained m : pacer_done m = true <-> message_drained m.
Proof.
  unfold pacer_done, message_drained. rewrite orb_true_iff.
  rewrite bool_decide_eq_true. split; intros [H|H]; auto; left; lia.
Qed.

Section PacerFacts.

Variable K : homa_impl_h.
Variable E : externals.

Lemma pacer_busy_ready w :
  pacer_busy E w
  = (negb (pacer_ready_at E (w_homa w) (w_clock w)), snd (get_cycles E w)).
Proof.
  unfold pacer_busy, pacer_ready_at, get_cycles. cbn [snd].
  rewrite negb_involutive. reflexivity.
Qed.

Lemma pacer_wait_eq fuel w :
  pacer_wait E fuel w
  = if pacer_ready_at E (w_homa w) (w_clock w)
    then Some (snd (get_cycles E w))
    else match fuel with
         | O => None
         | S fuel' => pacer_wait E fuel' (snd (get_cycles E w))
         end.
Proof.
  destruct fuel; cbn [pacer_wait]; rewrite pacer_busy_ready;
    destruct (pacer_ready_at E (w_homa w) (w_clock w)); reflexivity.
Qed.

(** The busy-wait changes nothing but the number of clock readings, and
    it ends with the first reading at which the queue is short enough. *)
Lemma pacer_wait_ends fuel :
  forall w w1,
    pacer_wait E fuel w = Some w1 ->
    w_homa w1 = w_homa w /\ w_rpcs w1 = w_rpcs w /\ w_wire w1 = w_wire w /\
    w_metrics w1 = w_metrics w /\ w_wakeups w1 = w_wakeups w /\
    exists n : nat,
      w_clock w1 = S (w_clock w + n) /\ (n <= fuel)%nat /\
      pacer_ready_at E (w_homa w) (w_clock w + n) = true /\
      forall j, (j < n)%nat ->
                pacer_ready_at E (w_homa w) (w_clock w + j) = false.
Proof.
  induction fuel as [|fuel IH]; intros w w1; rewrite pacer_wait_eq;
    destruct (pacer_ready_at E (w_homa w) (w_clock w)) eqn:Hr;
    try discriminate.
  - intros H. injection H as <-. cbn. repeat (split; [reflexivity|]).
    exists 0%nat. rewrite Nat.add_0_r.
    split; [reflexivity|]. split; [lia|]. split; [exact Hr|]. intros j Hj. lia.
  - intros H. injection H as <-. cbn. repeat (split; [reflexivity|]).
    exists 0%nat. rewrite Nat.add_0_r.
    split; [reflexivity|]. split; [lia|]. split; [exact Hr|]. intros j Hj. lia.
  - intros H. apply IH in H. cbn in H.
    destruct H as (H1 & H2 & H3 & H4 & H5 & n & Hc & Hn & Hrd & Hb).
    repeat (split; [assumption|]).
    exists (S n). split; [lia|]. split; [lia|].
    split. { replace (w_clock w + S n)%nat with (S (w_clock w + n)) by lia.
             exact Hrd. }
    intros j Hj. destruct j as [|j].
    + rewrite Nat.add_0_r. exact Hr.
    + replace (w_clock w + S j)%nat with (S (w_clock w + j)) by lia.
      apply Hb. lia.
Qed.

(** The busy-wait ends as soon as one reading finds the queue short. *)
Lemma pacer_wait_total fuel :
  forall w (n : nat),
    (n <= fuel)%nat ->
    pacer_ready_at E (w_homa w) (w_clock w + n) = true ->
    exists w1, pacer_wait E fuel w = Some w1.
Proof.
  induction fuel as [|fuel IH]; intros w n Hn Hr; rewrite pacer_wait_eq;
    destruct (pacer_ready_at E (w_homa w) (w_clock w)) eqn:Hr0;
    eauto.
  - assert (n = 0%nat) as -> by lia. rewrite Nat.add_0_r in Hr. congruence.
  - destruct n as [|n]; [rewrite Nat.add_0_r in Hr; congruence|].
    apply (IH _ n); [lia|]. cbn.
    replace (w_clock w + S n)%nat with (S (w_clock w + n)) in Hr by lia.
    exact Hr.
Qed.

(** While every reading finds the queue too long, the pacer spins. *)
Lemma pacer_wait_spins fuel :
  forall w,
    (forall n, (n <= fuel)%nat ->
               pacer_ready_at E (w_homa w) (w_clock w + n) = false) ->
    pacer_wait E fuel w = None.
Proof.
  induction fuel as [|fuel IH]; intros w Hb; rewrite pacer_wait_eq;
    pose proof (Hb 0%nat ltac:(lia)) as H0; rewrite Nat.add_0_r in H0;
    rewrite H0; [reflexivity|].
  apply IH. intros n Hn. cbn.
  replace (S (w_clock w + n)) with (w_clock w + S n)%nat by lia.
  apply Hb. lia.
Qed.

Variable rpc : nat.

(** [homa_xmit_data] for an RPC that is on the throttled list already
    leaves the list and the pacer alone. *)
Lemma homa_xmit_data_listed w :
  message_linked (msgout (w_rpcs w rpc)) ->
  rpc ∈ throttled_rpcs (w_homa w) ->
  exists w',
    homa_xmit_data K E rpc w = Some w' /\
    throttled_rpcs (w_homa w') = throttled_rpcs (w_homa w) /\
    w_wakeups w' = w_wakeups w.
Proof.
  intros Hl Hin.
  destruct (homa_xmit_data_exits K E rpc w Hl) as (ex & w' & Hex & Hrun & _).
  exists w'. split; [exact Hrun|].
  unfold homa_xmit_data_exit in Hex.
  destruct (xmit_data_loop_invariant K E rpc
              (fun w1 => message_linked (msgout (w_rpcs w1 rpc)) /\
                         throttled_rpcs (w_homa w1)
                         = throttled_rpcs (w_homa w) /\
                         w_wakeups w1 = w_wakeups w))
    with (fuel := length (packets (msgout (w_rpcs w rpc))))
         (w := w) (ex := ex) (w' := w') as (wl & (Hll & Hkl & Hwl) & Hcase).
  - intros w1 w2 (Hl1 & Hk1 & Hw1) Hc Hb.
    destruct (xmit_data_body_keeps_list K E rpc w1 w2 Hl1 Hc Hb) as [Ha Hb'].
    split; [exact (proj1 (xmit_data_body_linked K E rpc w1 w2 Hl1 Hc Hb))|].
    split; congruence.
  - repeat split; [exact Hl].
  - exact Hex.
  - destruct ex.
    + destruct Hcase as [-> _]. split; assumption.
    + destruct Hcase as [_ Hb].
      apply xmit_data_body_throttled in Hb as [_ ->].
      destruct (xmit_data_throttle_frame K E rpc wl) as (Hh & _ & _ & _ & Hk).
      cbv zeta in Hh, Hk.
      unfold homa_add_to_throttled.
      rewrite Hh, Hkl. rewrite bool_decide_eq_true_2 by exact Hin.
      rewrite Hh, Hk. split; assumption.
Qed.

End PacerFacts.

(** X19.  [homa_pacer_xmit] with nothing to do: when the throttled list
    is empty, or a user context owns the socket of the RPC at its head,
    the pacer sends nothing, changes no RPC, no metric and no field of
    the transport, and leaves the list as it is; all it has done is read
    the clock until the NIC queue was short enough.  As long as the queue
    stays too long it does not return. *)
Theorem pacer_xmit_nothing_to_do :
  forall K E owned fuel w,
    (forall (n : nat),
        (n <= fuel)%nat ->
        pacer_ready_at E (w_homa w) (w_clock w + n) = true ->
        (throttled_rpcs (w_homa w) = [] \/
         exists rpc rest,
           throttled_rpcs (w_homa w) = rpc :: rest /\ owned rpc = true) ->
        exists w',
          homa_pacer_xmit K E owned fuel w = Some w' /\
          w_wire w' = w_wire w /\ w_rpcs w' = w_rpcs w /\
          w_homa w' = w_homa w /\ w_metrics w' = w_metrics w /\
          w_wakeups w' = w_wakeups w /\
          (w_clock w < w_clock w' <= S (w_clock w + n))%nat) /\
    ((forall n, (n <= fuel)%nat ->
                pacer_ready_at E (w_homa w) (w_clock w + n) = false) ->
     homa_pacer_xmit K E owned fuel w = None).
Proof.
  intros K E owned fuel w. split.
  - intros n Hn Hr Hcase.
    destruct (pacer_wait_total E fuel w n Hn Hr) as [w1 Hw].
    destruct (pacer_wait_ends E fuel w w1 Hw)
      as (H1 & H2 & H3 & H4 & H5 & n' & Hc & _ & Hr' & Hb).
    assert (Hnn : (n' <= n)%nat).
    { destruct (le_lt_dec n' n) as [Hle|Hlt]; [exact Hle|].
      rewrite (Hb n Hlt) in Hr. discriminate. }
    exists w1. unfold homa_pacer_xmit. rewrite Hw, H1.
    split.
    { destruct Hcase as [-> | (rpc & rest & -> & Ho)]; cbn [head].
      - reflexivity.
      - rewrite Ho. reflexivity. }
    repeat (split; [first [assumption | reflexivity]|]). lia.
  - intros Hb. unfold homa_pacer_xmit.
    rewrite (pacer_wait_spins E fuel w Hb). reflexivity.
Qed.

Lemma pacer_xmit_nothing_to_do_witness :
  let w := unit_world pacer_homa [unit_rpc 0 0] in
  (0 <= 3)%nat /\
  pacer_ready_at (unit_externals 10000) (w_homa w) (w_clock w + 0) = true /\
  throttled_rpcs (w_homa w) = [] /\
  exists w',
    homa_pacer_xmit unit_impl (unit_externals 10000) (fun _ => false) 3 w
    = Some w' /\
    w_wire w' = w_wire w.
Proof.
  cbv zeta.
  set (w := unit_world pacer_homa [unit_rpc 0 0]).
  assert (H1 : (0 <= 3)%nat) by lia.
  assert (H2 : pacer_ready_at (unit_externals 10000) (w_homa w)
                 (w_clock w + 0) = true) by reflexivity.
  assert (H3 : throttled_rpcs (w_homa w) = []) by reflexivity.
  repeat (split; [assumption|]).
  destruct (proj1 (pacer_xmit_nothing_to_do unit_impl (unit_externals 10000)
                     (fun _ => false) 3%nat w) 0%nat H1 H2 (or_introl H3))
    as (w' & Hrun & Hw & _).
  exists w'. split; assumption.
Defined.

Lemma StronglySorted_weaken {A} (R R' : A -> A -> Prop) (l : list A) :
  (forall a b, a ∈ l -> b ∈ l -> R a b -> R' a b) ->
  StronglySorted R l -> StronglySorted R' l.
Proof.
  intros Himp Hs. induction Hs as [|a l Hs IH Hall]; constructor.
  - apply IH. intros x y Hx Hy. apply Himp; apply elem_of_cons; right;
      assumption.
  - apply Forall_forall. intros x Hx. rewrite Forall_forall in Hall.
    apply Himp; [apply elem_of_cons; left; reflexivity
                | apply elem_of_cons; right; exact Hx | apply Hall; exact Hx].
Qed.

Section PacerHead.

Variable K : homa_impl_h.
Variable E : externals.
Variable owned : nat -> bool.

(** What [homa_pacer_xmit] does with the RPC at the head of the list. *)
Lemma homa_pacer_xmit_head fuel w (n : nat) rpc rest :
  (n <= fuel)%nat ->
  pacer_ready_at E (w_homa w) (w_clock w + n) = true ->
  throttled_rpcs (w_homa w) = rpc :: rest ->
  owned rpc = false ->
  message_linked (msgout (w_rpcs w rpc)) ->
  exists w1 w2 w',
    pacer_wait E fuel w = Some w1 /\
    w_homa w1 = w_homa w /\ w_rpcs w1 = w_rpcs w /\ w_wire w1 = w_wire w /\
    w_wakeups w1 = w_wakeups w /\
    pacer_ready_at E (w_homa w) (w_clock w1 - 1) = true /\
    (w_clock w < w_clock w1)%nat /\
    homa_xmit_data K E rpc w1 = Some w2 /\
    homa_pacer_xmit K E owned fuel w = Some w' /\
    w_rpcs w' = w_rpcs w2 /\ w_wire w' = w_wire w2 /\
    w_wakeups w' = w_wakeups w /\
    throttled_rpcs (w_homa w')
    = (if pacer_done (msgout (w_rpcs w2 rpc)) then rest else rpc :: rest).
Proof.
  intros Hn Hr Hlist Hown Hl.
  destruct (pacer_wait_total E fuel w n Hn Hr) as [w1 Hw].
  destruct (pacer_wait_ends E fuel w w1 Hw)
    as (H1 & H2 & H3 & H4 & H5 & n' & Hc & _ & Hr' & _).
  assert (Hl1 : message_linked (msgout (w_rpcs w1 rpc)))
    by (rewrite H2; exact Hl).
  assert (Hin1 : rpc ∈ throttled_rpcs (w_homa w1)).
  { rewrite H1, Hlist. apply elem_of_cons. left. reflexivity. }
  destruct (homa_xmit_data_listed K E rpc w1 Hl1 Hin1)
    as (w2 & Hrun & Hlist2 & Hwk2).
  rewrite H1, Hlist in Hlist2.
  assert (Hp : homa_pacer_xmit K E owned fuel w
               = Some (if pacer_done (msgout (w_rpcs w2 rpc))
                       then w_set_homa
                              (set_throttled_rpcs rest (w_homa w2)) w2
                       else w2)).
  { unfold homa_pacer_xmit. rewrite Hw, H1, Hlist. cbn [head].
    rewrite Hown, Hrun. fold (pacer_done (msgout (w_rpcs w2 rpc))).
    rewrite Hlist2.
    rewrite bool_decide_eq_true_2 by (apply elem_of_cons; left; reflexivity).
    rewrite list_del_head. destruct (pacer_done _); reflexivity. }
  exists w1, w2. eexists.
  split; [exact Hw|].
  split; [exact H1|]. split; [exact H2|]. split; [exact H3|].
  split; [exact H5|].
  split. { rewrite Hc. replace (S (w_clock w + n') - 1)%nat
             with (w_clock w + n')%nat by lia. exact Hr'. }
  split; [lia|].
  split; [exact Hrun|].
  split; [exact Hp|].
  destruct (pacer_done (msgout (w_rpcs w2 rpc))); cbn;
    rewrite ?Hlist2; repeat split; congruence.
Qed.

End PacerHead.

(** X20.  [homa_pacer_xmit] with work to do: once the NIC queue is short
    enough it calls [homa_xmit_data] for the RPC at the head of the
    throttled list, and takes that RPC off the list exactly when its
    message is then drained up to its grant.  The rest of the list, the
    other RPCs and the data of the buffers are untouched, the list stays
    free of duplicates, and the pacer is not woken again.  In the
    scenarios of the unit tests, a message of 5000 bytes sends two
    packets and stays at the head, and a message of 1000 bytes sends its
    only packet and leaves the list. *)
Theorem pacer_xmit_serves_head :
  (forall K E owned fuel w (n : nat) rpc rest,
      (n <= fuel)%nat ->
      pacer_ready_at E (w_homa w) (w_clock w + n) = true ->
      throttled_rpcs (w_homa w) = rpc :: rest ->
      owned rpc = false ->
      message_linked (msgout (w_rpcs w rpc)) ->
      NoDup (rpc :: rest) ->
      exists w',
        homa_pacer_xmit K E owned fuel w = Some w' /\
        let m' := msgout (w_rpcs w' rpc) in
        (message_drained m' -> throttled_rpcs (w_homa w') = rest) /\
        (~ message_drained m' -> throttled_rpcs (w_homa w') = rpc :: rest) /\
        (rpc ∈ throttled_rpcs (w_homa w') <-> ~ message_drained m') /\
        NoDup (throttled_rpcs (w_homa w')) /\
        w_wakeups w' = w_wakeups w /\
        (forall a, a <> rpc -> w_rpcs w' a = w_rpcs w a) /\
        Forall2 same_data (packets (msgout (w_rpcs w rpc))) (packets m')) /\
  pacer_report
    <$> homa_pacer_xmit unit_impl (unit_externals 10000) (fun _ => false) 0
          pacer_world
  = Some ([(0, tci_at 6, 0); (1400, tci_at 6, 0)],
          [(1%nat, 2800); (2%nat, 0); (3%nat, 0)]) /\
  pacer_report
    <$> homa_pacer_xmit unit_impl (unit_externals 10000) (fun _ => false) 0
          pacer_short_world
  = Some ([(0, tci_at 6, 0)], [(2%nat, 0)]).
Proof.
  split; [|split; vm_compute; reflexivity].
  intros K E owned fuel w n rpc rest Hn Hr Hlist Hown Hl Hnd.
  destruct (homa_pacer_xmit_head K E owned fuel w n rpc rest Hn Hr Hlist Hown
              Hl)
    as (w1 & w2 & w' & Hw & H1 & H2 & H3 & H5 & _ & _ & Hrun & Hp & Hr' & _
        & Hwk & Hl').
  assert (Hl1 : message_linked (msgout (w_rpcs w1 rpc)))
    by (rewrite H2; exact Hl).
  destruct (homa_xmit_data_keeps K E rpc w1 Hl1) as (w2' & Hrun' & Hk & _).
  rewrite Hrun in Hrun'. injection Hrun' as <-.
  exists w'. split; [exact Hp|]. cbv zeta. rewrite Hr'.
  apply NoDup_cons in Hnd as [Hnot Hnd].
  destruct (pacer_done (msgout (w_rpcs w2 rpc))) eqn:Hd.
  - assert (Hdr : message_drained (msgout (w_rpcs w2 rpc)))
      by (apply pacer_done_drained; exact Hd).
    split; [intros _; exact Hl'|].
    split; [intros Hc; contradiction|].
    split. { rewrite Hl'. split; [intros Hc; contradiction|].
             intros Hc. contradiction. }
    split; [rewrite Hl'; exact Hnd|].
    split; [exact Hwk|].
    destruct Hk as (Hs & _ & _ & _ & _ & _ & _ & Hoth).
    rewrite H2 in Hs, Hoth. split; assumption.
  - assert (Hdr : ~ message_drained (msgout (w_rpcs w2 rpc))).
    { intros Hc. apply pacer_done_drained in Hc. congruence. }
    split; [intros Hc; contradiction|].
    split; [intros _; exact Hl'|].
    split. { rewrite Hl'. split; [intros _; exact Hdr|].
             intros _. apply elem_of_cons. left. reflexivity. }
    split; [rewrite Hl'; apply NoDup_cons; split; assumption|].
    split; [exact Hwk|].
    destruct Hk as (Hs & _ & _ & _ & _ & _ & _ & Hoth).
    rewrite H2 in Hs, Hoth. split; assumption.
Qed.

Lemma pacer_xmit_serves_head_witness :
  (0 <= 0)%nat /\
  pacer_ready_at (unit_externals 10000) (w_homa pacer_world)
    (w_clock pacer_world + 0) = true /\
  throttled_rpcs (w_homa pacer_world) = [1; 2; 3]%nat /\
  message_linked (msgout (w_rpcs pacer_world 1%nat)) /\
  NoDup [1; 2; 3]%nat /\
  exists w',
    homa_pacer_xmit unit_impl (unit_externals 10000) (fun _ => false) 0
      pacer_world = Some w' /\
    NoDup (throttled_rpcs (w_homa w')).
Proof.
  assert (H1 : (0 <= 0)%nat) by lia.
  assert (H2 : pacer_ready_at (unit_externals 10000) (w_homa pacer_world)
                 (w_clock pacer_world + 0) = true) by (vm_compute; reflexivity).
  assert (H3 : throttled_rpcs (w_homa pacer_world) = [1; 2; 3]%nat)
    by (vm_compute; reflexivity).
  assert (Hm : next_packet (msgout (w_rpcs pacer_world 1%nat)) = Some 0%nat /\
               length (packets (msgout (w_rpcs pacer_world 1%nat))) = 4%nat)
    by (split; vm_compute; reflexivity).
  assert (H4 : message_linked (msgout (w_rpcs pacer_world 1%nat))).
  { intros i Hi. destruct Hm as [Hn Hlen]. rewrite Hn in Hi.
    injection Hi as <-. rewrite Hlen. lia. }
  assert (H5 : NoDup [1; 2; 3]%nat).
  { repeat (apply NoDup_cons; split;
            [rewrite ?elem_of_cons, elem_of_nil; lia|]).
    apply NoDup_nil. exact I. }
  repeat (split; [assumption|]).
  destruct (proj1 pacer_xmit_serves_head unit_impl (unit_externals 10000)
              (fun _ => false) 0%nat pacer_world 0%nat 1%nat [2; 3]%nat
              H1 H2 H3 eq_refl H4 H5) as (w' & Hrun & _ & _ & _ & Hnd & _).
  exists w'. split; assumption.
Defined.

Section PacerOrder.

Variable K : homa_impl_h.
Variable E : externals.
Variable rpc : nat.


(** Bytes left never grow while [homa_xmit_data] runs. *)
Lemma homa_xmit_data_remaining w k :
  let m := msgout (w_rpcs w rpc) in
  packets_in_order (packets m) ->
  message_at m k ->
  0 <= msg_length m < 2 ^ 31 ->
  exists w',
    homa_xmit_data K E rpc w = Some w' /\
    remaining_bytes (w_rpcs w' rpc) <= remaining_bytes (w_rpcs w rpc).
Proof.
  intros m [Hbound Hoff] Hat Hlen. subst m.
  destruct (homa_xmit_data_position K E rpc w k Hbound Hat)
    as (w' & j & Hrun & Hkj & Hat' & Hlen').
  destruct (homa_xmit_data_keeps K E rpc w (message_at_linked _ _ Hat))
    as (w2 & Hrun2 & Hk & _).
  rewrite Hrun in Hrun2. injection Hrun2 as <-.
  exists w'. split; [exact Hrun|].
  destruct Hk as (_ & Hml & _).
  destruct Hat as (Hk1 & Hno & _). destruct Hat' as (Hj1 & Hno' & _).
  unfold remaining_bytes. rewrite Hml, Hno, Hno'.
  rewrite Hlen' in Hj1.
  unfold HOMA_MAX_DATA_PER_PACKET in *.
  rewrite !s32_small by lia. lia.
Qed.



End PacerOrder.

(** X21.  [homa_pacer_xmit] keeps the throttled list in SRPT order: the
    head message only gets shorter by what the pacer sends, so whether
    the RPC stays at the head or leaves, the list is still sorted by
    bytes left. *)
Theorem pacer_xmit_keeps_order :
  forall K E owned fuel w (n : nat) rpc rest k,
    (n <= fuel)%nat ->
    pacer_ready_at E (w_homa w) (w_clock w + n) = true ->
    throttled_rpcs (w_homa w) = rpc :: rest ->
    owned rpc = false ->
    NoDup (rpc :: rest) ->
    throttled_sorted w ->
    let m := msgout (w_rpcs w rpc) in
    packets_in_order (packets m) ->
    message_at m k ->
    0 <= msg_length m < 2 ^ 31 ->
    exists w',
      homa_pacer_xmit K E owned fuel w = Some w' /\
      throttled_sorted w' /\
      remaining_bytes (w_rpcs w' rpc) <= remaining_bytes (w_rpcs w rpc).
Proof.
  intros K E owned fuel w n rpc rest k Hn Hr Hlist Hown Hnd Hs m Ho Hat Hlen.
  destruct (homa_pacer_xmit_head K E owned fuel w n rpc rest Hn Hr Hlist Hown
              (message_at_linked _ _ Hat))
    as (w1 & w2 & w' & Hw & H1 & H2 & H3 & H5 & _ & _ & Hrun & Hp & Hr' & _
        & _ & Hl').
  assert (Hm1 : msgout (w_rpcs w1 rpc) = m) by (rewrite H2; reflexivity).
  destruct (homa_xmit_data_remaining K E rpc w1 k) as (w2' & Hrun' & Hrem);
    try (rewrite Hm1; assumption).
  rewrite Hrun in Hrun'. injection Hrun' as <-.
  destruct (homa_xmit_data_keeps K E rpc w1) as (w2' & Hrun' & Hk & _).
  { rewrite Hm1. exact (message_at_linked _ _ Hat). }
  rewrite Hrun in Hrun'. injection Hrun' as <-.
  destruct Hk as (_ & _ & _ & _ & _ & _ & _ & Hoth).
  rewrite H2 in Hrem, Hoth.
  exists w'. split; [exact Hp|].
  split; [|rewrite Hr'; exact Hrem].
  unfold throttled_sorted in *. rewrite Hr', Hl'. rewrite Hlist in Hs.
  apply NoDup_cons in Hnd as [Hnot Hnd].
  apply StronglySorted_inv in Hs as [Hsr Hall].
  assert (Hsame : forall a, a ∈ rest ->
                            remaining_bytes (w_rpcs w2 a)
                            = remaining_bytes (w_rpcs w a)).
  { intros a Ha. rewrite Hoth; [reflexivity|].
    intros ->. contradiction. }
  assert (Hsr' : StronglySorted (fewer_remaining (w_rpcs w2)) rest).
  { apply (StronglySorted_weaken (fewer_remaining (w_rpcs w))); [|exact Hsr].
    intros a b Ha Hb. unfold fewer_remaining.
    rewrite (Hsame a Ha), (Hsame b Hb). exact id. }
  destruct (pacer_done _); [exact Hsr'|].
  constructor; [exact Hsr'|].
  apply Forall_forall. intros x Hx. rewrite Forall_forall in Hall.
  pose proof (Hall x Hx) as Hrx. unfold fewer_remaining in *.
  rewrite (Hsame x Hx). lia.
Qed.

Lemma pacer_xmit_keeps_order_witness :
  (0 <= 0)%nat /\
  pacer_ready_at (unit_externals 10000) (w_homa pacer_world)
    (w_clock pacer_world + 0) = true /\
  throttled_rpcs (w_homa pacer_world) = [1; 2; 3]%nat /\
  NoDup [1; 2; 3]%nat /\
  throttled_sorted pacer_world /\
  packets_in_order (packets (msgout (w_rpcs pacer_world 1%nat))) /\
  message_at (msgout (w_rpcs pacer_world 1%nat)) 0 /\
  (0 <= msg_length (msgout (w_rpcs pacer_world 1%nat)) < 2 ^ 31) /\
  exists w',
    homa_pacer_xmit unit_impl (unit_externals 10000) (fun _ => false) 0
      pacer_world = Some w' /\
    throttled_sorted w'.
Proof.
  assert (H1 : (0 <= 0)%nat) by lia.
  assert (H2 : pacer_ready_at (unit_externals 10000) (w_homa pacer_world)
                 (w_clock pacer_world + 0) = true) by (vm_compute; reflexivity).
  assert (H3 : throttled_rpcs (w_homa pacer_world) = [1; 2; 3]%nat)
    by (vm_compute; reflexivity).
  assert (H5 : NoDup [1; 2; 3]%nat).
  { repeat (apply NoDup_cons; split;
            [rewrite ?elem_of_cons, elem_of_nil; lia|]).
    apply NoDup_nil. exact I. }
  assert (H6 : throttled_sorted pacer_world).
  { unfold pacer_world.
    apply (add_all_to_throttled_keeps [1; 2; 3]%nat); constructor. }
  assert (Hr : 0 <= 5000 <= 1000000) by lia.
  destruct (unit_rpc_in_order 1 5000 Hr) as (Ho & Hat & Hl & _).
  assert (Hrpc : w_rpcs pacer_world 1%nat = unit_rpc 1 5000).
  { unfold pacer_world.
    destruct (add_all_to_throttled_keeps [1; 2; 3]%nat
                (unit_world pacer_homa
                   [unit_rpc 0 0; unit_rpc 1 5000; unit_rpc 2 10000;
                    unit_rpc 3 15000])) as (_ & _ & Hrs & _);
      [constructor | constructor |].
    cbv zeta in Hrs. rewrite Hrs. reflexivity. }
  rewrite <- Hrpc in Ho, Hat, Hl.
  assert (H9 : 0 <= msg_length (msgout (w_rpcs pacer_world 1%nat)) < 2 ^ 31)
    by (rewrite Hl; lia).
  repeat (split; [assumption|]).
  destruct (pacer_xmit_keeps_order unit_impl (unit_externals 10000)
              (fun _ => false) 0%nat pacer_world 0%nat 1%nat [2; 3]%nat 0%nat
              H1 H2 H3 eq_refl H5 H6 Ho Hat H9) as (w' & Hrun & Hs & _).
  exists w'. split; assumption.
Defined.



(** ** From [homa_message_out_init] to the wire *)

Lemma payload_total_imap (f : nat -> sk_buff -> sk_buff) (l : list sk_buff) :
  (forall i skb, payload (f i skb) = payload skb) ->
  payload_total (imap f l) = payload_total l.
Proof.
  revert f. induction l as [|a l IH]; intros f Hf; [reflexivity|].
  simpl. fold (payload_total l).
  change (fold_right (fun skb acc => payload skb + acc) 0
            (imap (f ∘ S) l)) with (payload_total (imap (f ∘ S) l)).
  rewrite Hf, IH; [reflexivity|]. intros i skb. apply Hf.
Qed.

(** When no buffer is shared, a run of [homa_xmit_data] from the first
    buffer sends every buffer it passes. *)
Lemma xmit_wire_all E r pkts (j : nat) :
  Forall (fun skb => skb_shared skb = false) pkts ->
  (j <= length pkts)%nat ->
  xmit_wire E r pkts 0 j = imap (xmit_wire_form E r) (take j pkts).
Proof.
  intros Hun. induction j as [|j IH]; intros Hj.
  - rewrite xmit_wire_nil. reflexivity.
  - rewrite xmit_wire_S by lia. rewrite IH by lia.
    destruct (lookup_lt_is_Some_2 pkts j) as [skb Hskb]; [lia|].
    unfold xmit_wire_entry. rewrite Hskb.
    rewrite Forall_lookup in Hun. rewrite (Hun j skb Hskb).
    rewrite (take_S_r _ _ _ Hskb). rewrite imap_app. simpl.
    rewrite length_take, Nat.min_l by lia. rewrite Nat.add_0_r.
    reflexivity.
Qed.

(** The buffers of a fresh message have one holder each. *)
Lemma homa_message_out_init_unshared K E h len dest dport sport id m :
  0 <= len < 2 ^ 64 ->
  0 <= HOMA_MAX_MESSAGE_LENGTH K < 2 ^ 31 ->
  homa_message_out_init K E h len dest dport sport id = Some (0, m) ->
  Forall (fun skb => skb_shared skb = false) (packets m) /\
  granted m = Z.min (rtt_bytes h) len.
Proof.
  intros Hlen HK Hrun.
  destruct (homa_message_out_init_success _ _ _ _ _ _ _ _ _ Hlen HK Hrun)
    as [_ ->].
  cbv zeta. cbn [packets set_next set_packets granted]. split; [|reflexivity].
  apply Forall_lookup_2. intros i skb Hi.
  assert (Hlt : (i < init_passes len)%nat).
  { apply lookup_lt_Some in Hi. rewrite init_built_from_length in Hi.
    exact Hi. }
  rewrite init_built_from_lookup in Hi by exact Hlt.
  injection Hi as <-. reflexivity.
Qed.

(** X23.  A message that fits the unscheduled limit goes out whole:
    after a successful [homa_message_out_init] with [len <= rtt_bytes],
    one call of [homa_xmit_data] with throttling switched off sends every
    buffer exactly once and in order, packet [i] at offset
    [i * HOMA_MAX_DATA_PER_PACKET] with [retransmit = 0]; the payloads on
    the wire add up to [len], and [next_packet] ends up [NULL]. *)
Theorem init_then_xmit_sends_message :
  forall K E h len dest dport sport id m rpc w,
    0 <= len <= HOMA_MAX_MESSAGE_LENGTH K ->
    HOMA_MAX_MESSAGE_LENGTH K + HOMA_MAX_DATA_PER_PACKET < 2 ^ 31 ->
    len <= rtt_bytes h ->
    homa_message_out_init K E h len dest dport sport id = Some (0, m) ->
    msgout (w_rpcs w rpc) = m ->
    Z.land (flags (w_homa w)) (HOMA_FLAG_DONT_THROTTLE K) <> 0 ->
    exists w' sent,
      homa_xmit_data K E rpc w = Some w' /\
      w_wire w' = w_wire w ++ sent /\
      payload_total sent = len /\
      length sent = length (packets m) /\
      (forall (i : nat) s,
          sent !! i = Some s ->
          wire_offset s = HOMA_MAX_DATA_PER_PACKET * Z.of_nat i /\
          h_retransmit (hdr s) = 0) /\
      next_packet (msgout (w_rpcs w' rpc)) = None /\
      len <= next_offset (msgout (w_rpcs w' rpc)).
Proof.
  intros K E h len dest dport sport id m rpc w Hlen HK Hrtt Hinit Hm Hflag.
  assert (HK' : 0 <= HOMA_MAX_MESSAGE_LENGTH K < 2 ^ 31)
    by (unfold HOMA_MAX_DATA_PER_PACKET in HK; lia).
  assert (Hlen64 : 0 <= len < 2 ^ 64) by lia.
  destruct (homa_message_out_init_unshared _ _ _ _ _ _ _ _ _ Hlen64 HK' Hinit)
    as [Hun Hgr].
  destruct (homa_message_out_init_in_order _ _ _ _ _ _ _ _ _ Hlen HK Hinit)
    as ([Hbound Hoff] & Hat & Hml & Hcount).
  destruct (homa_xmit_data_drains K E rpc w 0) as (w' & Hrun & Hp);
    try (rewrite Hm); try assumption; try lia.
  { rewrite Hml. exact Hcount. }
  unfold xmit_progress in Hp. cbv zeta in Hp. rewrite Hm in Hp.
  destruct Hp as (_ & Hat' & _ & _ & Hlen' & _ & _ & _ & Hwire & _).
  rewrite (xmit_wire_all E (w_rpcs w rpc) (packets m) _ Hun (Nat.le_refl _))
    in Hwire.
  rewrite firstn_all in Hwire.
  exists w', (imap (xmit_wire_form E (w_rpcs w rpc)) (packets m)).
  split; [exact Hrun|]. split; [exact Hwire|].
  split.
  { rewrite payload_total_imap.
    - destruct (homa_message_out_init_success _ _ _ _ _ _ _ _ _ Hlen64 HK'
                  Hinit) as [_ ->].
      cbv zeta. cbn [packets set_next set_packets].
      rewrite payload_total_init_built_from by reflexivity. lia.
    - intros i skb.
      destruct (xmit_wire_form_fields E (w_rpcs w rpc) i skb)
        as (_ & _ & _ & _ & Hpay). exact Hpay. }
  split; [apply length_imap|].
  split.
  { intros i s Hs. apply list_lookup_imap_Some in Hs as (skb & Hskb & ->).
    destruct (xmit_wire_form_fields E (w_rpcs w rpc) i skb)
      as (Ho & Hre & _). cbv zeta in Ho, Hre.
    unfold wire_offset. rewrite Ho. split; [exact (Hoff i skb Hskb) | exact Hre]. }
  destruct Hat' as (_ & Hno & Hnp). rewrite Hlen' in Hnp.
  rewrite Nat.ltb_irrefl in Hnp. split; [exact Hnp|].
  rewrite Hno. unfold HOMA_MAX_DATA_PER_PACKET in *.
  rewrite Hcount. Z.div_mod_to_equations. lia.
Qed.

Lemma init_then_xmit_sends_message_witness :
  let w := unit_world unit_homa [unit_rpc 0 0; unit_rpc 1 3000] in
  (0 <= 3000 <= HOMA_MAX_MESSAGE_LENGTH unit_impl) /\
  (HOMA_MAX_MESSAGE_LENGTH unit_impl + HOMA_MAX_DATA_PER_PACKET < 2 ^ 31) /\
  (3000 <= rtt_bytes unit_homa) /\
  Z.land (flags (w_homa w)) (HOMA_FLAG_DONT_THROTTLE unit_impl) <> 0 /\
  exists m w' sent,
    homa_message_out_init unit_impl (unit_externals 10000) unit_homa 3000
      unit_peer 99 40000 1 = Some (0, m) /\
    msgout (w_rpcs w 1%nat) = m /\
    homa_xmit_data unit_impl (unit_externals 10000) 1 w = Some w' /\
    w_wire w' = w_wire w ++ sent /\
    payload_total sent = 3000.
Proof.
  cbv zeta.
  set (w := unit_world unit_homa [unit_rpc 0 0; unit_rpc 1 3000]).
  assert (H1 : 0 <= 3000 <= HOMA_MAX_MESSAGE_LENGTH unit_impl) by eval_ranges.
  assert (H2 : HOMA_MAX_MESSAGE_LENGTH unit_impl + HOMA_MAX_DATA_PER_PACKET
               < 2 ^ 31) by eval_ranges.
  assert (H3 : 3000 <= rtt_bytes unit_homa) by eval_ranges.
  assert (H4 : Z.land (flags (w_homa w)) (HOMA_FLAG_DONT_THROTTLE unit_impl)
               <> 0) by eval_ranges.
  repeat (split; [assumption|]).
  destruct (homa_message_out_init_total unit_impl (unit_externals 10000)
              unit_homa 3000 unit_peer 99 40000 1) as [[e m] Hrun].
  assert (He : fst <$> homa_message_out_init unit_impl (unit_externals 10000)
                 unit_homa 3000 unit_peer 99 40000 1 = Some 0)
    by (vm_compute; reflexivity).
  rewrite Hrun in He. injection He as ->.
  assert (Hm : msgout (w_rpcs w 1%nat) = m).
  { change (w_rpcs w 1%nat) with (unit_rpc 1 3000). unfold unit_rpc.
    rewrite Hrun. reflexivity. }
  destruct (init_then_xmit_sends_message unit_impl (unit_externals 10000)
              unit_homa 3000 unit_peer 99 40000 1 m 1%nat w
              H1 H2 H3 Hrun Hm H4) as (w' & sent & Hx & Hw & Hp & _).
  exists m, w', sent. repeat (split; [assumption|]). exact Hp.
Defined.

(** ** [homa_message_out_destroy] *)

(** X24.  [homa_message_out_destroy] frees every buffer of an
    initialised message and can be called again without harm; it leaves a
    message whose length is negative alone.  It never touches
    [next_packet], which keeps pointing at a freed buffer if it was not
    [NULL]; after [homa_message_out_reset] the message is consistent
    again, and [homa_xmit_data] finds nothing to send. *)
Theorem destroy_frees_buffers :
  forall m,
    let d := homa_message_out_destroy m in
    (msg_length m < 0 -> d = m) /\
    (0 <= msg_length m ->
     packets d = [] /\ payload_total (packets d) = 0 /\
     next_packet d = next_packet m /\
     (message_linked d <-> next_packet m = None) /\
     message_at (homa_message_out_reset d) 0 /\
     forall K E rpc w,
       msgout (w_rpcs w rpc) = homa_message_out_reset d ->
       homa_xmit_data K E rpc w = Some w) /\
    homa_message_out_destroy d = d.
Proof.
  intros m. cbv zeta. unfold homa_message_out_destroy at 1 2 3 4 5 6 7.
  split; [|split].
  - intros Hneg. destruct (msg_length m <? 0) eqn:Hc; [reflexivity | lia].
  - intros Hpos. destruct (msg_length m <? 0) eqn:Hc; [lia|].
    cbn [packets set_packets next_packet].
    split; [reflexivity|]. split; [reflexivity|]. split; [reflexivity|].
    split.
    { unfold message_linked. cbn [packets set_packets next_packet length].
      split.
      - intros Hl. destruct (next_packet m) as [i|]; [|reflexivity].
        pose proof (Hl i eq_refl). lia.
      - intros Hn i Hi. congruence. }
    split.
    { unfold message_at, homa_message_out_reset. cbn.
      destruct (_ >? _); cbn; repeat split; lia. }
    intros K E rpc w Hw.
    assert (Hc' : xmit_data_cond rpc w = false).
    { apply xmit_data_cond_false. rewrite Hw. right.
      unfold homa_message_out_reset. cbn. destruct (_ >? _); reflexivity. }
    unfold homa_xmit_data, homa_xmit_data_exit.
    destruct (length _); simpl; rewrite Hc'; reflexivity.
  - unfold homa_message_out_destroy.
    destruct (msg_length m <? 0) eqn:Hc; [rewrite Hc; reflexivity|].
    cbn [msg_length set_packets]. rewrite Hc. reflexivity.
Qed.

Lemma destroy_frees_buffers_witness :
  let m := msgout (unit_rpc 1 3000) in
  (0 <= msg_length m) /\
  packets (homa_message_out_destroy m) = [] /\
  next_packet (homa_message_out_destroy m) = next_packet m.
Proof.
  cbv zeta.
  assert (H0 : 0 <= msg_length (msgout (unit_rpc 1 3000))) by eval_ranges.
  split; [exact H0|].
  destruct (proj1 (proj2 (destroy_frees_buffers (msgout (unit_rpc 1 3000))))
              H0) as (Ha & _ & Hb & _).
  split; assumption.
Defined.

(** ** [homa_add_to_throttled]: what a call changes *)

(** X25.  [homa_add_to_throttled] wakes the pacer exactly when it links
    the RPC into the list, and the list then holds the RPC once more and
    everything it held before; whether it inserts or not, it sends
    nothing, reads no clock, and changes no RPC, no metric and no other
    field of the transport. *)
Theorem add_to_throttled_effect :
  forall rpc w,
    let w' := homa_add_to_throttled rpc w in
    (rpc ∉ throttled_rpcs (w_homa w) ->
     throttled_rpcs (w_homa w') ≡ₚ rpc :: throttled_rpcs (w_homa w) /\
     w_wakeups w' = S (w_wakeups w)) /\
    (rpc ∈ throttled_rpcs (w_homa w) -> w_wakeups w' = w_wakeups w) /\
    w_rpcs w' = w_rpcs w /\ w_wire w' = w_wire w /\
    w_metrics w' = w_metrics w /\ w_clock w' = w_clock w /\
    w_homa w' = set_throttled_rpcs (throttled_rpcs (w_homa w')) (w_homa w).
Proof.
  intros rpc w. cbv zeta.
  split; [|split].
  - intros Hnot.
    destruct (homa_add_to_throttled_position rpc w Hnot)
      as (l1 & l2 & H1 & H2 & _).
    split.
    + rewrite H2, H1. symmetry. apply Permutation_middle.
    + unfold homa_add_to_throttled.
      rewrite bool_decide_eq_false_2 by exact Hnot. reflexivity.
  - intros Hin. unfold homa_add_to_throttled.
    rewrite bool_decide_eq_true_2 by exact Hin. reflexivity.
  - unfold homa_add_to_throttled. destruct (bool_decide _); cbn;
      repeat split; destruct (w_homa w); reflexivity.
Qed.

Lemma add_to_throttled_effect_witness :
  (1%nat ∉ throttled_rpcs (w_homa srpt_world)) /\
  w_wakeups (homa_add_to_throttled 1 srpt_world) = S (w_wakeups srpt_world).
Proof.
  assert (He : throttled_rpcs (w_homa srpt_world) = []) by reflexivity.
  assert (Hnot : 1%nat ∉ throttled_rpcs (w_homa srpt_world)).
  { rewrite He. apply not_elem_of_nil. }
  split; [exact Hnot|].
  exact (proj2 (proj1 (add_to_throttled_effect 1%nat srpt_world) Hnot)).
Defined.
